(** * ClickHouse MCP server: bridge dispatcher, schema manager, connection lifecycle

    A shallow embedding of [src/main.py] (MCPRequest, SchemaManager,
    BridgeHandler) and [src/clickhouse_mcp_tools.py] (the four tool classes and
    ClickHouseToolHandler), and the properties of the protocol dispatcher
    proved over it.

    Python values are an inductive type, a [str] is its sequence of code
    points, a [dict] built by a literal or by [json.loads] is an association
    list in insertion order, and [self.connections] is a finite map.  Code
    that raises or mutates runs in a state-and-exception monad whose state
    holds the handler's fields and the trace of what reached the outside
    (driver calls, log records). *)

From Stdlib Require Import ZArith NArith List Bool Lia.
From Stdlib Require Import Strings.Byte Strings.String Numbers.DecimalString.
From stdpp Require Import base option countable gmap.
Import ListNotations.

Set Warnings "-register-all".

Local Open Scope N_scope.

(** ** Python [str]: a sequence of Unicode code points *)

Inductive pystr := Str (cps : list N).

Definition code_points (s : pystr) : list N := match s with Str cps => cps end.

Definition pystr_of_bytes (bs : list Byte.byte) : pystr :=
  Str (List.map (fun b => N.of_nat (Byte.to_nat b)) bs).

(** Only texts of printable ASCII are shown back as literals. *)
Definition bytes_of_pystr (s : pystr) : option (list Byte.byte) :=
  List.fold_right
    (fun c acc =>
       match acc, Byte.of_N c with
       | Some l, Some b => if (32 <=? c) && (c <? 127) then Some (b :: l) else None
       | _, _ => None
       end)
    (Some []) (code_points s).

Declare Scope pystr_scope.
Delimit Scope pystr_scope with py.
Bind Scope pystr_scope with pystr.
String Notation pystr pystr_of_bytes bytes_of_pystr : pystr_scope.

Definition str_add (a b : pystr) : pystr := Str (code_points a ++ code_points b).
Infix "+++" := str_add (at level 60, right associativity) : pystr_scope.

Local Open Scope pystr_scope.

#[global] Instance pystr_eq_dec : EqDecision pystr.
Proof. solve_decision. Defined.

#[global] Instance pystr_countable : Countable pystr.
Proof. by apply (inj_countable' code_points Str); intros []. Defined.

Definition str_eqb (a b : pystr) : bool := bool_decide (a = b).

Definition str_of_string (s : string) : pystr := pystr_of_bytes (list_byte_of_string s).

(** [len(s) == 0] *)
Definition str_is_empty (s : pystr) : bool :=
  match code_points s with [] => true | _ => false end.

(** [sep.join(parts)] *)
Fixpoint str_join (sep : pystr) (parts : list pystr) : pystr :=
  match parts with
  | [] => ""
  | [p] => p
  | p :: rest => p +++ sep +++ str_join sep rest
  end.

(** [s.startswith(prefix)] *)
Fixpoint cps_startswith (s prefix : list N) : bool :=
  match prefix, s with
  | [], _ => true
  | p :: prefix', c :: s' => (p =? c) && cps_startswith s' prefix'
  | _ :: _, [] => false
  end.

Definition startswith (s prefix : pystr) : bool :=
  cps_startswith (code_points s) (code_points prefix).

(** [sub in s] for two strings: [sub] occurs in [s] as a contiguous run. *)
Fixpoint cps_contains (s sub : list N) : bool :=
  cps_startswith s sub ||
  match s with
  | [] => false
  | _ :: s' => cps_contains s' sub
  end.

Definition str_contains (s sub : pystr) : bool :=
  cps_contains (code_points s) (code_points sub).

(** The characters [str.strip()] removes: those for which [str.isspace] holds
    (bidirectional type WS, B or S, or category Zs). *)
Definition is_space (c : N) : bool :=
  ((9 <=? c) && (c <=? 13)) || ((28 <=? c) && (c <=? 32)) ||
  (c =? 133) || (c =? 160) || (c =? 5760) ||
  ((8192 <=? c) && (c <=? 8202)) || (c =? 8232) || (c =? 8233) ||
  (c =? 8239) || (c =? 8287) || (c =? 12288).

Fixpoint lstrip_cps (s : list N) : list N :=
  match s with
  | c :: s' => if is_space c then lstrip_cps s' else s
  | [] => []
  end.

Definition rstrip_cps (s : list N) : list N := rev (lstrip_cps (rev s)).

(** [s.strip()] *)
Definition strip (s : pystr) : pystr := Str (rstrip_cps (lstrip_cps (code_points s))).

Definition is_ascii (c : N) : bool := c <? 128.

Definition ascii_lower (c : N) : N :=
  if (65 <=? c) && (c <=? 90) then c + 32 else c.

(** Decimal text of an integer, as [str(n)] and [json.dumps(n)] give it. *)
Definition str_of_Z (z : Z) : pystr := str_of_string (NilZero.string_of_int (Z.to_int z)).

Definition hex_digit (d : N) : N := if d <? 10 then 48 + d else 87 + d.

(** [format(n, '04x')] for [n < 0x10000] *)
Definition hex4 (n : N) : list N :=
  [hex_digit (n / 4096 mod 16); hex_digit (n / 256 mod 16);
   hex_digit (n / 16 mod 16); hex_digit (n mod 16)].

(** ** Python values

    What [json.loads] hands to the server and what the server hands back.  A
    [float] is carried as the text [repr] gives for it: the code formats
    floats and never computes with them.  A [dict] keeps its items in
    insertion order and holds no key twice. *)

Inductive pyval :=
| PNone
| PBool (b : bool)
| PInt (z : Z)
| PFloat (repr : pystr)
| PStr (s : pystr)
| PList (items : list pyval)
| PDict (items : list (pystr * pyval)).

(** [type(v).__name__] *)
Definition type_name (v : pyval) : pystr :=
  match v with
  | PNone => "NoneType"
  | PBool _ => "bool"
  | PInt _ => "int"
  | PFloat _ => "float"
  | PStr _ => "str"
  | PList _ => "list"
  | PDict _ => "dict"
  end.

(** [d.get(key)] on the items of a dict whose keys are [str]. *)
Fixpoint dict_get (key : pystr) (items : list (pystr * pyval)) : option pyval :=
  match items with
  | [] => None
  | (k, v) :: rest => if str_eqb key k then Some v else dict_get key rest
  end.

(** [key in d] *)
Definition dict_has (key : pystr) (items : list (pystr * pyval)) : bool :=
  match dict_get key items with Some _ => true | None => false end.

(** [bool(v)] *)
Definition truthy (v : pyval) : bool :=
  match v with
  | PNone => false
  | PBool b => b
  | PInt z => negb (z =? 0)%Z
  | PFloat r => negb (str_eqb r "0.0" || str_eqb r "-0.0")
  | PStr s => negb (str_is_empty s)
  | PList items => match items with [] => false | _ => true end
  | PDict items => match items with [] => false | _ => true end
  end.

(** [a or b] *)
Definition py_or (a b : pyval) : pyval := if truthy a then a else b.

(** [lit == v] where the left operand is a [str]: equal only to the same [str]. *)
Definition str_eq_val (lit : pystr) (v : pyval) : bool :=
  match v with PStr s => str_eqb lit s | _ => false end.

(** Lists and dicts have no hash, every other value here has one. *)
Definition hashable (v : pyval) : bool :=
  match v with PList _ | PDict _ => false | _ => true end.

(** *** [json.dumps] with its defaults ([ensure_ascii], separators [", "] and [": "]) *)

Definition dq : pystr := Str [34].

Definition json_escape_char (c : N) : list N :=
  if c =? 34 then [92; 34]
  else if c =? 92 then [92; 92]
  else if c =? 10 then [92; 110]
  else if c =? 13 then [92; 114]
  else if c =? 9 then [92; 116]
  else if c =? 8 then [92; 98]
  else if c =? 12 then [92; 102]
  else if (32 <=? c) && (c <=? 126) then [c]
  else if c <? 65536 then [92; 117] ++ hex4 c
  else
    let v := c - 65536 in
    [92; 117] ++ hex4 (N.lor 55296 (N.land (N.shiftr v 10) 1023)) ++
    [92; 117] ++ hex4 (N.lor 56320 (N.land v 1023)).

Definition json_string (s : pystr) : pystr :=
  dq +++ Str (List.concat (List.map json_escape_char (code_points s))) +++ dq.

Definition json_float (r : pystr) : pystr :=
  if str_eqb r "nan" then "NaN"
  else if str_eqb r "inf" then "Infinity"
  else if str_eqb r "-inf" then "-Infinity"
  else r.

Fixpoint json_dumps (v : pyval) : pystr :=
  match v with
  | PNone => "null"
  | PBool true => "true"
  | PBool false => "false"
  | PInt z => str_of_Z z
  | PFloat r => json_float r
  | PStr s => json_string s
  | PList items => "[" +++ str_join ", " (List.map json_dumps items) +++ "]"
  | PDict items =>
      "{" +++ str_join ", "
        (List.map (fun kv => json_string (fst kv) +++ ": " +++ json_dumps (snd kv)) items)
      +++ "}"
  end.

(** *** [str(v)] and [repr(v)]

    [repr] of a [str] picks its quotes and escapes by the Unicode database; it
    is taken from the interpreter as [repr_str]. *)

Section Formatting.
Variable repr_str : pystr -> pystr.

Fixpoint py_repr (v : pyval) : pystr :=
  match v with
  | PNone => "None"
  | PBool true => "True"
  | PBool false => "False"
  | PInt z => str_of_Z z
  | PFloat r => r
  | PStr s => repr_str s
  | PList items => "[" +++ str_join ", " (List.map py_repr items) +++ "]"
  | PDict items =>
      "{" +++ str_join ", "
        (List.map (fun kv => repr_str (fst kv) +++ ": " +++ py_repr (snd kv)) items)
      +++ "}"
  end.

(** [str(v)], what an f-string field [{v}] renders. *)
Definition py_str (v : pyval) : pystr :=
  match v with
  | PStr s => s
  | _ => py_repr v
  end.

End Formatting.

(** ** Exceptions, the outside world, and the monad *)

(** The exceptions the modelled code can meet.  [ExternalError] is anything
    the ClickHouse driver, or the shaping of its result, raises. *)
Inductive exn :=
| AttributeError (obj_type attr : pystr)
| KeyError (key : pystr)
| TypeError_unhashable (obj_type : pystr)
| TypeError_not_iterable (obj_type : pystr)
| TypeError_not_a_mapping (obj_type : pystr)
| TypeError_multiple_values (param : pystr)
| TypeError_not_subscriptable (obj_type : pystr)
| ExternalError (description : pystr).

(** The four tool objects [ClickHouseToolHandler.__init__] creates. *)
Inductive tool := RunSelectQuery | ListDatabases | ListTables | DescribeTable.

Inductive log_level := INFO | ERROR.

(** What leaves the process: calls into the driver and log records. *)
Inductive event :=
| DriverConnect
| DriverQuery (sql : pystr)
| LogRecord (lvl : log_level) (msg : pystr).

(** What the interpreter, the configuration and the database decide.

    - [lower_non_ascii]: [str.lower()] of a text with a character outside ASCII
      (the Unicode case tables);
    - [repr_str]: [repr] of a [str];
    - [exc_text]: [str(e)];
    - [clickhouse_host], [clickhouse_port]: CLICKHOUSE_HOST and CLICKHOUSE_PORT;
    - [driver_connect]: [clickhouse_connect.get_client(...)], [None] when it
      returns a client, the exception when it raises;
    - [driver_query t history sql args]: [client.query(sql)] followed by the
      shaping of its rows by tool [t] (the rest of the [try] block of
      [t.execute], which repeats the arguments [args] in its output): the text
      [json.dumps] returns, or the exception either step raises.  [history] is
      everything that left the process before. *)
Record runtime := {
  lower_non_ascii : pystr -> pystr;
  repr_str : pystr -> pystr;
  exc_text : exn -> pystr;
  clickhouse_host : pystr;
  clickhouse_port : Z;
  driver_connect : list event -> option exn;
  driver_query : tool -> list event -> pystr -> list pyval -> exn + pystr
}.

(** The mutable fields of a [BridgeHandler] and the trace of events so far.
    [client] says whether [tool_handler.connection._client] is set. *)
Record state := {
  client : bool;
  connections : gmap pystr bool;
  trace : list event
}.

Inductive outcome (A : Type) :=
| Returned (a : A)
| Raised (e : exn).
Arguments Returned {A} a.
Arguments Raised {A} e.

Definition M (A : Type) : Type := state -> outcome A * state.

Definition ret {A} (a : A) : M A := fun s => (Returned a, s).

Definition raise {A} (e : exn) : M A := fun s => (Raised e, s).

Definition bind {A B} (m : M A) (k : A -> M B) : M B :=
  fun s =>
    match m s with
    | (Returned a, s') => k a s'
    | (Raised e, s') => (Raised e, s')
    end.

(** [try: m  except Exception as e: handler(e)] *)
Definition try_except {A} (m : M A) (handler : exn -> M A) : M A :=
  fun s =>
    match m s with
    | (Returned a, s') => (Returned a, s')
    | (Raised e, s') => handler e s'
    end.

Definition emit (ev : event) : M unit :=
  fun s => (Returned tt,
            {| client := client s; connections := connections s; trace := trace s ++ [ev] |}).

Definition get_trace : M (list event) := fun s => (Returned (trace s), s).

Definition get_client_field : M bool := fun s => (Returned (client s), s).

Definition set_client_field (b : bool) : M unit :=
  fun s => (Returned tt,
            {| client := b; connections := connections s; trace := trace s |}).

Declare Scope monad_scope.
Delimit Scope monad_scope with monad.
Notation "'let*' x ':=' m 'in' k" := (bind m (fun x => k))
  (at level 10, x name, m at level 100, k at level 200) : monad_scope.
Notation "m ';;' k" := (bind m (fun _ => k))
  (at level 100, k at level 200, right associativity) : monad_scope.
Local Open Scope monad_scope.

(** [for x in xs: out.append(f(x))] *)
Fixpoint for_each {A B} (f : A -> M B) (xs : list A) : M (list B) :=
  match xs with
  | [] => ret []
  | x :: rest =>
      let* y := f x in
      let* ys := for_each f rest in
      ret (y :: ys)
  end.

(** ** Operators and methods of Python values that can raise *)

(** [obj.get(key, default)]: only a dict has the method. *)
Definition method_get (obj : pyval) (key : pystr) (default : pyval) : M pyval :=
  match obj with
  | PDict items => ret (match dict_get key items with Some v => v | None => default end)
  | _ => raise (AttributeError (type_name obj) "get")
  end.

(** [obj[key]] with a [str] key. *)
Definition getitem (obj : pyval) (key : pystr) : M pyval :=
  match obj with
  | PDict items =>
      match dict_get key items with
      | Some v => ret v
      | None => raise (KeyError key)
      end
  | _ => raise (TypeError_not_subscriptable (type_name obj))
  end.

(** [key in d] and [d.get(key)] for a dict [d] with [str] keys and any [key]:
    the key is hashed first, and only a [str] can equal a key of [d]. *)
Definition mapping_get {V} (key : pyval) (items : list (pystr * V)) : M (option V) :=
  if hashable key then
    ret (match key with
         | PStr s => snd <$> List.find (fun kv => str_eqb s (fst kv)) items
         | _ => None
         end)
  else raise (TypeError_unhashable (type_name key)).

Definition key_in_dict {V} (key : pyval) (items : list (pystr * V)) : M bool :=
  let* found := mapping_get key items in
  ret (match found with Some _ => true | None => false end).

(** [item in container] with a [str] item: a key of a dict, an element of a
    list, a substring of a [str]; [None] when the value is no container. *)
Definition contains (container : pyval) (item : pystr) : option bool :=
  match container with
  | PDict items => Some (dict_has item items)
  | PList items => Some (List.existsb (str_eq_val item) items)
  | PStr s => Some (str_contains s item)
  | _ => None
  end.

Definition str_in (item : pystr) (container : pyval) : M bool :=
  match contains container item with
  | Some b => ret b
  | None => raise (TypeError_not_iterable (type_name container))
  end.

(** The [str] elements of a list value, in order. *)
Definition str_items (v : pyval) : list pystr :=
  match v with
  | PList items =>
      List.concat (List.map (fun x => match x with PStr s => [s] | _ => [] end) items)
  | _ => []
  end.

(** The dataclass [MCPRequest].  Its annotations are not enforced: each field
    holds whatever the JSON body held, [id] and [params] default to [None]. *)
Module MCPRequest.
Record t := { jsonrpc : pyval; method : pyval; id : pyval; params : pyval }.
End MCPRequest.

(** ** [clickhouse_mcp_tools.py] *)

Section Server.
Variable R : runtime.

(** [s.lower()]: on ASCII text the letters A-Z move to a-z. *)
Definition lower (s : pystr) : pystr :=
  if List.forallb is_ascii (code_points s)
  then Str (List.map ascii_lower (code_points s))
  else lower_non_ascii R s.

(** An f-string field [{v}]. *)
Definition fstr (v : pyval) : pystr := py_str (repr_str R) v.

Definition log (lvl : log_level) (msg : pystr) : M unit := emit (LogRecord lvl msg).

(** [ClickHouseConnection.get_client] *)
Definition get_client : M unit :=
  let* connected := get_client_field in
  if connected then ret tt
  else
    try_except
      (let* history := get_trace in
       emit DriverConnect;;
       match driver_connect R history with
       | Some e => raise e
       | None =>
           set_client_field true;;
           log INFO ("Connected to ClickHouse at " +++ clickhouse_host R +++ ":"
                     +++ str_of_Z (clickhouse_port R))
       end)
      (fun e =>
         log ERROR ("Failed to connect to ClickHouse: " +++ exc_text R e);;
         raise e).

(** [client.query(sql)] and the shaping of its result by tool [t]. *)
Definition client_query (t : tool) (sql : pystr) (args : list pyval) : M pystr :=
  let* history := get_trace in
  emit (DriverQuery sql);;
  match driver_query R t history sql args with
  | inl e => raise e
  | inr text => ret text
  end.

(** The [name] and [description] each tool's [__init__] sets. *)
Definition name (t : tool) : pystr :=
  match t with
  | RunSelectQuery => "run_select_query"
  | ListDatabases => "list_databases"
  | ListTables => "list_tables"
  | DescribeTable => "describe_table"
  end.

Definition description (t : tool) : pystr :=
  match t with
  | RunSelectQuery =>
      "Execute SELECT SQL queries on ClickHouse database. Queries are executed in readonly mode for safety."
  | ListDatabases => "List all databases available in the ClickHouse cluster"
  | ListTables => "List all tables in a specific database"
  | DescribeTable => "Get the structure/schema of a specific table"
  end.

Definition schema_property (type_ descr : pystr) : pyval :=
  PDict [("type", PStr type_); ("description", PStr descr)].

(** [get_input_schema]: [None] for [ListDatabases], the class without the method. *)
Definition get_input_schema (t : tool) : option pyval :=
  match t with
  | RunSelectQuery =>
      Some (PDict [("type", PStr "object");
                   ("properties",
                    PDict [("sql", schema_property "string" "The SQL SELECT query to execute")]);
                   ("required", PList [PStr "sql"])])
  | ListDatabases => None
  | ListTables =>
      Some (PDict [("type", PStr "object");
                   ("properties",
                    PDict [("database",
                            schema_property "string" "The name of the database to list tables from")]);
                   ("required", PList [PStr "database"])])
  | DescribeTable =>
      Some (PDict [("type", PStr "object");
                   ("properties",
                    PDict [("database", schema_property "string" "The name of the database");
                           ("table", schema_property "string" "The name of the table")]);
                   ("required", PList [PStr "database"; PStr "table"])])
  end.

Definition only_select_allowed : pystr :=
  "Only SELECT, SHOW, and DESCRIBE queries are allowed".

(** [RunSelectQuery.execute].  [sql.strip()] exists only on a [str]. *)
Definition RunSelectQuery_execute (sql : pyval) : M pystr :=
  try_except
    (match sql with
     | PStr text =>
         let sql_lower := lower (strip text) in
         if negb (startswith sql_lower "select") && negb (startswith sql_lower "show")
            && negb (startswith sql_lower "describe")
         then ret (json_dumps (PDict [("error", PStr only_select_allowed)]))
         else
           get_client;;
           client_query RunSelectQuery text [sql]
     | _ => raise (AttributeError (type_name sql) "strip")
     end)
    (fun e =>
       log ERROR ("Query execution failed: " +++ exc_text R e);;
       ret (json_dumps (PDict [("error", PStr ("Query execution failed: " +++ exc_text R e));
                               ("query", sql)]))).

(** [ListDatabases.execute] *)
Definition ListDatabases_execute : M pystr :=
  try_except
    (get_client;;
     client_query ListDatabases "SHOW DATABASES" [])
    (fun e =>
       log ERROR ("Failed to list databases: " +++ exc_text R e);;
       ret (json_dumps (PDict [("error", PStr ("Failed to list databases: " +++ exc_text R e))]))).

(** [ListTables.execute] *)
Definition ListTables_execute (database : pyval) : M pystr :=
  try_except
    (get_client;;
     client_query ListTables ("SHOW TABLES FROM " +++ fstr database) [database])
    (fun e =>
       log ERROR ("Failed to list tables: " +++ exc_text R e);;
       ret (json_dumps (PDict [("error", PStr ("Failed to list tables: " +++ exc_text R e));
                               ("database", database)]))).

(** [DescribeTable.execute] *)
Definition DescribeTable_execute (database table : pyval) : M pystr :=
  try_except
    (get_client;;
     client_query DescribeTable
       ("DESCRIBE TABLE " +++ fstr database +++ "." +++ fstr table) [database; table])
    (fun e =>
       log ERROR ("Failed to describe table: " +++ exc_text R e);;
       ret (json_dumps (PDict [("error", PStr ("Failed to describe table: " +++ exc_text R e));
                               ("database", database);
                               ("table", table)]))).

Definition tool_info (t : tool) : pyval :=
  PDict [("name", PStr (name t)); ("description", PStr (description t))].

(** [ClickHouseToolHandler.get_available_tools]: the items of the dict it
    returns, in the order the literal lists them. *)
Definition get_available_tools : list (pystr * pyval) :=
  [(name RunSelectQuery, tool_info RunSelectQuery);
   (name ListDatabases, tool_info ListDatabases);
   (name ListTables, tool_info ListTables);
   (name DescribeTable, tool_info DescribeTable)].

(** [kwargs.get(key)] *)
Definition kwargs_get (key : pystr) (kwargs : list (pystr * pyval)) : pyval :=
  match dict_get key kwargs with Some v => v | None => PNone end.

(** [ClickHouseToolHandler.call_tool(name, **kwargs)], once its arguments are bound. *)
Definition call_tool (tool_name : pyval) (kwargs : list (pystr * pyval)) : M pystr :=
  if str_eq_val (name RunSelectQuery) tool_name then
    RunSelectQuery_execute (kwargs_get "sql" kwargs)
  else if str_eq_val (name ListDatabases) tool_name then
    ListDatabases_execute
  else if str_eq_val (name ListTables) tool_name then
    ListTables_execute (kwargs_get "database" kwargs)
  else if str_eq_val (name DescribeTable) tool_name then
    DescribeTable_execute (kwargs_get "database" kwargs) (kwargs_get "table" kwargs)
  else
    ret (json_dumps (PDict [("error", PStr ("Unknown tool: " +++ fstr tool_name))])).

(** The call [self.tool_handler.call_tool(tool_name, **arguments)]: [**] wants
    a mapping, and a key that names one of the parameters [self] and [name],
    both already given by position, is refused. *)
Definition call_tool_unpacking (tool_name arguments : pyval) : M pystr :=
  match arguments with
  | PDict kwargs =>
      match List.find (fun kv => str_eqb (fst kv) "self" || str_eqb (fst kv) "name") kwargs with
      | Some (k, _) => raise (TypeError_multiple_values k)
      | None => call_tool tool_name kwargs
      end
  | _ => raise (TypeError_not_a_mapping (type_name arguments))
  end.

(** ** [main.py]: MCPRequest and SchemaManager *)

(** [SchemaManager._default_schema] *)
Definition _default_schema : pyval :=
  PDict [("type", PStr "object"); ("properties", PDict []); ("required", PList [])].

(** [SchemaManager._get_tool_instance] *)
Definition _get_tool_instance (tool_name : pyval) : M (option tool) :=
  let tool_mapping :=
    [("run_select_query", RunSelectQuery);
     ("list_databases", ListDatabases);
     ("list_tables", ListTables);
     ("describe_table", DescribeTable)] in
  mapping_get tool_name tool_mapping.

(** The schema the two readers below agree on: the instance exists, has
    [get_input_schema], and what it returns is truthy. *)
Definition custom_schema_of (tool_instance : option tool) : option pyval :=
  match tool_instance with
  | Some t =>
      match get_input_schema t with
      | Some custom_schema => if truthy custom_schema then Some custom_schema else None
      | None => None
      end
  | None => None
  end.

(** [SchemaManager.get_tool_schema] *)
Definition get_tool_schema (tool_name tool_info : pyval) : M pyval :=
  let* tool_instance := _get_tool_instance tool_name in
  match custom_schema_of tool_instance with
  | Some custom_schema =>
      let* descr := getitem tool_info "description" in
      ret (PDict [("name", tool_name); ("description", descr); ("inputSchema", custom_schema)])
  | None =>
      let* descr := getitem tool_info "description" in
      ret (PDict [("name", tool_name); ("description", descr); ("inputSchema", _default_schema)])
  end.

(** [SchemaManager.get_tool_required_params]: [custom_schema.get("required", [])],
    read as the list of [str] every schema of this server holds there. *)
Definition get_tool_required_params (tool_name : pyval) : M (list pystr) :=
  let* tool_instance := _get_tool_instance tool_name in
  match custom_schema_of tool_instance with
  | Some (PDict items) =>
      ret (match dict_get "required" items with Some required => str_items required | None => [] end)
  | Some other => raise (AttributeError (type_name other) "get")
  | None => ret []
  end.

(** The loop of [validate_tool_params]: the first required parameter that is
    not in [arguments] gives the message. *)
Fixpoint first_missing (required_params : list pystr) (tool_name arguments : pyval)
  : M (option pystr) :=
  match required_params with
  | [] => ret None
  | param :: rest =>
      let* present := str_in param arguments in
      if negb present then ret (Some (param +++ " is required for " +++ fstr tool_name))
      else first_missing rest tool_name arguments
  end.

(** [SchemaManager.validate_tool_params] *)
Definition validate_tool_params (tool_name arguments : pyval) : M (option pystr) :=
  let* required_params := get_tool_required_params tool_name in
  first_missing required_params tool_name arguments.

(** ** [main.py]: BridgeHandler *)

Definition result_envelope (request_id result : pyval) : pyval :=
  PDict [("jsonrpc", PStr "2.0"); ("id", request_id); ("result", result)].

Definition error_envelope (request_id : pyval) (code : Z) (message : pystr) : pyval :=
  PDict [("jsonrpc", PStr "2.0"); ("id", request_id);
         ("error", PDict [("code", PInt code); ("message", PStr message)])].

(** [request.id is None] *)
Definition is_None (v : pyval) : bool := match v with PNone => true | _ => false end.

(** [if validation_error:] on an [Optional[str]] *)
Definition is_set (validation_error : option pystr) : bool :=
  match validation_error with
  | Some message => negb (str_is_empty message)
  | None => false
  end.

Definition initialize_result : pyval :=
  PDict [("protocolVersion", PStr "2024-11-05");
         ("capabilities", PDict [("tools", PDict [])]);
         ("serverInfo", PDict [("name", PStr "clickhouse-mcp-server");
                               ("version", PStr "1.0.0")])].

(** The [try] block of [BridgeHandler.process_bridge_request]. *)
Definition dispatch (request : MCPRequest.t) : M pyval :=
  let request_id := MCPRequest.id request in
  let method := MCPRequest.method request in
  if is_None request_id then
    ret (PDict [("jsonrpc", PStr "2.0"); ("method", method);
                ("params", py_or (MCPRequest.params request) (PDict []))])
  else if str_eq_val "initialize" method then
    ret (result_envelope request_id initialize_result)
  else if str_eq_val "tools/list" method then
    let available_tools := get_available_tools in
    let* tools_list :=
      for_each (fun item => get_tool_schema (PStr (fst item)) (snd item)) available_tools in
    ret (result_envelope request_id (PDict [("tools", PList tools_list)]))
  else if str_eq_val "resources/list" method then
    ret (result_envelope request_id (PDict [("resources", PList [])]))
  else if str_eq_val "prompts/list" method then
    ret (result_envelope request_id (PDict [("prompts", PList [])]))
  else if str_eq_val "tools/call" method then
    let* tool_name := method_get (MCPRequest.params request) "name" PNone in
    let* arguments := method_get (MCPRequest.params request) "arguments" (PDict []) in
    let all_tools := get_available_tools in
    let* registered := key_in_dict tool_name all_tools in
    if negb registered then
      ret (error_envelope request_id (-32601) ("Unknown tool: " +++ fstr tool_name))
    else
      let* validation_error := validate_tool_params tool_name arguments in
      if is_set validation_error then
        ret (error_envelope request_id (-32602)
               (match validation_error with Some message => message | None => "" end))
      else
        let* result := call_tool_unpacking tool_name arguments in
        ret (result_envelope request_id
               (PDict [("content", PList [PDict [("type", PStr "text"); ("text", PStr result)]])]))
  else
    ret (error_envelope request_id (-32601) ("Method not found: " +++ fstr method)).

(** [BridgeHandler.process_bridge_request]: the [try] block and its
    [except Exception] clause.  [getattr(request, 'id', 'unknown')] is the
    request's id, the attribute being there on every [MCPRequest]. *)
Definition process_bridge_request (request : MCPRequest.t) : M pyval :=
  try_except (dispatch request)
    (fun e =>
       log ERROR ("Error processing bridge request: " +++ exc_text R e);;
       ret (error_envelope (MCPRequest.id request) (-32603)
              ("Internal error: " +++ exc_text R e))).

(** *** The connection records

    The three statements of [create_heartbeat_stream] that touch
    [self.connections], and [get_active_connections_count]. *)

(** [self.connections[connection_id] = True] *)
Definition connections_set (connection_id : pystr) : M unit :=
  fun s => (Returned tt,
            {| client := client s; connections := <[connection_id := true]> (connections s);
               trace := trace s |}).

(** [self.connections.get(connection_id, False)] *)
Definition connections_get (connection_id : pystr) : M bool :=
  fun s => (Returned (default false (connections s !! connection_id)), s).

(** [self.connections.pop(connection_id, None)]: the value removed, or the
    default [None]; with a default given, [pop] raises for no key. *)
Definition connections_pop (connection_id : pystr) : M (option bool) :=
  fun s => (Returned (connections s !! connection_id),
            {| client := client s; connections := delete connection_id (connections s);
               trace := trace s |}).

(** [BridgeHandler.get_active_connections_count] *)
Definition get_active_connections_count : M nat :=
  fun s => (Returned (size (connections s)), s).

(** *** [BridgeHandler.create_heartbeat_stream]

    The async generator, as the machine its consumer drives.  It rests at a
    [yield] or an [await]; what resumes it there is a [stimulus]. *)

Inductive location :=
| Created              (* the generator object exists, its body has not run *)
| AtConnectionYield    (* at the [yield] of the connection event *)
| AtHeartbeatYield     (* at the [yield] of a heartbeat event *)
| Sleeping             (* in [await asyncio.sleep(30)] *)
| AwaitingDisconnect   (* in [await request.is_disconnected()] *)
| Finished.

Inductive stimulus :=
| Resume (is_disconnected : bool) (now : pystr)
    (* the pending yield or await returns: [is_disconnected] is the answer of
       [request.is_disconnected()], [now] the text of
       [datetime.datetime.now().isoformat()], each read where the code asks *)
| Fault (e : exn)
    (* the pending yield or await raises an [Exception] *)
| Close
    (* it raises [GeneratorExit] or [CancelledError], which [except Exception]
       does not catch *)
| Interleave (f : gmap pystr bool -> gmap pystr bool).
    (* another task runs meanwhile and leaves [self.connections] changed *)

Record stream := {
  at_ : location;
  handler : state;
  sent : list pystr
}.

Definition newlines : pystr := Str [10; 10].

Definition connection_event (connection_id : pystr) : pystr :=
  "data: " +++ json_dumps (PDict [("type", PStr "connection"); ("id", PStr connection_id)])
  +++ newlines.

Definition heartbeat_event (now : pystr) : pystr :=
  "data: " +++ json_dumps (PDict [("type", PStr "heartbeat"); ("timestamp", PStr now)])
  +++ newlines.

Section Heartbeat.
(** [str(uuid.uuid4())] *)
Variable connection_id : pystr.

(** The [finally] clause, and the generator is done. *)
Definition finally_ (st : stream) : stream :=
  {| at_ := Finished; handler := snd (connections_pop connection_id (handler st));
     sent := sent st |}.

(** The [except Exception] clause, then [finally]. *)
Definition except_ (e : exn) (st : stream) : stream :=
  finally_ {| at_ := at_ st;
              handler := snd (log ERROR ("Bridge connection error: " +++ exc_text R e) (handler st));
              sent := sent st |}.

(** The head of the [while] loop: a heartbeat is yielded while the record is
    alive, else the loop is over. *)
Definition loop_head (now : pystr) (st : stream) : stream :=
  match fst (connections_get connection_id (handler st)) with
  | Returned true =>
      {| at_ := AtHeartbeatYield; handler := handler st;
         sent := sent st ++ [heartbeat_event now] |}
  | _ => finally_ st
  end.

Definition interleave (f : gmap pystr bool -> gmap pystr bool) (st : stream) : stream :=
  {| at_ := at_ st;
     handler := {| client := client (handler st); connections := f (connections (handler st));
                   trace := trace (handler st) |};
     sent := sent st |}.

Definition heartbeat_step (st : stream) (x : stimulus) : stream :=
  match x, at_ st with
  | Interleave f, _ => interleave f st
  | _, Finished => st
  | Resume _ _, Created =>
      {| at_ := AtConnectionYield; handler := snd (connections_set connection_id (handler st));
         sent := sent st ++ [connection_event connection_id] |}
  | (Fault _ | Close), Created =>
      {| at_ := Finished; handler := handler st; sent := sent st |}
  | Resume _ now, AtConnectionYield => loop_head now st
  | Resume _ _, AtHeartbeatYield =>
      {| at_ := Sleeping; handler := handler st; sent := sent st |}
  | Resume _ _, Sleeping =>
      {| at_ := AwaitingDisconnect; handler := handler st; sent := sent st |}
  | Resume is_disconnected now, AwaitingDisconnect =>
      if is_disconnected then finally_ st else loop_head now st
  | Fault e, _ => except_ e st
  | Close, _ => finally_ st
  end.

(** [create_heartbeat_stream(request)] driven by a sequence of stimuli. *)
Definition create_heartbeat_stream (s : state) (xs : list stimulus) : stream :=
  List.fold_left heartbeat_step xs {| at_ := Created; handler := s; sent := [] |}.

End Heartbeat.

End Server.

(** ** [clickhouse_mcp_tools.py] and [main.py]: the health probe and the routes

    [ClickHouseMCPServer] owns a tool handler of its own, used by the health
    route, beside the bridge handler that answers POST /message.  The two keep
    separate driver clients; what they send to the driver and to the log
    leaves the same process. *)

(** What can go wrong before the dispatcher is reached: the exceptions above,
    the complaints of the call of [MCPRequest] about its keywords (their texts
    name [MCPRequest], not [call_tool], so they are kinds of their own), and
    whatever [await request.json()] raises on a body it cannot read. *)
Inductive request_error :=
| Python (e : exn)
| TypeError_unexpected_keyword (keyword : pystr)
| TypeError_missing_arguments (names : list pystr)
| TypeError_init_multiple_values (param : pystr)
| TypeError_init_not_a_mapping (obj_type : pystr)
| BodyError (description : pystr).

(** What a route hands back to the web framework: a value to serialise, or an
    exception that leaves the route. *)
Inductive reply (A : Type) :=
| Replied (a : A)
| Failed (e : request_error).
Arguments Replied {A} a.
Arguments Failed {A} e.

(** [await request.json()]: the parsed body, or the exception it raises. *)
Inductive body_read :=
| Parsed (body : pyval)
| Unreadable (e : request_error).

(** The parameters of the [__init__] the dataclass decorator writes for
    [MCPRequest], after [self]. *)
Definition init_parameters : list pystr := ["jsonrpc"; "method"; "id"; "params"].

(** [MCPRequest] called with the body's items as keywords, the double-star
    call of the route.  The keywords are bound in the order of the body's
    keys, and the first that names no parameter, or names [self], stops the
    call; then the parameters without default must all be there. *)
Definition MCPRequest_init (body : pyval) : request_error + MCPRequest.t :=
  match body with
  | PDict items =>
      match List.find (fun kv => negb (List.existsb (str_eqb (fst kv)) init_parameters)) items with
      | Some (keyword, _) =>
          inl (if str_eqb keyword "self"
               then TypeError_init_multiple_values keyword
               else TypeError_unexpected_keyword keyword)
      | None =>
          match dict_get "jsonrpc" items, dict_get "method" items with
          | Some jsonrpc, Some method =>
              inr {| MCPRequest.jsonrpc := jsonrpc;
                     MCPRequest.method := method;
                     MCPRequest.id := match dict_get "id" items with Some v => v | None => PNone end;
                     MCPRequest.params :=
                       match dict_get "params" items with Some v => v | None => PNone end |}
          | None, Some _ => inl (TypeError_missing_arguments ["jsonrpc"])
          | Some _, None => inl (TypeError_missing_arguments ["method"])
          | None, None => inl (TypeError_missing_arguments ["jsonrpc"; "method"])
          end
      end
  | _ => inl (TypeError_init_not_a_mapping (type_name body))
  end.

(** The server as the routes see it: whether its own tool handler holds a
    driver client, and the bridge handler.  The trace of the bridge handler's
    state is the trace of the process. *)
Record server := {
  tool_handler_client : bool;
  bridge_handler : state
}.

(** The routes' choice on GET /sse. *)
Inductive sse_mode := FullProtocol | BridgeHeartbeat.

Section Routes.
Variable R : runtime.
(** [str(e)] for the exceptions that are not in [exn]. *)
Variable route_exc_text : request_error -> pystr.
(** [client.query("SELECT 1")] of the health probe, its result dropped:
    [None] when it returns, the exception when it raises. *)
Variable probe_query : list event -> option exn.
(** API_BASE_PATH and CLICKHOUSE_SECURE *)
Variable API_BASE_PATH : pystr.
Variable CLICKHOUSE_SECURE : bool.

Definition error_text (e : request_error) : pystr :=
  match e with
  | Python e' => exc_text R e'
  | _ => route_exc_text e
  end.

(** [ClickHouseConnection.test_connection], which
    [ClickHouseToolHandler.test_connection] passes on. *)
Definition test_connection : M bool :=
  try_except
    (get_client R;;
     let* history := get_trace in
     emit (DriverQuery "SELECT 1");;
     match probe_query history with
     | Some e => raise e
     | None => ret true
     end)
    (fun e =>
       log ERROR ("Connection test failed: " +++ exc_text R e);;
       ret false).

(** A method of the server's own tool handler, run on the server. *)
Definition on_tool_handler {A} (m : M A) (sv : server) : outcome A * server :=
  let bridge := bridge_handler sv in
  let '(result, s') :=
    m {| client := tool_handler_client sv; connections := connections bridge;
         trace := trace bridge |} in
  (result,
   {| tool_handler_client := client s';
      bridge_handler := {| client := client bridge; connections := connections bridge;
                           trace := trace s' |} |}).

(** [list(self.tool_handler.get_available_tools().keys())] *)
Definition available_tool_names : pyval :=
  PList (List.map (fun item => PStr (fst item)) get_available_tools).

Definition database_info : pyval :=
  PDict [("host", PStr (clickhouse_host R)); ("port", PInt (clickhouse_port R));
         ("secure", PBool CLICKHOUSE_SECURE)].

(** The route GET / *)
Definition root : pyval :=
  PDict [("name", PStr "ClickHouse MCP Server");
         ("version", PStr "1.0.0");
         ("description", PStr "MCP server for ClickHouse database operations");
         ("modes", PDict [("sse", PStr "Full MCP SSE protocol");
                          ("bridge", PStr "HTTP + SSE bridge mode")]);
         ("endpoints", PDict [("sse", PStr (API_BASE_PATH +++ "/sse"));
                              ("messages", PStr (API_BASE_PATH +++ "/messages/"));
                              ("message", PStr (API_BASE_PATH +++ "/message"));
                              ("health", PStr (API_BASE_PATH +++ "/health"))]);
         ("tools", available_tool_names);
         ("database", database_info);
         ("api_base_path", PStr API_BASE_PATH)].

(** The route GET /sse, up to the choice of the mode: [accept] is the Accept
    header, [None] when the request has none. *)
Definition sse_endpoint (accept : option pystr) : sse_mode :=
  let accept_header := lower R (match accept with Some v => v | None => "" end) in
  if str_contains accept_header "text/event-stream" then FullProtocol else BridgeHeartbeat.

(** The [except] clause of the route POST /message.  [body] is [None] when
    the name [body] was never bound. *)
Definition bridge_message_except (body : option pyval) (e : request_error) (s : state)
  : reply pyval * state :=
  let s' := snd (log ERROR ("Bridge message error: " +++ error_text e) s) in
  match body with
  | None =>
      (Replied (error_envelope (PStr "unknown") (-32603) ("Internal error: " +++ error_text e)), s')
  | Some (PDict items) =>
      (Replied (error_envelope
                  (match dict_get "id" items with Some v => v | None => PStr "unknown" end)
                  (-32603) ("Internal error: " +++ error_text e)), s')
  | Some other => (Failed (Python (AttributeError (type_name other) "get")), s')
  end.

(** The route POST /message, on the bridge handler's state. *)
Definition bridge_message_handler (read : body_read) (s : state) : reply pyval * state :=
  match read with
  | Unreadable e => bridge_message_except None e s
  | Parsed body =>
      match MCPRequest_init body with
      | inl e => bridge_message_except (Some body) e s
      | inr request =>
          match process_bridge_request R request s with
          | (Returned response, s') => (Replied response, s')
          | (Raised e, s') => bridge_message_except (Some body) (Python e) s'
          end
      end
  end.

(** The route GET /health; [now] is [datetime.datetime.now().isoformat()]. *)
Definition health_check (now : pystr) (sv : server) : outcome pyval * server :=
  match on_tool_handler test_connection sv with
  | (Returned connection_ok, sv') =>
      (Returned
         (PDict [("status", PStr (if connection_ok then "healthy" else "unhealthy"));
                 ("timestamp", PStr now);
                 ("database_connection", PBool connection_ok);
                 ("activeBridgeConnections",
                  PInt (Z.of_nat (size (connections (bridge_handler sv')))));
                 ("tools", available_tool_names);
                 ("database", database_info)]),
       sv')
  | (Raised e, sv') => (Raised e, sv')
  end.

End Routes.

(** ** A concrete runtime

    Messages as CPython 3.11 words them, texts without characters outside
    ASCII, and a database that answers every query of [describe_table] with
    the same text and refuses the other tools' queries. *)

Definition example_exc_text (e : exn) : pystr :=
  match e with
  | AttributeError obj_type attr =>
      "'" +++ obj_type +++ "' object has no attribute '" +++ attr +++ "'"
  | KeyError key => "'" +++ key +++ "'"
  | TypeError_unhashable obj_type => "unhashable type: '" +++ obj_type +++ "'"
  | TypeError_not_iterable obj_type => "argument of type '" +++ obj_type +++ "' is not iterable"
  | TypeError_not_a_mapping obj_type =>
      "clickhouse_mcp_tools.ClickHouseToolHandler.call_tool() argument after ** must be a mapping, not "
      +++ obj_type
  | TypeError_multiple_values param =>
      "ClickHouseToolHandler.call_tool() got multiple values for argument '" +++ param +++ "'"
  | TypeError_not_subscriptable obj_type => "'" +++ obj_type +++ "' object is not subscriptable"
  | ExternalError description => description
  end.

Definition success_true : pystr := "{" +++ dq +++ "success" +++ dq +++ ":true}".

Definition example_runtime : runtime := {|
  lower_non_ascii := fun s => s;
  repr_str := fun s => "'" +++ s +++ "'";
  exc_text := example_exc_text;
  clickhouse_host := "172.16.3.6";
  clickhouse_port := 8123;
  driver_connect := fun _ => None;
  driver_query := fun t _ _ _ =>
    match t with
    | DescribeTable => inr success_true
    | _ => inl (ExternalError "Code: 81. Database does not exist")
    end
|}.

Definition fresh_state : state := {| client := false; connections := ∅; trace := [] |}.

Definition request (method : pystr) (id params : pyval) : MCPRequest.t :=
  {| MCPRequest.jsonrpc := PStr "2.0"; MCPRequest.method := PStr method;
     MCPRequest.id := id; MCPRequest.params := params |}.

(** The texts of the route's own exceptions, as CPython 3.11 words them for a
    server started as a script. *)
Definition example_route_exc_text (e : request_error) : pystr :=
  match e with
  | Python e' => example_exc_text e'
  | TypeError_unexpected_keyword keyword =>
      "MCPRequest.__init__() got an unexpected keyword argument '" +++ keyword +++ "'"
  | TypeError_missing_arguments names =>
      "MCPRequest.__init__() missing " +++ str_of_Z (Z.of_nat (List.length names))
      +++ " required positional argument" +++ match names with [_] => "" | _ => "s" end
      +++ ": " +++ str_join " and " (List.map (fun n => "'" +++ n +++ "'") names)
  | TypeError_init_multiple_values param =>
      "MCPRequest.__init__() got multiple values for argument '" +++ param +++ "'"
  | TypeError_init_not_a_mapping obj_type =>
      "__main__.MCPRequest() argument after ** must be a mapping, not " +++ obj_type
  | BodyError description => description
  end.

(** The same runtime with a database that cannot be reached. *)
Definition unreachable_runtime : runtime := {|
  lower_non_ascii := fun s => s;
  repr_str := fun s => "'" +++ s +++ "'";
  exc_text := example_exc_text;
  clickhouse_host := "172.16.3.6";
  clickhouse_port := 8123;
  driver_connect := fun _ => Some (ExternalError "Connection refused");
  driver_query := fun _ _ _ _ => inl (ExternalError "Connection refused")
|}.

(** A probe query that the database answers. *)
Definition example_probe_query (history : list event) : option exn := None.

(** A server that has not yet talked to the database. *)
Definition fresh_server : server :=
  {| tool_handler_client := false; bridge_handler := fresh_state |}.

(** ** Vocabulary of the specification

    The names the properties below are stated with, each defined over the
    code's own definitions. *)

(** The tool objects in the order [get_available_tools] lists them. *)
Definition registered_tools : list tool :=
  [RunSelectQuery; ListDatabases; ListTables; DescribeTable].

(** The entry [tools/list] is to hold for a tool: its declared schema, or the
    canonical empty-object schema when it declares none. *)
Definition listed_entry (t : tool) : pyval :=
  PDict [("name", PStr (name t));
         ("description", PStr (description t));
         ("inputSchema",
          match get_input_schema t with
          | Some declared => declared
          | None => PDict [("type", PStr "object"); ("properties", PDict []);
                           ("required", PList [])]
          end)].

(** The [required] list of a tool's declared schema. *)
Definition required_of (t : tool) : list pystr :=
  match get_input_schema t with
  | Some (PDict items) =>
      match dict_get "required" items with Some required => str_items required | None => [] end
  | _ => []
  end.

(** The methods the dispatcher knows. *)
Definition known_methods : list pystr :=
  ["initialize"; "tools/list"; "tools/call"; "resources/list"; "prompts/list"].

(** [params.name] of a request whose params are an object: the value under
    ["name"], [None] when the key is not there. *)
Definition params_name (items : list (pystr * pyval)) : pyval :=
  match dict_get "name" items with Some v => v | None => PNone end.

(** [params.arguments], an empty object when the key is not there. *)
Definition params_arguments (items : list (pystr * pyval)) : pyval :=
  match dict_get "arguments" items with Some v => v | None => PDict [] end.

(** The field [key] of a response object. *)
Definition field (key : pystr) (response : pyval) : option pyval :=
  match response with
  | PDict items => dict_get key items
  | _ => None
  end.

(** The first parameter of [required] that [arguments] does not contain. *)
Fixpoint first_absent (required : list pystr) (arguments : pyval) : option pystr :=
  match required with
  | [] => None
  | param :: rest =>
      match contains arguments param with
      | Some false => Some param
      | _ => first_absent rest arguments
      end
  end.

(** A response envelope for [request_id]: the success shape or the error shape. *)
Definition is_envelope (request_id : pyval) (response : pyval) : Prop :=
  (exists result, response = result_envelope request_id result) \/
  (exists code message, response = error_envelope request_id code message).

(** A computation that, whenever it returns, returns an envelope for [request_id]. *)
Definition yields_envelope (request_id : pyval) (m : M pyval) : Prop :=
  forall s, match m s with
            | (Returned response, _) => is_envelope request_id response
            | (Raised _, _) => True
            end.

(** The state after the [except] clause of [process_bridge_request] has
    logged exception [e]. *)
Definition fault_logged (R : runtime) (e : exn) (s : state) : state :=
  {| client := client s; connections := connections s;
     trace := trace s ++ [LogRecord ERROR ("Error processing bridge request: " +++ exc_text R e)] |}.

(** *** Vocabulary for the effects of a request *)

(** The SQL texts handed to the driver, in order. *)
Definition queries (evs : list event) : list pystr :=
  List.concat (List.map (fun ev => match ev with DriverQuery sql => [sql] | _ => [] end) evs).

(** How often the driver was asked for a client. *)
Definition connects (evs : list event) : nat :=
  List.length (List.filter (fun ev => match ev with DriverConnect => true | _ => false end) evs).

(** The test of [RunSelectQuery.execute], read positively. *)
Definition guard_passes (R : runtime) (sql : pystr) : bool :=
  let sql_lower := lower R (strip sql) in
  startswith sql_lower "select" || startswith sql_lower "show" || startswith sql_lower "describe".

(** The queries the four tools can send: the caller's SQL when it passes the
    guard, and the three texts the other tools build. *)
Definition permitted_query (R : runtime) (sql : pystr) : bool :=
  guard_passes R sql || str_eqb sql "SHOW DATABASES" ||
  startswith sql "SHOW TABLES FROM " || startswith sql "DESCRIBE TABLE ".

(** A computation that leaves the state as it finds it. *)
Definition pure_ {A} (m : M A) : Prop := forall s, snd (m s) = s.

(** What a computation may do to a handler: add events to the trace, and set
    the client.  [bounded R m] says it does no more, that it asks for a client
    at most once and only when there is none, that it sends at most one query,
    and that the query is a permitted one. *)
Definition bounded_effect (R : runtime) (before : state) (after : state) : Prop :=
  exists evs : list event,
    trace after = trace before ++ evs /\
    connections after = connections before /\
    (client before = true -> client after = true /\ connects evs = 0%nat) /\
    (client before = false -> client after = true -> connects evs = 1%nat) /\
    (connects evs <= 1)%nat /\
    (List.length (queries evs) <= 1)%nat /\
    (queries evs <> [] -> client after = true) /\
    List.Forall (fun sql => permitted_query R sql = true) (queries evs).

Definition bounded {A} (R : runtime) (m : M A) : Prop :=
  forall s, bounded_effect R s (snd (m s)).

(** The [execute] call [call_tool] makes for tool [t] with keywords [kwargs]. *)
Definition execute (R : runtime) (t : tool) (kwargs : list (pystr * pyval)) : M pystr :=
  match t with
  | RunSelectQuery => RunSelectQuery_execute R (kwargs_get "sql" kwargs)
  | ListDatabases => ListDatabases_execute R
  | ListTables => ListTables_execute R (kwargs_get "database" kwargs)
  | DescribeTable =>
      DescribeTable_execute R (kwargs_get "database" kwargs) (kwargs_get "table" kwargs)
  end.

(** State [s] with the client set to [c] and [evs] more in the trace. *)
Definition with_events (s : state) (c : bool) (evs : list event) : state :=
  {| client := c; connections := connections s; trace := trace s ++ evs |}.

(** The two trace segments of [get_client]: a client obtained, and the
    driver's refusal. *)
Definition connected_events (R : runtime) : list event :=
  [DriverConnect;
   LogRecord INFO ("Connected to ClickHouse at " +++ clickhouse_host R +++ ":"
                   +++ str_of_Z (clickhouse_port R))].

Definition refused_events (R : runtime) (e : exn) : list event :=
  [DriverConnect; LogRecord ERROR ("Failed to connect to ClickHouse: " +++ exc_text R e)].

(** What each tool says has failed, and the arguments its error object repeats. *)
Definition failure_prefix (t : tool) : pystr :=
  match t with
  | RunSelectQuery => "Query execution failed: "
  | ListDatabases => "Failed to list databases: "
  | ListTables => "Failed to list tables: "
  | DescribeTable => "Failed to describe table: "
  end.

Definition echoed_arguments (t : tool) (kwargs : list (pystr * pyval)) : list (pystr * pyval) :=
  match t with
  | RunSelectQuery => [("query", kwargs_get "sql" kwargs)]
  | ListDatabases => []
  | ListTables => [("database", kwargs_get "database" kwargs)]
  | DescribeTable => [("database", kwargs_get "database" kwargs); ("table", kwargs_get "table" kwargs)]
  end.

(** The text a tool returns when exception [e] stops it. *)
Definition failure_text (R : runtime) (t : tool) (kwargs : list (pystr * pyval)) (e : exn) : pystr :=
  json_dumps (PDict (("error", PStr (failure_prefix t +++ exc_text R e)) :: echoed_arguments t kwargs)).

(** The schema [tools/list] shows for a name: the one its tool declares, else
    the default. *)
Definition shown_schema (tool_name : pyval) : pyval :=
  match tool_name with
  | PStr n =>
      match List.find (fun t => str_eqb n (name t)) registered_tools with
      | Some t => match get_input_schema t with Some declared => declared | None => _default_schema end
      | None => _default_schema
      end
  | _ => _default_schema
  end.

(** *** Vocabulary for the heartbeat stream *)

(** The locations inside the [try] block. *)
Definition running (l : location) : bool :=
  match l with
  | AtConnectionYield | AtHeartbeatYield | Sleeping | AwaitingDisconnect => true
  | Created | Finished => false
  end.

(** Stimuli among which no other task changes the connection records. *)
Definition undisturbed (xs : list stimulus) : bool :=
  List.forallb (fun x => match x with Interleave _ => false | _ => true end) xs.

(** The clock texts the stimuli carry, in order. *)
Definition clock_readings (xs : list stimulus) : list pystr :=
  List.concat (List.map (fun x => match x with Resume _ now => [now] | _ => [] end) xs).

(** Whether a resume at location [l] brings the stream to the test of the
    [while] loop: from the first [yield] it does, and from the disconnect
    check when the client is still there. *)
Definition reaches_loop_test (l : location) (is_disconnected : bool) : bool :=
  match l with
  | AtConnectionYield => true
  | AwaitingDisconnect => negb is_disconnected
  | _ => false
  end.

(** Of the clock texts of successive resumes, those read at the head of the
    loop: one turn of the loop rests three times, at the [yield] and at the
    two [await]s. *)
Fixpoint loop_turns (nows : list pystr) : list pystr :=
  match nows with
  | [] => []
  | now :: rest =>
      now :: match rest with
             | _ :: _ :: rest' => loop_turns rest'
             | _ => []
             end
  end.

(** Characters that are printable ASCII: no control character, no newline. *)
Definition printable (c : N) : bool := (32 <=? c) && (c <=? 126).

(** *** Vocabulary for the routes *)

(** Whether the database answers the health probe: a client is there or the
    driver gives one, and the probe query then returns. *)
Definition database_answers (R : runtime) (probe_query : list event -> option exn)
    (has_client : bool) (history : list event) : bool :=
  if has_client then
    match probe_query history with None => true | Some _ => false end
  else
    match driver_connect R history with
    | Some _ => false
    | None =>
        match probe_query (history ++ connected_events R) with None => true | Some _ => false end
    end.

(** * Properties *)

Example json_dumps_nested :
  json_dumps (PDict [("a", PList [PInt (-3); PBool true; PNone]);
                     ("b", PStr (Str [233; 10; 127; 34; 92; 9; 8; 12; 13; 8232; 128512]));
                     ("c", PFloat "1.5"); ("d", PFloat "inf")])
  = "{" +++ dq +++ "a" +++ dq +++ ": [-3, true, null], " +++ dq +++ "b" +++ dq +++ ": "
    +++ dq +++ "\u00e9\n\u007f\" +++ dq +++ "\\\t\b\f\r\u2028\ud83d\ude00" +++ dq
    +++ ", " +++ dq +++ "c" +++ dq +++ ": 1.5, " +++ dq +++ "d" +++ dq +++ ": Infinity}".
Proof. reflexivity. Qed.

Example py_str_nested :
  py_str (repr_str example_runtime)
    (PList [PStr "db1"; PInt 3; PNone; PBool true; PFloat "1.5"; PDict [("k", PStr "v")]])
  = "['db1', 3, None, True, 1.5, {'k': 'v'}]".
Proof. reflexivity. Qed.

Example strip_lower_example : lower example_runtime (strip (Str [9; 32; 83; 104; 79; 119; 32; 10])) = "show".
Proof. reflexivity. Qed.

(** ** Basic facts about values and the monad *)

Lemma str_eqb_eq (a b : pystr) : str_eqb a b = true <-> a = b.
Proof. unfold str_eqb. apply bool_decide_eq_true. Qed.

Lemma str_eq_val_true (lit : pystr) (v : pyval) : str_eq_val lit v = true <-> v = PStr lit.
Proof.
  destruct v; simpl; try (split; [discriminate | congruence]).
  rewrite str_eqb_eq. split; congruence.
Qed.

Lemma str_eq_val_false (lit : pystr) (v : pyval) : v <> PStr lit -> str_eq_val lit v = false.
Proof.
  intros Hne. destruct (str_eq_val lit v) eqn:E; [|reflexivity].
  apply str_eq_val_true in E. contradiction.
Qed.

Lemma is_None_false (v : pyval) : v <> PNone -> is_None v = false.
Proof. destruct v; simpl; congruence. Qed.

Section Properties.
Variable R : runtime.

(** *** Notifications *)

(** C1, as the code has it: a request whose id is absent is answered with the
    object [{"jsonrpc": "2.0", "method": <method>, "params": <params or {}>}],
    which has no id, result or error field, and handling it has no effect at
    all: no tool runs, nothing reaches the driver or the log, and the handler
    is left as it was. *)
Theorem notification_echoed_without_effect (request : MCPRequest.t) (s : state) :
  MCPRequest.id request = PNone ->
  process_bridge_request R request s =
    (Returned (PDict [("jsonrpc", PStr "2.0");
                      ("method", MCPRequest.method request);
                      ("params", py_or (MCPRequest.params request) (PDict []))]),
     s).
Proof.
  intros Hid. unfold process_bridge_request, try_except, dispatch.
  rewrite Hid. reflexivity.
Qed.

(** *** Unknown methods *)

Lemma unknown_method_tests (method : pyval) :
  (forall m, In m known_methods -> method <> PStr m) ->
  str_eq_val "initialize" method = false /\
  str_eq_val "tools/list" method = false /\
  str_eq_val "resources/list" method = false /\
  str_eq_val "prompts/list" method = false /\
  str_eq_val "tools/call" method = false.
Proof.
  intros H. repeat split; apply str_eq_val_false, H; simpl; tauto.
Qed.

(** C7: a request with an id whose method is none of [initialize],
    [tools/list], [tools/call], [resources/list], [prompts/list] gets the error
    envelope with code -32601 and message "Method not found: <method>", and
    nothing else happens; method "foo/bar" with id "42" gets exactly
    [{"jsonrpc":"2.0","id":"42","error":{"code":-32601,"message":"Method not found: foo/bar"}}]. *)
Theorem unknown_method_not_found :
  (forall (request : MCPRequest.t) (s : state),
     MCPRequest.id request <> PNone ->
     (forall m, In m known_methods -> MCPRequest.method request <> PStr m) ->
     process_bridge_request R request s =
       (Returned (PDict [("jsonrpc", PStr "2.0");
                         ("id", MCPRequest.id request);
                         ("error",
                          PDict [("code", PInt (-32601));
                                 ("message",
                                  PStr ("Method not found: " +++ fstr R (MCPRequest.method request)))])]),
        s)) /\
  (forall (params : pyval) (s : state),
     process_bridge_request R (request "foo/bar" (PStr "42") params) s =
       (Returned (PDict [("jsonrpc", PStr "2.0");
                         ("id", PStr "42");
                         ("error",
                          PDict [("code", PInt (-32601));
                                 ("message", PStr "Method not found: foo/bar")])]),
        s)).
Proof.
  split.
  - intros request s Hid Hm.
    destruct (unknown_method_tests _ Hm) as (H1 & H2 & H3 & H4 & H5).
    unfold process_bridge_request, try_except, dispatch.
    rewrite (is_None_false _ Hid), H1, H2, H3, H4, H5. reflexivity.
  - intros params s. reflexivity.
Qed.

(** *** initialize *)

(** C8: an [initialize] request with an id gets the fixed descriptor as its
    result, whatever its params and whatever the handler's state, which it
    leaves unchanged; so two [initialize] calls in a row return the same
    result. *)
Theorem initialize_fixed_and_idempotent :
  (forall (request : MCPRequest.t) (s : state),
     MCPRequest.id request <> PNone ->
     MCPRequest.method request = PStr "initialize" ->
     process_bridge_request R request s =
       (Returned
          (PDict [("jsonrpc", PStr "2.0");
                  ("id", MCPRequest.id request);
                  ("result",
                   PDict [("protocolVersion", PStr "2024-11-05");
                          ("capabilities", PDict [("tools", PDict [])]);
                          ("serverInfo", PDict [("name", PStr "clickhouse-mcp-server");
                                                ("version", PStr "1.0.0")])])]),
        s)) /\
  (forall (first second : MCPRequest.t) (s : state),
     MCPRequest.id first <> PNone -> MCPRequest.method first = PStr "initialize" ->
     MCPRequest.id second <> PNone -> MCPRequest.method second = PStr "initialize" ->
     exists (response1 response2 : pyval) (result : pyval),
       process_bridge_request R first s = (Returned response1, s) /\
       process_bridge_request R second s = (Returned response2, s) /\
       field "result" response1 = Some result /\
       field "result" response2 = Some result).
Proof.
  assert (Hfix : forall (request : MCPRequest.t) (s : state),
             MCPRequest.id request <> PNone ->
             MCPRequest.method request = PStr "initialize" ->
             process_bridge_request R request s =
               (Returned (result_envelope (MCPRequest.id request) initialize_result), s)).
  { intros request s Hid Hm.
    unfold process_bridge_request, try_except, dispatch.
    rewrite (is_None_false _ Hid), Hm. reflexivity. }
  split.
  - intros request s Hid Hm. rewrite (Hfix _ _ Hid Hm). reflexivity.
  - intros first second s Hid1 Hm1 Hid2 Hm2.
    eexists _, _, initialize_result.
    rewrite (Hfix _ _ Hid1 Hm1), (Hfix _ _ Hid2 Hm2).
    repeat split; reflexivity.
Qed.

(** *** The read-only guard of [run_select_query] *)

(** C10: for a string [sql] whose stripped, lower-cased form starts with none
    of "select", "show" and "describe", [RunSelectQuery.execute] returns the
    text [{"error": "Only SELECT, SHOW, and DESCRIBE queries are allowed"}] and
    leaves the state as it was: no client is made, no query is issued, nothing
    is logged. *)
Theorem non_select_sql_rejected_without_query (sql : pystr) (s : state) :
  startswith (lower R (strip sql)) "select" = false ->
  startswith (lower R (strip sql)) "show" = false ->
  startswith (lower R (strip sql)) "describe" = false ->
  RunSelectQuery_execute R (PStr sql) s =
    (Returned ("{" +++ dq +++ "error" +++ dq +++ ": " +++ dq
               +++ "Only SELECT, SHOW, and DESCRIBE queries are allowed" +++ dq +++ "}"),
     s).
Proof.
  intros Hselect Hshow Hdescribe.
  unfold RunSelectQuery_execute, try_except.
  rewrite Hselect, Hshow, Hdescribe. reflexivity.
Qed.

(** A query the guard lets through does reach the driver. *)
Lemma select_sql_reaches_driver (sql : pystr) (s : state) :
  startswith (lower R (strip sql)) "select" = true ->
  client s = true ->
  exists (text : pystr),
    RunSelectQuery_execute R (PStr sql) s =
      (Returned text,
       {| client := true; connections := connections s;
          trace := trace s ++ DriverQuery sql ::
                   match driver_query R RunSelectQuery (trace s) sql [PStr sql] with
                   | inl e => [LogRecord ERROR ("Query execution failed: " +++ exc_text R e)]
                   | inr _ => []
                   end |}).
Proof.
  intros Hselect Hclient.
  unfold RunSelectQuery_execute, try_except.
  rewrite Hselect. simpl.
  unfold bind, get_client, bind, get_client_field. rewrite Hclient.
  unfold ret, client_query, bind, get_trace, emit. simpl.
  destruct (driver_query R RunSelectQuery (trace s) sql [PStr sql]) as [e|text]; simpl.
  - eexists. unfold raise, bind, log, emit, ret. simpl.
    rewrite Hclient, <- app_assoc. reflexivity.
  - eexists. unfold ret. rewrite Hclient. reflexivity.
Qed.

(** *** tools/list *)

Lemma registry_is_registered_tools :
  get_available_tools = List.map (fun t => (name t, tool_info t)) registered_tools /\
  List.NoDup (List.map name registered_tools) /\
  (forall t : tool, In t registered_tools).
Proof.
  split; [reflexivity|]. split.
  - repeat constructor; simpl; intuition discriminate.
  - intros []; simpl; tauto.
Qed.

(** C5: a [tools/list] request with an id gets, under [result.tools], exactly
    one entry per registered tool, in the order the registry lists them; each
    entry carries the tool's name and description and, as [inputSchema], the
    schema the tool declares or else the empty-object schema.  The registry
    holds each of the four tools once. *)
Theorem tools_list_one_entry_per_tool (request : MCPRequest.t) (s : state) :
  MCPRequest.id request <> PNone ->
  MCPRequest.method request = PStr "tools/list" ->
  process_bridge_request R request s =
    (Returned (PDict [("jsonrpc", PStr "2.0");
                      ("id", MCPRequest.id request);
                      ("result", PDict [("tools", PList (List.map listed_entry registered_tools))])]),
     s)
  /\ List.map fst get_available_tools = List.map name registered_tools
  /\ List.NoDup (List.map name registered_tools)
  /\ (forall t : tool, In t registered_tools).
Proof.
  intros Hid Hm.
  destruct registry_is_registered_tools as (Hreg & Hnodup & Hall).
  repeat split; try assumption; try reflexivity.
  unfold process_bridge_request, try_except, dispatch.
  rewrite (is_None_false _ Hid), Hm. reflexivity.
Qed.

(** *** The shape of every response *)

Lemma yields_envelope_result (request_id result : pyval) :
  yields_envelope request_id (ret (result_envelope request_id result)).
Proof. intros s. left. by eexists. Qed.

Lemma yields_envelope_error (request_id : pyval) (code : Z) (message : pystr) :
  yields_envelope request_id (ret (error_envelope request_id code message)).
Proof. intros s. right. by eexists _, _. Qed.

Lemma yields_envelope_bind {A} (request_id : pyval) (m : M A) (k : A -> M pyval) :
  (forall a, yields_envelope request_id (k a)) ->
  yields_envelope request_id (bind m k).
Proof.
  intros Hk s. unfold bind. destruct (m s) as [[a|e] s']; [apply Hk | exact I].
Qed.

Lemma dispatch_yields_envelope (request : MCPRequest.t) :
  MCPRequest.id request <> PNone ->
  yields_envelope (MCPRequest.id request) (dispatch R request).
Proof.
  intros Hid. unfold dispatch. rewrite (is_None_false _ Hid).
  repeat match goal with
         | |- yields_envelope _ (if ?c then _ else _) => destruct c
         | |- yields_envelope _ (bind _ _) => apply yields_envelope_bind; intros
         | |- yields_envelope _ (ret (result_envelope _ _)) => apply yields_envelope_result
         | |- yields_envelope _ (ret (error_envelope _ _ _)) => apply yields_envelope_error
         end.
Qed.

Lemma envelope_fields (request_id response : pyval) :
  is_envelope request_id response ->
  exists items, response = PDict items /\
    dict_get "id" items = Some request_id /\
    xorb (dict_has "result" items) (dict_has "error" items) = true.
Proof.
  intros [[result ->] | (code & message & ->)]; eexists; (split; [reflexivity|]);
    split; reflexivity.
Qed.

(** C2: the response to a request that carries an id is an object with exactly
    one of the fields [result] and [error], and its [id] field is the request's
    id, unchanged. *)
Theorem response_has_result_xor_error (request : MCPRequest.t) (s : state) :
  MCPRequest.id request <> PNone ->
  exists (items : list (pystr * pyval)) (s' : state),
    process_bridge_request R request s = (Returned (PDict items), s') /\
    dict_get "id" items = Some (MCPRequest.id request) /\
    xorb (dict_has "result" items) (dict_has "error" items) = true.
Proof.
  intros Hid.
  pose proof (dispatch_yields_envelope request Hid s) as Hshape.
  unfold process_bridge_request, try_except.
  destruct (dispatch R request s) as [[response|e] s1].
  - destruct (envelope_fields _ _ Hshape) as (items & -> & Hget & Hxor).
    by exists items, s1.
  - eexists _, _. split; [reflexivity|]. split; reflexivity.
Qed.

(** *** Faults *)

(** C6: dispatch always returns a response and never raises.  When the [try]
    block faults with exception [e], the fault is logged and the response is
    the error envelope with the request's id, code -32603 and message
    "Internal error: <str(e)>". *)
Theorem dispatch_is_total (request : MCPRequest.t) (s : state) :
  exists (response : pyval) (s' : state),
    process_bridge_request R request s = (Returned response, s') /\
    (forall (e : exn) (s1 : state),
       dispatch R request s = (Raised e, s1) ->
       response = PDict [("jsonrpc", PStr "2.0");
                         ("id", MCPRequest.id request);
                         ("error", PDict [("code", PInt (-32603));
                                          ("message", PStr ("Internal error: " +++ exc_text R e))])]
       /\ trace s' = trace s1 ++ [LogRecord ERROR ("Error processing bridge request: "
                                                   +++ exc_text R e)]).
Proof.
  unfold process_bridge_request, try_except.
  destruct (dispatch R request s) as [[response|e] s1].
  - exists response, s1. split; [reflexivity|]. intros e' s2 [=].
  - eexists _, _. split; [reflexivity|].
    intros e' s2 [= <- <-]. split; reflexivity.
Qed.

(** *** tools/call: lookup and validation *)

Lemma tools_call_tests (method : pyval) :
  method = PStr "tools/call" ->
  str_eq_val "initialize" method = false /\
  str_eq_val "tools/list" method = false /\
  str_eq_val "resources/list" method = false /\
  str_eq_val "prompts/list" method = false /\
  str_eq_val "tools/call" method = true.
Proof. intros ->. repeat split; reflexivity. Qed.

Lemma key_in_dict_unregistered (tool_name : pyval) (s : state) :
  hashable tool_name = true ->
  (forall t, tool_name <> PStr (name t)) ->
  key_in_dict tool_name get_available_tools s = (Returned false, s).
Proof.
  intros Hhash Hne. unfold key_in_dict, mapping_get, bind. rewrite Hhash.
  destruct tool_name as [| | | |text| |]; try reflexivity.
  assert (Hfalse : forall t, str_eqb text (name t) = false).
  { intros t. destruct (str_eqb text (name t)) eqn:E; [|reflexivity].
    apply str_eqb_eq in E. subst. by destruct (Hne t). }
  unfold ret, get_available_tools. cbn [List.find fst].
  rewrite (Hfalse RunSelectQuery), (Hfalse ListDatabases), (Hfalse ListTables),
    (Hfalse DescribeTable).
  reflexivity.
Qed.

Lemma key_in_dict_registered (t : tool) (s : state) :
  key_in_dict (PStr (name t)) get_available_tools s = (Returned true, s).
Proof. destruct t; reflexivity. Qed.

Lemma required_params_of_tool (t : tool) (s : state) :
  get_tool_required_params (PStr (name t)) s = (Returned (required_of t), s).
Proof. destruct t; reflexivity. Qed.

Lemma contains_defined (arguments : pyval) (p q : pystr) (b : bool) :
  contains arguments p = Some b -> exists b', contains arguments q = Some b'.
Proof. destruct arguments; simpl; intros [=]; eauto. Qed.

Lemma first_missing_absent (required : list pystr) (tool_name arguments : pyval) (s : state) :
  (exists p, In p required /\ contains arguments p = Some false) ->
  exists missing,
    first_absent required arguments = Some missing /\
    In missing required /\
    contains arguments missing = Some false /\
    first_missing R required tool_name arguments s =
      (Returned (Some (missing +++ " is required for " +++ fstr R tool_name)), s).
Proof.
  induction required as [|param rest IH]; intros (p & Hin & Habsent).
  - destruct Hin.
  - destruct (contains_defined _ _ param _ Habsent) as [b Hb].
    simpl. unfold bind, str_in. rewrite Hb. destruct b; simpl.
    + destruct Hin as [-> | Hin]; [congruence|].
      destruct IH as (missing & Hfirst & Hmem & Hmiss & Hrun); [by eauto|].
      exists missing. repeat split; auto.
    + exists param. repeat split; auto.
Qed.

Lemma required_message_is_set (param rest : pystr) :
  is_set (Some (param +++ " is required for " +++ rest)) = true.
Proof. destruct param as [[|c cps]]; reflexivity. Qed.

Lemma key_in_dict_unhashable (tool_name : pyval) (s : state) :
  hashable tool_name = false ->
  key_in_dict tool_name get_available_tools s =
    (Raised (TypeError_unhashable (type_name tool_name)), s).
Proof. intros Hhash. unfold key_in_dict, mapping_get, bind. by rewrite Hhash. Qed.

(** C3, as the code has it: take a [tools/call] request with an id whose
    params are an object and whose [params.name] is not the name of a
    registered tool.  When the name is absent or is null, a boolean, a number
    or a string, the response is the error envelope with code -32601 and
    message "Unknown tool: <name>", the name rendered as [str] renders it, and
    nothing else happens.  When the name is an array or an object, looking it
    up faults, and the response is the internal-error envelope, code -32603. *)
Theorem unknown_tool_rejected
    (request : MCPRequest.t) (s : state) (items : list (pystr * pyval)) :
  MCPRequest.id request <> PNone ->
  MCPRequest.method request = PStr "tools/call" ->
  MCPRequest.params request = PDict items ->
  (forall t, params_name items <> PStr (name t)) ->
  process_bridge_request R request s =
    if hashable (params_name items) then
      (Returned (PDict [("jsonrpc", PStr "2.0");
                        ("id", MCPRequest.id request);
                        ("error",
                         PDict [("code", PInt (-32601));
                                ("message",
                                 PStr ("Unknown tool: " +++ fstr R (params_name items)))])]),
       s)
    else
      let e := TypeError_unhashable (type_name (params_name items)) in
      (Returned (PDict [("jsonrpc", PStr "2.0");
                        ("id", MCPRequest.id request);
                        ("error",
                         PDict [("code", PInt (-32603));
                                ("message", PStr ("Internal error: " +++ exc_text R e))])]),
       fault_logged R e s).
Proof.
  intros Hid Hm Hparams Hne.
  destruct (tools_call_tests _ Hm) as (H1 & H2 & H3 & H4 & H5).
  unfold process_bridge_request, try_except, dispatch.
  rewrite (is_None_false _ Hid), H1, H2, H3, H4, H5, Hparams.
  unfold method_get, bind at 1 2, ret at 1 2. fold (params_name items).
  unfold bind at 1.
  destruct (hashable (params_name items)) eqn:Hhash.
  - rewrite (key_in_dict_unregistered _ _ Hhash Hne). reflexivity.
  - rewrite (key_in_dict_unhashable _ _ Hhash). reflexivity.
Qed.

Lemma first_missing_no_container (required : list pystr) (tool_name arguments : pyval)
    (param : pystr) (s : state) :
  In param required ->
  contains arguments param = None ->
  first_missing R required tool_name arguments s =
    (Raised (TypeError_not_iterable (type_name arguments)), s).
Proof.
  intros Hin Hnone. destruct required as [|first rest]; [destruct Hin|].
  assert (Hfirst : contains arguments first = None) by (by destruct arguments).
  simpl. unfold bind, str_in. by rewrite Hfirst.
Qed.

(** C4, as the code has it: take a [tools/call] request with an id that names
    a registered tool.  When [params.arguments], an empty object if the key is
    not there, is an object (or an array or a string) that does not contain a
    parameter of the tool's [required] list, the response is the error envelope
    with code -32602; its message is "<p> is required for <tool>" for the first
    required parameter <p> that is not there, and nothing else happens: the
    tool is not called.  Calling [list_tables] with empty arguments gets code
    -32602 and "database is required for list_tables".  When the arguments are
    null, a boolean or a number and the tool requires a parameter, the test
    for it faults and the response is the internal-error envelope, code
    -32603. *)
Theorem missing_required_parameter_rejected :
  (forall (request : MCPRequest.t) (s : state) (items : list (pystr * pyval))
          (t : tool) (param : pystr),
     MCPRequest.id request <> PNone ->
     MCPRequest.method request = PStr "tools/call" ->
     MCPRequest.params request = PDict items ->
     params_name items = PStr (name t) ->
     In param (required_of t) ->
     contains (params_arguments items) param = Some false ->
     exists missing : pystr,
       first_absent (required_of t) (params_arguments items) = Some missing /\
       In missing (required_of t) /\
       contains (params_arguments items) missing = Some false /\
       process_bridge_request R request s =
         (Returned (PDict [("jsonrpc", PStr "2.0");
                           ("id", MCPRequest.id request);
                           ("error",
                            PDict [("code", PInt (-32602));
                                   ("message",
                                    PStr (missing +++ " is required for " +++ name t))])]),
          s)) /\
  (forall (id : pyval) (s : state),
     id <> PNone ->
     process_bridge_request R
       (request "tools/call" id (PDict [("name", PStr "list_tables"); ("arguments", PDict [])])) s =
       (Returned (PDict [("jsonrpc", PStr "2.0");
                         ("id", id);
                         ("error",
                          PDict [("code", PInt (-32602));
                                 ("message", PStr "database is required for list_tables")])]),
        s)) /\
  (forall (request : MCPRequest.t) (s : state) (items : list (pystr * pyval))
          (t : tool) (param : pystr),
     MCPRequest.id request <> PNone ->
     MCPRequest.method request = PStr "tools/call" ->
     MCPRequest.params request = PDict items ->
     params_name items = PStr (name t) ->
     In param (required_of t) ->
     contains (params_arguments items) param = None ->
     let e := TypeError_not_iterable (type_name (params_arguments items)) in
     process_bridge_request R request s =
       (Returned (PDict [("jsonrpc", PStr "2.0");
                         ("id", MCPRequest.id request);
                         ("error",
                          PDict [("code", PInt (-32603));
                                 ("message", PStr ("Internal error: " +++ exc_text R e))])]),
        fault_logged R e s)).
Proof.
  split; [|split].
  - intros request s items t param Hid Hm Hparams Hname Hin Habsent.
    destruct (tools_call_tests _ Hm) as (H1 & H2 & H3 & H4 & H5).
    destruct (first_missing_absent (required_of t) (PStr (name t)) (params_arguments items) s)
      as (missing & Hfirst & Hmem & Hmiss & Hrun); [by eauto|].
    exists missing. repeat split; try assumption.
    unfold process_bridge_request, try_except, dispatch.
    rewrite (is_None_false _ Hid), H1, H2, H3, H4, H5, Hparams.
    unfold method_get, bind at 1 2, ret at 1 2.
    fold (params_name items). fold (params_arguments items). rewrite Hname.
    unfold bind at 1. rewrite key_in_dict_registered. cbn [negb].
    unfold bind at 1, validate_tool_params, bind at 1.
    rewrite required_params_of_tool, Hrun.
    simpl fstr. rewrite required_message_is_set. reflexivity.
  - intros id s Hid. destruct id; [congruence | reflexivity ..].
  - intros request s items t param Hid Hm Hparams Hname Hin Hnone e.
    destruct (tools_call_tests _ Hm) as (H1 & H2 & H3 & H4 & H5).
    unfold process_bridge_request, try_except, dispatch.
    rewrite (is_None_false _ Hid), H1, H2, H3, H4, H5, Hparams.
    unfold method_get, bind at 1 2, ret at 1 2.
    fold (params_name items). fold (params_arguments items). rewrite Hname.
    unfold bind at 1. rewrite key_in_dict_registered. cbn [negb].
    unfold bind at 1, validate_tool_params, bind at 1.
    rewrite required_params_of_tool.
    rewrite (first_missing_no_container _ _ _ _ _ Hin Hnone). reflexivity.
Qed.

(** *** Connection records and the heartbeat stream *)

Lemma finally_removes (connection_id : pystr) (st : stream) :
  at_ (finally_ connection_id st) = Finished /\
  connections (handler (finally_ connection_id st)) =
    delete connection_id (connections (handler st)).
Proof. split; reflexivity. Qed.

Lemma loop_head_finished (connection_id now : pystr) (st : stream) :
  at_ (loop_head connection_id now st) = Finished ->
  loop_head connection_id now st = finally_ connection_id st.
Proof.
  unfold loop_head, connections_get. simpl.
  destruct (default false (connections (handler st) !! connection_id)); [discriminate|done].
Qed.

(** Leaving the [try] block, by whatever way, goes through [finally]. *)
Lemma exit_runs_cleanup (connection_id : pystr) (st : stream) (x : stimulus) :
  at_ st <> Created -> at_ st <> Finished ->
  at_ (heartbeat_step R connection_id st x) = Finished ->
  connections (handler (heartbeat_step R connection_id st x)) =
    delete connection_id (connections (handler st)).
Proof.
  intros Hstarted Hrunning. unfold heartbeat_step.
  destruct x as [is_disconnected now | e | | f]; destruct (at_ st) eqn:Hat;
    try congruence; try (simpl; rewrite ?Hat; intros; congruence); try reflexivity.
  - intros Hfin. by rewrite (loop_head_finished _ _ _ Hfin).
  - destruct is_disconnected; [reflexivity|].
    intros Hfin. by rewrite (loop_head_finished _ _ _ Hfin).
Qed.

Lemma step_started (connection_id : pystr) (st : stream) (x : stimulus) :
  at_ st <> Created -> at_ (heartbeat_step R connection_id st x) <> Created.
Proof.
  intros Hstarted. unfold heartbeat_step.
  destruct x as [is_disconnected now | e | | f]; destruct (at_ st) eqn:Hat;
    try destruct is_disconnected; unfold loop_head, connections_get; simpl;
    try destruct (default false (connections (handler st) !! connection_id));
    simpl; congruence.
Qed.

Lemma opened_step (connection_id : pystr) (s : state) (first : stimulus)
    (xs : list stimulus) (x : stimulus) :
  create_heartbeat_stream R connection_id s (first :: xs ++ [x]) =
  heartbeat_step R connection_id (create_heartbeat_stream R connection_id s (first :: xs)) x.
Proof.
  unfold create_heartbeat_stream. by rewrite List.app_comm_cons, fold_left_app.
Qed.

(** Once its first resume has run, a stream is never again at its start. *)
Lemma opened_started (connection_id : pystr) (s : state) (is_disconnected : bool) (now : pystr)
    (xs : list stimulus) :
  at_ (create_heartbeat_stream R connection_id s (Resume is_disconnected now :: xs)) <> Created.
Proof.
  induction xs as [|x xs IH] using rev_ind; [discriminate|].
  rewrite opened_step. by apply step_started.
Qed.

Lemma finished_rests (connection_id : pystr) (st : stream) (x : stimulus) :
  at_ st = Finished -> (forall f, x <> Interleave f) ->
  heartbeat_step R connection_id st x = st.
Proof.
  intros Hat Hx. unfold heartbeat_step. rewrite Hat.
  destruct x as [is_disconnected now | e | | f]; try reflexivity. by destruct (Hx f).
Qed.

(** A stream that has been opened and has ended, with no other task at the
    records meanwhile, has left no record. *)
Lemma ended_record_gone (connection_id : pystr) (s : state) (is_disconnected : bool)
    (now : pystr) (xs : list stimulus) :
  undisturbed xs = true ->
  at_ (create_heartbeat_stream R connection_id s (Resume is_disconnected now :: xs)) = Finished ->
  connections (handler (create_heartbeat_stream R connection_id s
                          (Resume is_disconnected now :: xs))) !! connection_id = None.
Proof.
  induction xs as [|x xs IH] using rev_ind; [discriminate|].
  unfold undisturbed. rewrite List.forallb_app. intros Hxs.
  apply andb_prop in Hxs as [Hxs Hx]. rewrite opened_step.
  pose proof (opened_started connection_id s is_disconnected now xs) as Hstarted.
  destruct (at_ (create_heartbeat_stream R connection_id s (Resume is_disconnected now :: xs)))
    eqn:Hat; try congruence;
    try (intros Hfin;
         rewrite (exit_runs_cleanup connection_id _ x) by (rewrite ?Hat; congruence);
         apply lookup_delete_eq).
  intros _. rewrite finished_rests; [by apply IH| exact Hat |].
  intros f ->. simpl in Hx. discriminate.
Qed.

(** C9: the lifecycle of a connection record, over the stream that owns it.
    Open: the first resume of the stream stores the record of its id and
    rests at the first [yield]; read right then, the id is alive.  Close:
    after the pop of the id it reads as not alive, and a pop of an id that is
    already gone returns normally and changes nothing.  Cleanup: for a stream
    that has been opened, whatever resumed it since, the step that ends it
    removes the record, and the id reads as not alive afterwards; a fault and a
    close end it wherever it rests, and so do, as the normal ways out, a
    disconnect seen at the check and a record found gone at the test of the
    loop; and once it has ended, by whatever way, with no other task at the
    records meanwhile, its id reads as not alive. *)
Theorem connection_lifecycle (connection_id : pystr) :
  (forall (s : state) (is_disconnected : bool) (now : pystr),
     let opened := create_heartbeat_stream R connection_id s [Resume is_disconnected now] in
     at_ opened = AtConnectionYield /\
     handler opened = snd (connections_set connection_id s) /\
     connections (handler opened) !! connection_id = Some true /\
     connections_get connection_id (handler opened) = (Returned true, handler opened)) /\
  (forall s : state,
     let closed := snd (connections_pop connection_id s) in
     connections_get connection_id closed = (Returned false, closed)) /\
  (forall s : state,
     let closed := snd (connections_pop connection_id s) in
     connections_pop connection_id closed = (Returned None, closed)) /\
  (forall (s : state) (is_disconnected : bool) (now : pystr) (xs : list stimulus) (x : stimulus),
     let before :=
       create_heartbeat_stream R connection_id s (Resume is_disconnected now :: xs) in
     let after :=
       create_heartbeat_stream R connection_id s (Resume is_disconnected now :: xs ++ [x]) in
     at_ before <> Finished ->
     at_ after = Finished ->
     connections (handler after) = delete connection_id (connections (handler before)) /\
     connections (handler after) !! connection_id = None /\
     connections_get connection_id (handler after) = (Returned false, handler after)) /\
  (forall (s : state) (is_disconnected : bool) (now : pystr) (xs : list stimulus) (x : stimulus),
     let after :=
       create_heartbeat_stream R connection_id s (Resume is_disconnected now :: xs ++ [x]) in
     (exists e, x = Fault e) \/ x = Close ->
     at_ after = Finished) /\
  (forall (s : state) (is_disconnected : bool) (now : pystr) (xs : list stimulus)
          (gone : bool) (now' : pystr),
     let before :=
       create_heartbeat_stream R connection_id s (Resume is_disconnected now :: xs) in
     let after :=
       create_heartbeat_stream R connection_id s
         (Resume is_disconnected now :: xs ++ [Resume gone now']) in
     (at_ before = AwaitingDisconnect /\ gone = true) \/
     ((at_ before = AtConnectionYield \/ at_ before = AwaitingDisconnect) /\
      connections_get connection_id (handler before) = (Returned false, handler before)) ->
     at_ after = Finished) /\
  (forall (s : state) (is_disconnected : bool) (now : pystr) (xs : list stimulus),
     let ended :=
       create_heartbeat_stream R connection_id s (Resume is_disconnected now :: xs) in
     undisturbed xs = true ->
     at_ ended = Finished ->
     connections (handler ended) !! connection_id = None /\
     connections_get connection_id (handler ended) = (Returned false, handler ended)).
Proof.
  split; [|split; [|split; [|split; [|split; [|split]]]]].
  - intros s is_disconnected now opened. subst opened.
    unfold create_heartbeat_stream, connections_get, connections_set. cbn.
    rewrite lookup_insert_eq. by repeat split.
  - intros s closed. subst closed.
    unfold connections_get, connections_pop. cbn. by rewrite lookup_delete_eq.
  - intros s closed. subst closed.
    unfold connections_pop. cbn. by rewrite lookup_delete_eq, delete_delete_eq.
  - intros s is_disconnected now xs x before after Hrunning Hfinished.
    assert (Hstep : after = heartbeat_step R connection_id before x)
      by (subst after before; apply opened_step).
    assert (Hstarted : at_ before <> Created) by (subst before; apply opened_started).
    clearbody after. subst after. clearbody before.
    pose proof (exit_runs_cleanup connection_id before x Hstarted Hrunning Hfinished) as Hgone.
    assert (Hnone : connections (handler (heartbeat_step R connection_id before x))
                      !! connection_id = None).
    { rewrite Hgone. apply lookup_delete_eq. }
    split; [exact Hgone|]. split; [exact Hnone|].
    unfold connections_get. by rewrite Hnone.
  - intros s is_disconnected now xs x after Hx.
    assert (Hstep : after = heartbeat_step R connection_id
                              (create_heartbeat_stream R connection_id s
                                 (Resume is_disconnected now :: xs)) x)
      by (subst after; apply opened_step).
    pose proof (opened_started connection_id s is_disconnected now xs) as Hstarted.
    clearbody after. subst after. unfold heartbeat_step.
    destruct Hx as [[e ->] | ->];
      destruct (at_ (create_heartbeat_stream R connection_id s
                       (Resume is_disconnected now :: xs))) eqn:Hat;
      try congruence; reflexivity.
  - intros s is_disconnected now xs gone now' before after Hexit.
    assert (Hstep : after = heartbeat_step R connection_id before (Resume gone now'))
      by (subst after before; apply opened_step).
    clearbody after. subst after. clearbody before. unfold heartbeat_step.
    destruct Hexit as [[-> ->] | [Hat Hdead]].
    + reflexivity.
    + unfold connections_get in Hdead. injection Hdead as Hdead.
      destruct Hat as [-> | ->]; [|destruct gone; [reflexivity|]];
        unfold loop_head, connections_get; simpl; by rewrite Hdead.
  - intros s is_disconnected now xs ended Hxs Hfinished. subst ended.
    pose proof (ended_record_gone connection_id s is_disconnected now xs Hxs Hfinished) as Hnone.
    split; [exact Hnone|].
    unfold connections_get. by rewrite Hnone.
Qed.

(** *** Tool failures are payloads *)

Lemma try_except_returns {A} (m : M A) (handler : exn -> M A) (s : state) :
  (forall e s1, exists a s2, handler e s1 = (Returned a, s2)) ->
  exists a s', try_except m handler s = (Returned a, s').
Proof.
  intros Hhandler. unfold try_except.
  destruct (m s) as [[a|e] s1]; [by eexists _, _ | apply Hhandler].
Qed.

(** No tool raises: a failure of the driver, or an argument of the wrong type,
    comes back as the text of an error object, which the dispatcher wraps as
    an ordinary result. *)
Lemma call_tool_returns (tool_name : pyval) (kwargs : list (pystr * pyval)) (s : state) :
  exists text s', call_tool R tool_name kwargs s = (Returned text, s').
Proof.
  unfold call_tool.
  repeat match goal with
         | |- context [if ?c then _ else _] => destruct c
         end;
    try (by eexists _, _);
    apply try_except_returns; intros e s1; by eexists _, _.
Qed.

(** *** tools/call: the tool runs *)

Lemma str_eqb_sym (a b : pystr) : str_eqb a b = str_eqb b a.
Proof.
  destruct (str_eqb a b) eqn:E1, (str_eqb b a) eqn:E2; try reflexivity.
  - apply str_eqb_eq in E1. subst. unfold str_eqb in E2.
    by rewrite bool_decide_eq_true_2 in E2.
  - apply str_eqb_eq in E2. subst. unfold str_eqb in E1.
    by rewrite bool_decide_eq_true_2 in E1.
Qed.

Lemma no_reserved_keyword (kwargs : list (pystr * pyval)) :
  dict_has "self" kwargs = false ->
  dict_has "name" kwargs = false ->
  List.find (fun kv => str_eqb (fst kv) "self" || str_eqb (fst kv) "name") kwargs = None.
Proof.
  unfold dict_has. induction kwargs as [|[k v] rest IH]; [reflexivity|].
  simpl. rewrite (str_eqb_sym k "self"), (str_eqb_sym k "name").
  destruct (str_eqb "self" k); [discriminate|].
  destruct (str_eqb "name" k); [discriminate|].
  exact IH.
Qed.

Lemma first_missing_all_present (required : list pystr) (tool_name arguments : pyval) (s : state) :
  (forall p, In p required -> contains arguments p = Some true) ->
  first_missing R required tool_name arguments s = (Returned None, s).
Proof.
  induction required as [|param rest IH]; intros Hall; [reflexivity|].
  simpl. unfold bind, str_in. rewrite (Hall param (or_introl eq_refl)). simpl.
  apply IH. intros p Hin. apply Hall. by right.
Qed.

(** X4: a call that names a registered tool and carries all it requires runs
    the tool, and the tool's text comes back as the one content item of a
    result envelope, whether the text reports success or failure. *)
Lemma tools_call_runs_tool
    (request : MCPRequest.t) (s : state) (items kwargs : list (pystr * pyval)) (t : tool) :
  MCPRequest.id request <> PNone ->
  MCPRequest.method request = PStr "tools/call" ->
  MCPRequest.params request = PDict items ->
  params_name items = PStr (name t) ->
  params_arguments items = PDict kwargs ->
  (forall p, In p (required_of t) -> dict_has p kwargs = true) ->
  dict_has "self" kwargs = false ->
  dict_has "name" kwargs = false ->
  exists (text : pystr) (s' : state),
    call_tool R (PStr (name t)) kwargs s = (Returned text, s') /\
    process_bridge_request R request s =
      (Returned
         (PDict [("jsonrpc", PStr "2.0");
                 ("id", MCPRequest.id request);
                 ("result",
                  PDict [("content",
                          PList [PDict [("type", PStr "text"); ("text", PStr text)]])])]),
       s').
Proof.
  intros Hid Hm Hparams Hname Hargs Hall Hself Hnm.
  destruct (tools_call_tests _ Hm) as (H1 & H2 & H3 & H4 & H5).
  destruct (call_tool_returns (PStr (name t)) kwargs s) as (text & s' & Hcall).
  exists text, s'. split; [exact Hcall|].
  unfold process_bridge_request, try_except, dispatch.
  rewrite (is_None_false _ Hid), H1, H2, H3, H4, H5, Hparams.
  unfold method_get, bind at 1 2, ret at 1 2.
  fold (params_name items). fold (params_arguments items). rewrite Hname, Hargs.
  unfold bind at 1. rewrite key_in_dict_registered. cbn [negb].
  unfold bind at 1, validate_tool_params, bind at 1.
  rewrite required_params_of_tool.
  rewrite first_missing_all_present
    by (intros p Hin; simpl; f_equal; by apply Hall).
  cbn [is_set]. unfold bind at 1, call_tool_unpacking.
  rewrite (no_reserved_keyword _ Hself Hnm), Hcall. reflexivity.
Qed.

End Properties.

(** * The properties at concrete requests *)

(** A [tools/call] sent as a notification: answered with the echo, and the
    tool is not run. *)
Lemma notification_echoed_witness :
  process_bridge_request example_runtime
    (request "tools/call" PNone
       (PDict [("name", PStr "describe_table");
               ("arguments", PDict [("database", PStr "db1"); ("table", PStr "t1")])]))
    fresh_state =
  (Returned
     (PDict [("jsonrpc", PStr "2.0");
             ("method", PStr "tools/call");
             ("params",
              PDict [("name", PStr "describe_table");
                     ("arguments", PDict [("database", PStr "db1"); ("table", PStr "t1")])])]),
   fresh_state).
Proof.
  apply (notification_echoed_without_effect example_runtime). reflexivity.
Defined.

(** C1 as stated fails: the notification [notifications/initialized], sent
    without id and without params, is answered with an object. *)
Lemma notification_gets_response_object :
  process_bridge_request example_runtime
    {| MCPRequest.jsonrpc := PStr "2.0"; MCPRequest.method := PStr "notifications/initialized";
       MCPRequest.id := PNone; MCPRequest.params := PNone |}
    fresh_state =
  (Returned
     (PDict [("jsonrpc", PStr "2.0");
             ("method", PStr "notifications/initialized");
             ("params", PDict [])]),
   fresh_state).
Proof. reflexivity. Qed.

Lemma response_has_result_xor_error_witness :
  exists (items : list (pystr * pyval)) (s' : state),
    process_bridge_request example_runtime
      (request "tools/call" (PInt 1) (PList [PStr "describe_table"])) fresh_state =
      (Returned (PDict items), s') /\
    dict_get "id" items = Some (PInt 1) /\
    xorb (dict_has "result" items) (dict_has "error" items) = true.
Proof.
  apply (response_has_result_xor_error example_runtime
           (request "tools/call" (PInt 1) (PList [PStr "describe_table"])) fresh_state).
  simpl. discriminate.
Defined.

(** C3 as stated fails: a name that is a list is no registered tool name, and
    the lookup faults on it, so the code is -32603. *)
Lemma unhashable_tool_name_internal_error :
  process_bridge_request example_runtime
    (request "tools/call" (PInt 1) (PDict [("name", PList [PStr "no_such_tool"])]))
    fresh_state =
  (Returned
     (PDict [("jsonrpc", PStr "2.0");
             ("id", PInt 1);
             ("error", PDict [("code", PInt (-32603));
                              ("message", PStr "Internal error: unhashable type: 'list'")])]),
   {| client := false; connections := ∅;
      trace := [LogRecord ERROR "Error processing bridge request: unhashable type: 'list'"] |}).
Proof. reflexivity. Qed.

(** C4 as stated fails: [list_tables] called with [arguments] set to null
    lacks the required [database], and the membership test faults on null, so
    the code is -32603. *)
Lemma null_arguments_internal_error :
  process_bridge_request example_runtime
    (request "tools/call" (PInt 1)
       (PDict [("name", PStr "list_tables"); ("arguments", PNone)]))
    fresh_state =
  (Returned
     (PDict [("jsonrpc", PStr "2.0");
             ("id", PInt 1);
             ("error",
              PDict [("code", PInt (-32603));
                     ("message",
                      PStr "Internal error: argument of type 'NoneType' is not iterable")])]),
   {| client := false; connections := ∅;
      trace := [LogRecord ERROR
                  "Error processing bridge request: argument of type 'NoneType' is not iterable"] |}).
Proof. reflexivity. Qed.

Lemma unknown_tool_rejected_witness :
  process_bridge_request example_runtime
    (request "tools/call" (PInt 7) (PDict [("name", PStr "drop_database")])) fresh_state =
  (Returned
     (PDict [("jsonrpc", PStr "2.0");
             ("id", PInt 7);
             ("error", PDict [("code", PInt (-32601));
                              ("message", PStr "Unknown tool: drop_database")])]),
   fresh_state).
Proof.
  apply (unknown_tool_rejected example_runtime
           (request "tools/call" (PInt 7) (PDict [("name", PStr "drop_database")]))
           fresh_state [("name", PStr "drop_database")]).
  - simpl. discriminate.
  - reflexivity.
  - reflexivity.
  - intros []; simpl; discriminate.
Defined.

(** [describe_table] called with a database and no table. *)
Lemma missing_required_parameter_witness :
  exists missing : pystr,
    first_absent (required_of DescribeTable) (PDict [("database", PStr "db1")]) = Some missing /\
    In missing (required_of DescribeTable) /\
    contains (PDict [("database", PStr "db1")]) missing = Some false /\
    process_bridge_request example_runtime
      (request "tools/call" (PStr "r-9")
         (PDict [("name", PStr "describe_table");
                 ("arguments", PDict [("database", PStr "db1")])]))
      fresh_state =
    (Returned
       (PDict [("jsonrpc", PStr "2.0");
               ("id", PStr "r-9");
               ("error", PDict [("code", PInt (-32602));
                                ("message", PStr (missing +++ " is required for describe_table"))])]),
     fresh_state).
Proof.
  apply (proj1 (missing_required_parameter_rejected example_runtime)
           (request "tools/call" (PStr "r-9")
              (PDict [("name", PStr "describe_table");
                      ("arguments", PDict [("database", PStr "db1")])]))
           fresh_state
           [("name", PStr "describe_table"); ("arguments", PDict [("database", PStr "db1")])]
           DescribeTable "table").
  - simpl. discriminate.
  - reflexivity.
  - reflexivity.
  - reflexivity.
  - simpl. tauto.
  - reflexivity.
Defined.

Lemma tools_list_witness :
  process_bridge_request example_runtime (request "tools/list" (PStr "abc") PNone) fresh_state =
    (Returned (PDict [("jsonrpc", PStr "2.0");
                      ("id", PStr "abc");
                      ("result", PDict [("tools", PList (List.map listed_entry registered_tools))])]),
     fresh_state)
  /\ List.map fst get_available_tools = List.map name registered_tools
  /\ List.NoDup (List.map name registered_tools)
  /\ (forall t : tool, In t registered_tools).
Proof.
  apply (tools_list_one_entry_per_tool example_runtime
           (request "tools/list" (PStr "abc") PNone) fresh_state).
  - simpl. discriminate.
  - reflexivity.
Defined.

(** A [tools/call] without params: [request.params.get] faults, and the fault
    comes back as the internal-error envelope. *)
Lemma dispatch_fault_witness :
  dispatch example_runtime (request "tools/call" (PInt 1) PNone) fresh_state =
    (Raised (AttributeError "NoneType" "get"), fresh_state) /\
  fst (process_bridge_request example_runtime (request "tools/call" (PInt 1) PNone) fresh_state) =
    Returned
      (PDict [("jsonrpc", PStr "2.0");
              ("id", PInt 1);
              ("error",
               PDict [("code", PInt (-32603));
                      ("message",
                       PStr "Internal error: 'NoneType' object has no attribute 'get'")])]).
Proof.
  split; [reflexivity|].
  destruct (dispatch_is_total example_runtime (request "tools/call" (PInt 1) PNone) fresh_state)
    as (response & s' & Hrun & Hfault).
  rewrite Hrun. simpl. f_equal.
  exact (proj1 (Hfault (AttributeError "NoneType" "get") fresh_state eq_refl)).
Defined.

Lemma unknown_method_witness :
  process_bridge_request example_runtime (request "ping" (PInt 3) PNone) fresh_state =
    (Returned
       (PDict [("jsonrpc", PStr "2.0");
               ("id", PInt 3);
               ("error", PDict [("code", PInt (-32601));
                                ("message", PStr "Method not found: ping")])]),
     fresh_state).
Proof.
  apply (proj1 (unknown_method_not_found example_runtime)
           (request "ping" (PInt 3) PNone) fresh_state).
  - simpl. discriminate.
  - intros m Hin. simpl in Hin.
    destruct Hin as [<- | [<- | [<- | [<- | [<- | []]]]]]; simpl; discriminate.
Defined.

Lemma initialize_witness :
  process_bridge_request example_runtime
    (request "initialize" (PInt 0) (PDict [("clientInfo", PStr "probe")])) fresh_state =
    (Returned
       (PDict [("jsonrpc", PStr "2.0");
               ("id", PInt 0);
               ("result",
                PDict [("protocolVersion", PStr "2024-11-05");
                       ("capabilities", PDict [("tools", PDict [])]);
                       ("serverInfo", PDict [("name", PStr "clickhouse-mcp-server");
                                             ("version", PStr "1.0.0")])])]),
     fresh_state).
Proof.
  apply (proj1 (initialize_fixed_and_idempotent example_runtime)
           (request "initialize" (PInt 0) (PDict [("clientInfo", PStr "probe")])) fresh_state).
  - simpl. discriminate.
  - reflexivity.
Defined.

Lemma non_select_sql_witness :
  RunSelectQuery_execute example_runtime (PStr "  Drop TABLE users") fresh_state =
    (Returned ("{" +++ dq +++ "error" +++ dq +++ ": " +++ dq
               +++ "Only SELECT, SHOW, and DESCRIBE queries are allowed" +++ dq +++ "}"),
     fresh_state).
Proof.
  apply (non_select_sql_rejected_without_query example_runtime "  Drop TABLE users" fresh_state);
    reflexivity.
Defined.

(** A stream that is opened, sends one heartbeat, sleeps, and learns that the
    client is gone: the record is there from the first resume on, the loop
    ends by [break], and the record is removed. *)
Lemma connection_lifecycle_witness :
  connections_get "c-1"
    (handler (create_heartbeat_stream example_runtime "c-1" fresh_state [Resume false "t0"])) =
    (Returned true,
     handler (create_heartbeat_stream example_runtime "c-1" fresh_state [Resume false "t0"])) /\
  at_ (create_heartbeat_stream example_runtime "c-1" fresh_state
         (Resume false "t0"
          :: [Resume false "t1"; Resume false "t1"; Resume false "t1"] ++ [Resume true "t2"])) =
    Finished /\
  connections_get "c-1"
    (handler (create_heartbeat_stream example_runtime "c-1" fresh_state
                (Resume false "t0"
                 :: [Resume false "t1"; Resume false "t1"; Resume false "t1"]
                    ++ [Resume true "t2"]))) =
    (Returned false,
     handler (create_heartbeat_stream example_runtime "c-1" fresh_state
                (Resume false "t0"
                 :: [Resume false "t1"; Resume false "t1"; Resume false "t1"]
                    ++ [Resume true "t2"]))).
Proof.
  split; [|split].
  - apply (proj1 (connection_lifecycle example_runtime "c-1") fresh_state false "t0").
  - apply (proj1 (proj2 (proj2 (proj2 (proj2 (proj2
                    (connection_lifecycle example_runtime "c-1"))))))
             fresh_state false "t0"
             [Resume false "t1"; Resume false "t1"; Resume false "t1"] true "t2").
    left. split; reflexivity.
  - apply (proj1 (proj2 (proj2 (proj2 (connection_lifecycle example_runtime "c-1"))))
             fresh_state false "t0"
             [Resume false "t1"; Resume false "t1"; Resume false "t1"] (Resume true "t2")).
    + vm_compute. discriminate.
    + vm_compute. reflexivity.
Defined.

(** The same stream, step by step: alive once opened, and what it has sent. *)
Example heartbeat_stream_opened :
  let st := create_heartbeat_stream example_runtime "c-1" fresh_state
              [Resume false "t0"; Resume false "t1"] in
  at_ st = AtHeartbeatYield /\
  connections (handler st) !! ("c-1" : pystr) = Some true /\
  sent st =
    ["data: {" +++ dq +++ "type" +++ dq +++ ": " +++ dq +++ "connection" +++ dq +++ ", "
     +++ dq +++ "id" +++ dq +++ ": " +++ dq +++ "c-1" +++ dq +++ "}" +++ newlines;
     "data: {" +++ dq +++ "type" +++ dq +++ ": " +++ dq +++ "heartbeat" +++ dq +++ ", "
     +++ dq +++ "timestamp" +++ dq +++ ": " +++ dq +++ "t1" +++ dq +++ "}" +++ newlines].
Proof. vm_compute. repeat split; reflexivity. Qed.

(** An exception while the stream sleeps is logged, and the record is removed. *)
Example heartbeat_stream_fault :
  let st := create_heartbeat_stream example_runtime "c-1" fresh_state
              [Resume false "t0"; Resume false "t1"; Resume false "t1";
               Fault (ExternalError "connection reset")] in
  at_ st = Finished /\
  connections (handler st) !! ("c-1" : pystr) = None /\
  trace (handler st) = [LogRecord ERROR "Bridge connection error: connection reset"].
Proof. vm_compute. repeat split; reflexivity. Qed.

(** The record taken away by another task ends the loop at its next test. *)
Example heartbeat_stream_record_removed :
  let st := create_heartbeat_stream example_runtime "c-1" fresh_state
              [Resume false "t0"; Interleave (delete ("c-1" : pystr)); Resume false "t1"] in
  at_ st = Finished /\ sent st = [connection_event "c-1"].
Proof. vm_compute. repeat split; reflexivity. Qed.

(** The scenario of a [describe_table] call on a database that answers: the
    tool's text is passed through as the one content item. *)
Example describe_table_scenario :
  fst (process_bridge_request example_runtime
         (request "tools/call" (PInt 5)
            (PDict [("name", PStr "describe_table");
                    ("arguments", PDict [("database", PStr "db1"); ("table", PStr "t1")])]))
         fresh_state) =
  Returned
    (PDict [("jsonrpc", PStr "2.0");
            ("id", PInt 5);
            ("result",
             PDict [("content",
                     PList [PDict [("type", PStr "text"); ("text", PStr success_true)]])])]).
Proof. reflexivity. Qed.

(** * Further properties of the code *)

(** ** What a request does to the handler *)

Lemma str_eqb_same (a : pystr) : str_eqb a a = true.
Proof. by apply str_eqb_eq. Qed.

Section Effects.
Variable R : runtime.

Lemma pure_ret {A} (a : A) : pure_ (ret a).
Proof. intros s. reflexivity. Qed.

Lemma pure_raise {A} (e : exn) : pure_ (@raise A e).
Proof. intros s. reflexivity. Qed.

Lemma pure_bind {A B} (m : M A) (k : A -> M B) :
  pure_ m -> (forall a, pure_ (k a)) -> pure_ (bind m k).
Proof.
  intros Hm Hk s. unfold bind. specialize (Hm s).
  destruct (m s) as [[a|e] s1]; simpl in Hm; subst; [apply Hk | reflexivity].
Qed.

Ltac pure_steps :=
  repeat first
    [ apply pure_ret
    | apply pure_raise
    | apply pure_bind; [|intros]
    | match goal with
      | |- pure_ (if ?c then _ else _) => destruct c
      | |- pure_ (match ?x with _ => _ end) => destruct x
      end ].

Lemma pure_mapping_get {V} (key : pyval) (items : list (pystr * V)) :
  pure_ (mapping_get key items).
Proof. unfold mapping_get. pure_steps. Qed.

Lemma pure_key_in_dict {V} (key : pyval) (items : list (pystr * V)) :
  pure_ (key_in_dict key items).
Proof. unfold key_in_dict. apply pure_bind; [apply pure_mapping_get | intros; apply pure_ret]. Qed.

Lemma pure_method_get (obj : pyval) (key : pystr) (default : pyval) :
  pure_ (method_get obj key default).
Proof. unfold method_get. pure_steps. Qed.

Lemma pure_getitem (obj : pyval) (key : pystr) : pure_ (getitem obj key).
Proof. unfold getitem. pure_steps. Qed.

Lemma pure_str_in (item : pystr) (container : pyval) : pure_ (str_in item container).
Proof. unfold str_in. pure_steps. Qed.

Lemma pure_get_tool_instance (tool_name : pyval) : pure_ (_get_tool_instance tool_name).
Proof. apply pure_mapping_get. Qed.

Lemma pure_get_tool_schema (tool_name tool_info : pyval) :
  pure_ (get_tool_schema tool_name tool_info).
Proof.
  unfold get_tool_schema. apply pure_bind; [apply pure_get_tool_instance|]. intros found.
  destruct (custom_schema_of found);
    (apply pure_bind; [apply pure_getitem | intros; apply pure_ret]).
Qed.

Lemma pure_get_tool_required_params (tool_name : pyval) :
  pure_ (get_tool_required_params tool_name).
Proof.
  unfold get_tool_required_params. apply pure_bind; [apply pure_get_tool_instance|].
  intros found. pure_steps.
Qed.

Lemma pure_first_missing (required : list pystr) (tool_name arguments : pyval) :
  pure_ (first_missing R required tool_name arguments).
Proof.
  induction required as [|param rest IH]; simpl; [apply pure_ret|].
  apply pure_bind; [apply pure_str_in|]. intros present.
  destruct (negb present); [apply pure_ret | exact IH].
Qed.

Lemma pure_validate_tool_params (tool_name arguments : pyval) :
  pure_ (validate_tool_params R tool_name arguments).
Proof.
  unfold validate_tool_params.
  apply pure_bind; [apply pure_get_tool_required_params | intros; apply pure_first_missing].
Qed.

Lemma pure_for_each {A B} (f : A -> M B) (xs : list A) :
  (forall x, pure_ (f x)) -> pure_ (for_each f xs).
Proof.
  intros Hf. induction xs as [|x rest IH]; simpl; [apply pure_ret|].
  apply pure_bind; [apply Hf|]. intros y.
  apply pure_bind; [exact IH | intros; apply pure_ret].
Qed.

Lemma tools_call_test_false (method : pyval) :
  method <> PStr "tools/call" -> str_eq_val "tools/call" method = false.
Proof. apply str_eq_val_false. Qed.

(** X1: only [tools/call] can touch the handler.  A request with any other
    method, with or without an id, is answered without fault and leaves the
    client, the connection records and the trace exactly as they were: no
    driver call, no log record. *)
Theorem only_tools_call_touches_handler (request : MCPRequest.t) (s : state) :
  MCPRequest.method request <> PStr "tools/call" ->
  exists response : pyval, process_bridge_request R request s = (Returned response, s).
Proof.
  intros Hm. apply tools_call_test_false in Hm.
  unfold process_bridge_request, try_except, dispatch. rewrite Hm.
  repeat match goal with
         | |- context [if ?c then _ else _] => destruct c
         end; eexists; reflexivity.
Qed.

Lemma bounded_effect_refl (s : state) : bounded_effect R s s.
Proof.
  exists []. rewrite app_nil_r. repeat split; simpl; auto; try lia; try congruence;
      try (constructor; [exact Hperm | constructor]).
Qed.

Lemma pure_bounded {A} (m : M A) : pure_ m -> bounded R m.
Proof. intros Hm s. rewrite Hm. apply bounded_effect_refl. Qed.

Lemma bounded_bind_l {A B} (m : M A) (k : A -> M B) :
  pure_ m -> (forall a, bounded R (k a)) -> bounded R (bind m k).
Proof.
  intros Hm Hk s. unfold bind. specialize (Hm s).
  destruct (m s) as [[a|e] s1]; simpl in Hm; subst; [apply Hk | apply bounded_effect_refl].
Qed.

Lemma bounded_bind_r {A B} (m : M A) (k : A -> M B) :
  bounded R m -> (forall a, pure_ (k a)) -> bounded R (bind m k).
Proof.
  intros Hm Hk s. unfold bind. specialize (Hm s).
  destruct (m s) as [[a|e] s1]; simpl in Hm; [|exact Hm].
  by rewrite Hk.
Qed.

Lemma queries_app (evs1 evs2 : list event) : queries (evs1 ++ evs2) = queries evs1 ++ queries evs2.
Proof. unfold queries. by rewrite List.map_app, List.concat_app. Qed.

Lemma connects_app (evs1 evs2 : list event) :
  connects (evs1 ++ evs2) = (connects evs1 + connects evs2)%nat.
Proof. unfold connects. by rewrite List.filter_app, List.length_app. Qed.

(** A log record more changes none of the counts. *)
Lemma bounded_effect_logged (s s1 : state) (lvl : log_level) (msg : pystr) :
  bounded_effect R s s1 -> bounded_effect R s (snd (log lvl msg s1)).
Proof.
  intros (evs & Htrace & Hconn & Hkeep & Hnew & Hone & Hq & Hqc & Hperm).
  exists (evs ++ [LogRecord lvl msg]). simpl.
  rewrite Htrace, app_assoc, queries_app, connects_app. simpl.
  rewrite app_nil_r, Nat.add_0_r. repeat split; auto; apply Hkeep || apply Hnew; auto.
Qed.

(** The common shape of the four [execute] methods past their own tests: get
    the client, send one query, and turn any exception into a logged text. *)
Lemma bounded_query (t : tool) (sql : pystr) (args : list pyval) (msg text : exn -> pystr) :
  permitted_query R sql = true ->
  bounded R (try_except (get_client R;; client_query R t sql args)
               (fun e => log ERROR (msg e);; ret (text e))).
Proof.
  intros Hperm [c m tr].
  unfold try_except, bind, get_client, bind, get_client_field, try_except, bind,
    get_trace, emit, client_query, bind, get_trace, emit, log, emit, set_client_field,
    raise, ret, bounded_effect.
  simpl. destruct c; simpl.
  - destruct (driver_query R t tr sql args) as [e|out]; simpl;
      eexists; (split; [rewrite <- ?app_assoc; simpl; reflexivity|]);
      repeat split; simpl; auto; try lia; try congruence;
      try (constructor; [exact Hperm | constructor]).
  - destruct (driver_connect R tr) as [e|]; simpl.
    + eexists; (split; [rewrite <- ?app_assoc; simpl; reflexivity|]);
        repeat split; simpl; auto; try lia; try congruence;
      try (constructor; [exact Hperm | constructor]).
    + destruct (driver_query R t _ sql args) as [e|out]; simpl;
        eexists; (split; [rewrite <- ?app_assoc; simpl; reflexivity|]);
        repeat split; simpl; auto; try lia; try congruence;
      try (constructor; [exact Hperm | constructor]).
Qed.

Lemma bounded_handled_raise {A} (e : exn) (msg : exn -> pystr) (value : exn -> A) :
  bounded R (try_except (raise e) (fun e => log ERROR (msg e);; ret (value e))).
Proof.
  intros s. unfold try_except, raise, bind, ret.
  destruct (log ERROR (msg e) s) as [[[]|e'] s1] eqn:Hlog;
    replace s1 with (snd (log ERROR (msg e) s)) by (by rewrite Hlog);
    apply bounded_effect_logged, bounded_effect_refl.
Qed.

Lemma guard_permits (sql : pystr) :
  negb (startswith (lower R (strip sql)) "select") && negb (startswith (lower R (strip sql)) "show")
    && negb (startswith (lower R (strip sql)) "describe") = false ->
  permitted_query R sql = true.
Proof.
  unfold permitted_query, guard_passes.
  destruct (startswith _ "select"), (startswith _ "show"), (startswith _ "describe");
    simpl; congruence.
Qed.

Lemma bounded_RunSelectQuery_execute (sql : pyval) : bounded R (RunSelectQuery_execute R sql).
Proof.
  unfold RunSelectQuery_execute.
  destruct sql as [| | | |text| |]; try apply bounded_handled_raise.
  destruct (negb (startswith (lower R (strip text)) "select") && _ && _) eqn:Hguard.
  - apply pure_bounded. intros s. reflexivity.
  - apply bounded_query. by apply guard_permits.
Qed.

Lemma startswith_add (a b : pystr) : startswith (a +++ b) a = true.
Proof.
  destruct a as [cps]. unfold startswith, str_add. simpl.
  induction cps as [|c cps IH]; [by destruct (code_points b)|].
  simpl. by rewrite N.eqb_refl, IH.
Qed.

Lemma bounded_execute (t : tool) (kwargs : list (pystr * pyval)) : bounded R (execute R t kwargs).
Proof.
  destruct t; simpl.
  - apply bounded_RunSelectQuery_execute.
  - apply bounded_query. reflexivity.
  - apply bounded_query. unfold permitted_query.
    rewrite (startswith_add "SHOW TABLES FROM "). by rewrite !orb_true_r.
  - apply bounded_query. unfold permitted_query.
    rewrite (startswith_add "DESCRIBE TABLE "). by rewrite !orb_true_r.
Qed.

(** [call_tool] picks the [execute] of the tool the name names. *)
Lemma call_tool_registered (t : tool) (kwargs : list (pystr * pyval)) :
  call_tool R (PStr (name t)) kwargs = execute R t kwargs.
Proof. destruct t; reflexivity. Qed.

Lemma call_tool_unregistered (tool_name : pyval) (kwargs : list (pystr * pyval)) :
  (forall t, tool_name <> PStr (name t)) ->
  call_tool R tool_name kwargs =
    ret (json_dumps (PDict [("error", PStr ("Unknown tool: " +++ fstr R tool_name))])).
Proof.
  intros Hne. unfold call_tool.
  by rewrite !str_eq_val_false by apply Hne.
Qed.

Lemma registered_or_not (tool_name : pyval) :
  (exists t, tool_name = PStr (name t)) \/ (forall t, tool_name <> PStr (name t)).
Proof.
  destruct (str_eq_val (name RunSelectQuery) tool_name) eqn:E1;
    [apply str_eq_val_true in E1; eauto|].
  destruct (str_eq_val (name ListDatabases) tool_name) eqn:E2;
    [apply str_eq_val_true in E2; eauto|].
  destruct (str_eq_val (name ListTables) tool_name) eqn:E3;
    [apply str_eq_val_true in E3; eauto|].
  destruct (str_eq_val (name DescribeTable) tool_name) eqn:E4;
    [apply str_eq_val_true in E4; eauto|].
  right. intros [] ->; simpl in *; rewrite str_eqb_same in *; congruence.
Qed.

Lemma bounded_call_tool (tool_name : pyval) (kwargs : list (pystr * pyval)) :
  bounded R (call_tool R tool_name kwargs).
Proof.
  destruct (registered_or_not tool_name) as [[t ->] | Hne].
  - rewrite call_tool_registered. apply bounded_execute.
  - rewrite (call_tool_unregistered _ _ Hne). apply pure_bounded, pure_ret.
Qed.

Lemma bounded_call_tool_unpacking (tool_name arguments : pyval) :
  bounded R (call_tool_unpacking R tool_name arguments).
Proof.
  unfold call_tool_unpacking.
  destruct arguments as [| | | | | |kwargs]; try apply pure_bounded, pure_raise.
  destruct (List.find _ kwargs) as [[k v]|];
    [apply pure_bounded, pure_raise | apply bounded_call_tool].
Qed.

Lemma bounded_dispatch (request : MCPRequest.t) : bounded R (dispatch R request).
Proof.
  unfold dispatch.
  repeat match goal with
         | |- bounded _ (if ?c then _ else _) => destruct c
         | |- bounded _ (ret _) => apply pure_bounded, pure_ret
         end.
  - apply pure_bounded, pure_bind; [|intros; apply pure_ret].
    apply pure_for_each. intros item. apply pure_get_tool_schema.
  - apply bounded_bind_l; [apply pure_method_get|]. intros tool_name.
    apply bounded_bind_l; [apply pure_method_get|]. intros arguments.
    apply bounded_bind_l; [apply pure_key_in_dict|]. intros registered.
    destruct (negb registered); [apply pure_bounded, pure_ret|].
    apply bounded_bind_l; [apply pure_validate_tool_params|]. intros validation_error.
    destruct (is_set validation_error); [apply pure_bounded, pure_ret|].
    apply bounded_bind_r; [apply bounded_call_tool_unpacking | intros; apply pure_ret].
Qed.

Lemma bounded_process_bridge_request (request : MCPRequest.t) :
  bounded R (process_bridge_request R request).
Proof.
  intros s. unfold process_bridge_request, try_except.
  pose proof (bounded_dispatch request s) as Hd.
  destruct (dispatch R request s) as [[response|e] s1]; simpl in Hd; [exact Hd|].
  unfold bind, ret.
  destruct (log ERROR _ s1) as [[[]|e'] s2] eqn:Hlog;
    replace s2 with (snd (log ERROR ("Error processing bridge request: " +++ exc_text R e) s1))
      by (by rewrite Hlog);
    by apply bounded_effect_logged.
Qed.

(** X2: whatever the request, the dispatcher leaves the connection records
    alone, never drops a driver client it holds, and only ever adds to the
    trace. *)
Theorem dispatcher_keeps_records_and_client (request : MCPRequest.t) (s : state) :
  connections (snd (process_bridge_request R request s)) = connections s /\
  (client s = true -> client (snd (process_bridge_request R request s)) = true) /\
  exists evs : list event, trace (snd (process_bridge_request R request s)) = trace s ++ evs.
Proof.
  destruct (bounded_process_bridge_request request s)
    as (evs & Htrace & Hconn & Hkeep & _).
  split; [exact Hconn|]. split; [intros Hc; by apply Hkeep | by exists evs].
Qed.

(** X3: what one request costs the database.  The dispatcher asks the driver
    for a client at most once, and not at all when it holds one; it holds one
    afterwards only if it held one before or has just asked; it sends at most
    one query, only over a client, and every query it sends is the caller's SQL
    having passed the read-only guard, or one of the texts "SHOW DATABASES",
    "SHOW TABLES FROM ..." and "DESCRIBE TABLE ..." the other tools build. *)
Theorem dispatcher_driver_budget (request : MCPRequest.t) (s : state) :
  exists evs : list event,
    trace (snd (process_bridge_request R request s)) = trace s ++ evs /\
    (connects evs <= 1)%nat /\
    (client s = true -> connects evs = 0%nat) /\
    (client s = false -> client (snd (process_bridge_request R request s)) = true ->
     connects evs = 1%nat) /\
    (List.length (queries evs) <= 1)%nat /\
    (queries evs <> [] -> client (snd (process_bridge_request R request s)) = true) /\
    List.Forall (fun sql => permitted_query R sql = true) (queries evs).
Proof.
  destruct (bounded_process_bridge_request request s)
    as (evs & Htrace & Hconn & Hkeep & Hnew & Hone & Hq & Hqc & Hperm).
  exists evs. repeat split; auto. intros Hc. by apply Hkeep.
Qed.

End Effects.

(** ** tools/call past validation *)

Section CallSite.
Variable R : runtime.

(** A call that names a registered tool and passes validation comes down to
    the call site [call_tool(tool_name, **arguments)]. *)
Lemma tools_call_validated
    (request : MCPRequest.t) (s : state) (items : list (pystr * pyval)) (t : tool) :
  MCPRequest.id request <> PNone ->
  MCPRequest.method request = PStr "tools/call" ->
  MCPRequest.params request = PDict items ->
  params_name items = PStr (name t) ->
  (forall p, In p (required_of t) -> contains (params_arguments items) p = Some true) ->
  process_bridge_request R request s =
    match call_tool_unpacking R (PStr (name t)) (params_arguments items) s with
    | (Returned result, s') =>
        (Returned
           (result_envelope (MCPRequest.id request)
              (PDict [("content", PList [PDict [("type", PStr "text"); ("text", PStr result)]])])),
         s')
    | (Raised e, s') =>
        (Returned (error_envelope (MCPRequest.id request) (-32603)
                     ("Internal error: " +++ exc_text R e)),
         fault_logged R e s')
    end.
Proof.
  intros Hid Hm Hparams Hname Hall.
  destruct (tools_call_tests _ Hm) as (H1 & H2 & H3 & H4 & H5).
  unfold process_bridge_request, try_except, dispatch.
  rewrite (is_None_false _ Hid), H1, H2, H3, H4, H5, Hparams.
  unfold method_get, bind at 1 2, ret at 1 2.
  fold (params_name items). fold (params_arguments items). rewrite Hname.
  unfold bind at 1. rewrite key_in_dict_registered. cbn [negb].
  unfold bind at 1, validate_tool_params, bind at 1.
  rewrite required_params_of_tool, (first_missing_all_present R _ _ _ _ Hall).
  cbn [is_set]. unfold bind at 1.
  destruct (call_tool_unpacking R (PStr (name t)) (params_arguments items) s) as [[result|e] s'];
    reflexivity.
Qed.

Lemma reserved_keyword_found (kwargs : list (pystr * pyval)) :
  dict_has "self" kwargs = true \/ dict_has "name" kwargs = true ->
  exists k v,
    List.find (fun kv => str_eqb (fst kv) "self" || str_eqb (fst kv) "name") kwargs = Some (k, v) /\
    (k = "self" \/ k = "name") /\ dict_has k kwargs = true.
Proof.
  unfold dict_has. induction kwargs as [|[k v] rest IH]; simpl.
  - intros [H|H]; discriminate.
  - intros H.
    destruct (str_eqb k "self") eqn:Eself.
    { apply str_eqb_eq in Eself. subst k. exists "self", v. simpl. auto. }
    destruct (str_eqb k "name") eqn:Ename.
    { apply str_eqb_eq in Ename. subst k. exists "name", v. simpl. auto. }
    simpl. rewrite (str_eqb_sym "self" k), (str_eqb_sym "name" k), Eself, Ename in H.
    destruct (IH H) as (k' & v' & Hfind & Hk & Hhas).
    exists k', v'. split; [exact Hfind|]. split; [exact Hk|].
    destruct Hk as [-> | ->].
    + by rewrite (str_eqb_sym "self" k), Eself.
    + by rewrite (str_eqb_sym "name" k), Ename.
Qed.

(** X5: an argument called [self] or [name] cannot be passed to a tool.  When
    a call names a registered tool, carries all that the tool requires, and
    its arguments hold the key [self] or [name], the call site faults on the
    first such key: the response is the internal-error envelope, code -32603,
    the tool is not run, and the fault is the only thing logged. *)
Theorem reserved_argument_name_faults
    (request : MCPRequest.t) (s : state) (items kwargs : list (pystr * pyval)) (t : tool) :
  MCPRequest.id request <> PNone ->
  MCPRequest.method request = PStr "tools/call" ->
  MCPRequest.params request = PDict items ->
  params_name items = PStr (name t) ->
  params_arguments items = PDict kwargs ->
  (forall p, In p (required_of t) -> dict_has p kwargs = true) ->
  dict_has "self" kwargs = true \/ dict_has "name" kwargs = true ->
  exists k : pystr,
    (k = "self" \/ k = "name") /\ dict_has k kwargs = true /\
    process_bridge_request R request s =
      (Returned
         (PDict [("jsonrpc", PStr "2.0");
                 ("id", MCPRequest.id request);
                 ("error",
                  PDict [("code", PInt (-32603));
                         ("message",
                          PStr ("Internal error: " +++ exc_text R (TypeError_multiple_values k)))])]),
       fault_logged R (TypeError_multiple_values k) s).
Proof.
  intros Hid Hm Hparams Hname Hargs Hall Hreserved.
  destruct (reserved_keyword_found kwargs Hreserved) as (k & v & Hfind & Hk & Hhas).
  exists k. split; [exact Hk|]. split; [exact Hhas|].
  rewrite (tools_call_validated request s items t Hid Hm Hparams Hname).
  - rewrite Hargs. unfold call_tool_unpacking. rewrite Hfind. reflexivity.
  - intros p Hin. rewrite Hargs. simpl. f_equal. by apply Hall.
Qed.

(** X6: arguments that are no object never reach a tool.  When a call names a
    registered tool and its arguments are not an object, yet validation has
    nothing to object to (the tool requires nothing, as [list_databases], or
    the arguments are an array or string in which every required name
    occurs), unpacking them faults: the response is the internal-error
    envelope, code -32603, and the tool is not run. *)
Theorem non_object_arguments_fault
    (request : MCPRequest.t) (s : state) (items : list (pystr * pyval)) (t : tool) :
  MCPRequest.id request <> PNone ->
  MCPRequest.method request = PStr "tools/call" ->
  MCPRequest.params request = PDict items ->
  params_name items = PStr (name t) ->
  (forall kwargs, params_arguments items <> PDict kwargs) ->
  (forall p, In p (required_of t) -> contains (params_arguments items) p = Some true) ->
  process_bridge_request R request s =
    (Returned
       (PDict [("jsonrpc", PStr "2.0");
               ("id", MCPRequest.id request);
               ("error",
                PDict [("code", PInt (-32603));
                       ("message",
                        PStr ("Internal error: "
                              +++ exc_text R (TypeError_not_a_mapping
                                                (type_name (params_arguments items)))))])]),
     fault_logged R (TypeError_not_a_mapping (type_name (params_arguments items))) s).
Proof.
  intros Hid Hm Hparams Hname Hnot Hall.
  rewrite (tools_call_validated request s items t Hid Hm Hparams Hname Hall).
  unfold call_tool_unpacking.
  destruct (params_arguments items) as [| | | | | |kwargs]; try reflexivity.
  by destruct (Hnot kwargs).
Qed.

End CallSite.

(** ** Validation and undeclared arguments *)

Section Validation.
Variable R : runtime.

Lemma first_missing_same (required : list pystr) (tool_name a b : pyval) (s : state) :
  (forall p, In p required -> contains a p = contains b p) ->
  type_name a = type_name b ->
  first_missing R required tool_name a s = first_missing R required tool_name b s.
Proof.
  intros Hsame Htype. induction required as [|param rest IH]; [reflexivity|].
  simpl. unfold bind, str_in.
  rewrite (Hsame param (or_introl eq_refl)), Htype.
  destruct (contains b param) as [[]|]; simpl; try reflexivity.
  apply IH. intros p Hin. apply Hsame. by right.
Qed.

Lemma validation_reads_only_required_names_aux
    (t : tool) (kwargs1 kwargs2 : list (pystr * pyval)) (s : state) :
  (forall p, In p (required_of t) -> dict_has p kwargs1 = dict_has p kwargs2) ->
  validate_tool_params R (PStr (name t)) (PDict kwargs1) s =
  validate_tool_params R (PStr (name t)) (PDict kwargs2) s.
Proof.
  intros Hsame. unfold validate_tool_params, bind.
  rewrite required_params_of_tool.
  apply first_missing_same; [|reflexivity].
  intros p Hin. simpl. f_equal. by apply Hsame.
Qed.

(** X7: validation looks at nothing but the presence of the required names.
    Two argument objects that hold the same ones of a tool's required
    parameters get the same verdict, whatever the values (null included) and
    whatever other keys they carry. *)
Theorem validation_reads_only_required_names
    (t : tool) (kwargs1 kwargs2 : list (pystr * pyval)) (s : state) :
  (forall p, In p (required_of t) -> dict_has p kwargs1 = dict_has p kwargs2) ->
  validate_tool_params R (PStr (name t)) (PDict kwargs1) s =
  validate_tool_params R (PStr (name t)) (PDict kwargs2) s.
Proof. apply validation_reads_only_required_names_aux. Qed.

Lemma dict_get_app_absent (key : pystr) (items extra : list (pystr * pyval)) :
  dict_has key extra = false -> dict_get key (items ++ extra) = dict_get key items.
Proof.
  unfold dict_has. intros Hextra. induction items as [|[k v] rest IH]; simpl.
  - by destruct (dict_get key extra).
  - by destruct (str_eqb key k).
Qed.

Lemma find_reserved_app (items extra : list (pystr * pyval)) :
  dict_has "self" extra = false -> dict_has "name" extra = false ->
  List.find (fun kv => str_eqb (fst kv) "self" || str_eqb (fst kv) "name") (items ++ extra) =
  List.find (fun kv => str_eqb (fst kv) "self" || str_eqb (fst kv) "name") items.
Proof.
  intros Hself Hname. induction items as [|[k v] rest IH]; simpl.
  - by apply no_reserved_keyword.
  - by destruct (str_eqb k "self" || str_eqb k "name").
Qed.

Lemma execute_same (t : tool) (kwargs1 kwargs2 : list (pystr * pyval)) :
  (forall p, In p (required_of t) -> dict_get p kwargs1 = dict_get p kwargs2) ->
  execute R t kwargs1 = execute R t kwargs2.
Proof.
  intros Hsame. destruct t; simpl; unfold kwargs_get;
    rewrite ?(Hsame "sql"), ?(Hsame "database"), ?(Hsame "table"); simpl; auto.
Qed.

(** A call that names a registered tool: validation, then the call site. *)
Lemma tools_call_registered
    (request : MCPRequest.t) (s : state) (items : list (pystr * pyval)) (t : tool) :
  MCPRequest.id request <> PNone ->
  MCPRequest.method request = PStr "tools/call" ->
  MCPRequest.params request = PDict items ->
  params_name items = PStr (name t) ->
  process_bridge_request R request s =
    match validate_tool_params R (PStr (name t)) (params_arguments items) s with
    | (Returned verdict, s1) =>
        if is_set verdict then
          (Returned (error_envelope (MCPRequest.id request) (-32602)
                       (match verdict with Some message => message | None => "" end)), s1)
        else
          match call_tool_unpacking R (PStr (name t)) (params_arguments items) s1 with
          | (Returned result, s') =>
              (Returned
                 (result_envelope (MCPRequest.id request)
                    (PDict [("content",
                             PList [PDict [("type", PStr "text"); ("text", PStr result)]])])),
               s')
          | (Raised e, s') =>
              (Returned (error_envelope (MCPRequest.id request) (-32603)
                           ("Internal error: " +++ exc_text R e)),
               fault_logged R e s')
          end
    | (Raised e, s1) =>
        (Returned (error_envelope (MCPRequest.id request) (-32603)
                     ("Internal error: " +++ exc_text R e)),
         fault_logged R e s1)
    end.
Proof.
  intros Hid Hm Hparams Hname.
  destruct (tools_call_tests _ Hm) as (H1 & H2 & H3 & H4 & H5).
  unfold process_bridge_request, try_except, dispatch.
  rewrite (is_None_false _ Hid), H1, H2, H3, H4, H5, Hparams.
  unfold method_get, bind at 1 2, ret at 1 2.
  fold (params_name items). fold (params_arguments items). rewrite Hname.
  unfold bind at 1. rewrite key_in_dict_registered. cbn [negb].
  unfold bind at 1.
  destruct (validate_tool_params R (PStr (name t)) (params_arguments items) s)
    as [[verdict|e] s1]; [|reflexivity].
  destruct (is_set verdict); [reflexivity|].
  unfold bind at 1.
  destruct (call_tool_unpacking R (PStr (name t)) (params_arguments items) s1)
    as [[result|e] s']; reflexivity.
Qed.

(** X8: undeclared arguments are ignored.  Take two [tools/call] requests with
    the same id for the same registered tool, the second carrying the
    arguments of the first followed by further keys, none of them [self],
    [name] or a parameter the tool requires.  They get the same response and
    leave the handler in the same state. *)
Theorem undeclared_arguments_ignored
    (request1 request2 : MCPRequest.t) (s : state)
    (items1 items2 kwargs extra : list (pystr * pyval)) (t : tool) :
  MCPRequest.id request1 <> PNone ->
  MCPRequest.id request2 = MCPRequest.id request1 ->
  MCPRequest.method request1 = PStr "tools/call" ->
  MCPRequest.method request2 = PStr "tools/call" ->
  MCPRequest.params request1 = PDict items1 ->
  MCPRequest.params request2 = PDict items2 ->
  params_name items1 = PStr (name t) ->
  params_name items2 = PStr (name t) ->
  params_arguments items1 = PDict kwargs ->
  params_arguments items2 = PDict (kwargs ++ extra) ->
  dict_has "self" extra = false ->
  dict_has "name" extra = false ->
  (forall p, In p (required_of t) -> dict_has p extra = false) ->
  process_bridge_request R request2 s = process_bridge_request R request1 s.
Proof.
  intros Hid Hid2 Hm1 Hm2 Hp1 Hp2 Hn1 Hn2 Ha1 Ha2 Hself Hname Hreq.
  assert (Hget : forall p, In p (required_of t) -> dict_get p (kwargs ++ extra) = dict_get p kwargs).
  { intros p Hin. apply dict_get_app_absent. by apply Hreq. }
  assert (Hhas : forall p, In p (required_of t) -> dict_has p (kwargs ++ extra) = dict_has p kwargs).
  { intros p Hin. unfold dict_has. by rewrite Hget. }
  assert (Hid2' : MCPRequest.id request2 <> PNone) by congruence.
  rewrite (tools_call_registered request1 s items1 t Hid Hm1 Hp1 Hn1),
    (tools_call_registered request2 s items2 t Hid2' Hm2 Hp2 Hn2), Ha1, Ha2, Hid2.
  rewrite (validation_reads_only_required_names_aux t _ _ s Hhas).
  destruct (validate_tool_params R (PStr (name t)) (PDict kwargs) s) as [[verdict|e] s1];
    [|reflexivity].
  destruct (is_set verdict); [reflexivity|].
  unfold call_tool_unpacking.
  rewrite (find_reserved_app _ _ Hself Hname).
  destruct (List.find _ kwargs) as [[k v]|]; [reflexivity|].
  rewrite !call_tool_registered, (execute_same t (kwargs ++ extra) kwargs Hget).
  reflexivity.
Qed.

End Validation.

(** ** The tools and the driver *)

Section Tools.
Variable R : runtime.

(** The run the four [execute] methods share: the client is fetched, one
    query is sent, and an exception of either step becomes a logged text. *)
Lemma guarded_query_run (t : tool) (sql : pystr) (args : list pyval) (msg text : exn -> pystr)
    (s : state) :
  try_except (get_client R;; client_query R t sql args)
    (fun e => log ERROR (msg e);; ret (text e)) s =
  if client s then
    match driver_query R t (trace s) sql args with
    | inr out => (Returned out, with_events s true [DriverQuery sql])
    | inl e => (Returned (text e), with_events s true [DriverQuery sql; LogRecord ERROR (msg e)])
    end
  else
    match driver_connect R (trace s) with
    | Some e =>
        (Returned (text e), with_events s false (refused_events R e ++ [LogRecord ERROR (msg e)]))
    | None =>
        match driver_query R t (trace s ++ connected_events R) sql args with
        | inr out => (Returned out, with_events s true (connected_events R ++ [DriverQuery sql]))
        | inl e =>
            (Returned (text e),
             with_events s true (connected_events R ++ [DriverQuery sql; LogRecord ERROR (msg e)]))
        end
    end.
Proof.
  destruct s as [c m tr].
  unfold try_except, bind, get_client, bind, get_client_field, try_except, bind,
    get_trace, emit, client_query, bind, get_trace, emit, log, emit, set_client_field,
    raise, ret, with_events, connected_events, refused_events.
  simpl. destruct c; simpl.
  - destruct (driver_query R t tr sql args) as [e|out]; simpl;
      rewrite <- ?app_assoc; reflexivity.
  - destruct (driver_connect R tr) as [e|]; simpl.
    + rewrite <- ?app_assoc. reflexivity.
    + rewrite <- !app_assoc. simpl.
      destruct (driver_query R t _ sql args) as [e|out]; simpl;
        rewrite <- ?app_assoc; reflexivity.
Qed.

(** X9: [RunSelectQuery.execute] never raises, and it contacts the driver
    only with a string that passes the guard.  The query it sends is then the
    argument itself, character for character: the stripping and lower-casing
    serve the test alone. *)
Theorem run_select_query_sends_sql_verbatim (sql : pyval) (s : state) :
  exists (text : pystr) (c : bool) (evs : list event),
    RunSelectQuery_execute R sql s = (Returned text, with_events s c evs) /\
    (connects evs <> 0%nat \/ queries evs <> [] ->
     exists q : pystr,
       sql = PStr q /\ guard_passes R q = true /\ (queries evs = [] \/ queries evs = [q])).
Proof.
  unfold RunSelectQuery_execute.
  destruct sql as [| | | |q| |];
    try (destruct s as [c m tr]; eexists _, c, [LogRecord ERROR _]; split;
         [reflexivity | unfold connects, queries; simpl; intros [H|H]; congruence]).
  destruct (negb (startswith (lower R (strip q)) "select") && _ && _) eqn:Hguard.
  - exists (json_dumps (PDict [("error", PStr only_select_allowed)])), (client s), [].
    split; [destruct s as [c m tr]; unfold try_except, ret, with_events; simpl;
            by rewrite app_nil_r|].
    unfold connects, queries. simpl. intros [H|H]; congruence.
  - assert (Hpass : guard_passes R q = true).
    { unfold guard_passes.
      destruct (startswith _ "select"), (startswith _ "show"), (startswith _ "describe");
        simpl in *; congruence. }
    rewrite guarded_query_run.
    destruct (client s).
    + destruct (driver_query R RunSelectQuery (trace s) q [PStr q]) as [e|out];
        eexists _, _, _; (split; [reflexivity|]); intros _; exists q; auto.
    + destruct (driver_connect R (trace s)) as [e|].
      * eexists _, _, _; (split; [reflexivity|]). intros _. exists q. auto.
      * destruct (driver_query R RunSelectQuery _ q [PStr q]) as [e|out];
          eexists _, _, _; (split; [reflexivity|]); intros _; exists q; auto.
Qed.

Lemma execute_unreachable (t : tool) (kwargs : list (pystr * pyval)) (s : state) (e : exn) :
  client s = false ->
  driver_connect R (trace s) = Some e ->
  (t = RunSelectQuery ->
   exists sql, kwargs_get "sql" kwargs = PStr sql /\ guard_passes R sql = true) ->
  execute R t kwargs s =
    (Returned (failure_text R t kwargs e),
     with_events s false
       (refused_events R e ++ [LogRecord ERROR (failure_prefix t +++ exc_text R e)])).
Proof.
  intros Hclient Hconnect Hsql.
  destruct t; simpl.
  - destruct (Hsql eq_refl) as (sql & Hget & Hpass).
    unfold RunSelectQuery_execute. rewrite Hget.
    unfold guard_passes in Hpass.
    destruct (startswith (lower R (strip sql)) "select") eqn:E1,
             (startswith (lower R (strip sql)) "show") eqn:E2,
             (startswith (lower R (strip sql)) "describe") eqn:E3;
      simpl in Hpass; try discriminate; simpl;
      rewrite guarded_query_run, Hclient, Hconnect; unfold failure_text; simpl;
      by rewrite Hget.
  - unfold ListDatabases_execute. by rewrite guarded_query_run, Hclient, Hconnect.
  - unfold ListTables_execute. by rewrite guarded_query_run, Hclient, Hconnect.
  - unfold DescribeTable_execute. by rewrite guarded_query_run, Hclient, Hconnect.
Qed.

(** X10: a database that cannot be reached is reported as a payload, not as
    a protocol error.  When the handler has no client and the driver refuses
    to give one, a valid call of any tool still gets a result envelope; its
    text is the tool's error object, carrying the driver's message and
    repeating the tool's arguments; no query is sent; the refusal is logged
    twice, by [get_client] and by the tool; and the handler is left without a
    client, so that the next call asks the driver again. *)
Theorem unreachable_database_is_a_payload
    (request : MCPRequest.t) (s : state) (items kwargs : list (pystr * pyval)) (t : tool)
    (e : exn) :
  MCPRequest.id request <> PNone ->
  MCPRequest.method request = PStr "tools/call" ->
  MCPRequest.params request = PDict items ->
  params_name items = PStr (name t) ->
  params_arguments items = PDict kwargs ->
  (forall p, In p (required_of t) -> dict_has p kwargs = true) ->
  dict_has "self" kwargs = false ->
  dict_has "name" kwargs = false ->
  (t = RunSelectQuery ->
   exists sql, kwargs_get "sql" kwargs = PStr sql /\ guard_passes R sql = true) ->
  client s = false ->
  driver_connect R (trace s) = Some e ->
  process_bridge_request R request s =
    (Returned
       (PDict [("jsonrpc", PStr "2.0");
               ("id", MCPRequest.id request);
               ("result",
                PDict [("content",
                        PList [PDict [("type", PStr "text");
                                      ("text", PStr (failure_text R t kwargs e))]])])]),
     with_events s false
       (refused_events R e ++ [LogRecord ERROR (failure_prefix t +++ exc_text R e)])).
Proof.
  intros Hid Hm Hparams Hname Hargs Hall Hself Hnm Hsql Hclient Hconnect.
  rewrite (tools_call_validated R request s items t Hid Hm Hparams Hname).
  - rewrite Hargs. unfold call_tool_unpacking.
    rewrite (no_reserved_keyword _ Hself Hnm), call_tool_registered,
      (execute_unreachable t kwargs s e Hclient Hconnect Hsql).
    reflexivity.
  - intros p Hin. rewrite Hargs. simpl. f_equal. by apply Hall.
Qed.

Lemma get_tool_instance_registered (t : tool) (s : state) :
  _get_tool_instance (PStr (name t)) s = (Returned (Some t), s).
Proof. destruct t; reflexivity. Qed.

Lemma unregistered_tests (text : pystr) :
  (forall t, PStr text <> PStr (name t)) -> forall t, str_eqb text (name t) = false.
Proof.
  intros Hne t. destruct (str_eqb text (name t)) eqn:E; [|reflexivity].
  apply str_eqb_eq in E. subst. by destruct (Hne t).
Qed.

Lemma get_tool_instance_unregistered (tool_name : pyval) (s : state) :
  hashable tool_name = true ->
  (forall t, tool_name <> PStr (name t)) ->
  _get_tool_instance tool_name s = (Returned None, s).
Proof.
  intros Hhash Hne. unfold _get_tool_instance, mapping_get. rewrite Hhash.
  destruct tool_name as [| | | |text| |]; try reflexivity.
  pose proof (unregistered_tests text Hne) as Hfalse.
  unfold ret. cbn [List.find fst].
  change "run_select_query" with (name RunSelectQuery).
  change "list_databases" with (name ListDatabases).
  change "list_tables" with (name ListTables).
  change "describe_table" with (name DescribeTable).
  by rewrite !Hfalse.
Qed.

(** X11: the three tables of tool names agree.  For every name that can be
    looked up, either it is the name of one of the four tools, and then the
    registry holds it, the schema manager finds that tool's object and
    [call_tool] runs that tool's [execute]; or it is none, and then the
    registry does not hold it, the schema manager finds nothing, and
    [call_tool] returns its "Unknown tool" text without doing anything. *)
Theorem tool_tables_agree (tool_name : pyval) (s : state) :
  hashable tool_name = true ->
  (exists t : tool,
     tool_name = PStr (name t) /\
     key_in_dict tool_name get_available_tools s = (Returned true, s) /\
     _get_tool_instance tool_name s = (Returned (Some t), s) /\
     forall kwargs, call_tool R tool_name kwargs = execute R t kwargs) \/
  ((forall t : tool, tool_name <> PStr (name t)) /\
   key_in_dict tool_name get_available_tools s = (Returned false, s) /\
   _get_tool_instance tool_name s = (Returned None, s) /\
   forall kwargs s',
     call_tool R tool_name kwargs s' =
       (Returned ("{" +++ dq +++ "error" +++ dq +++ ": "
                  +++ json_string ("Unknown tool: " +++ fstr R tool_name) +++ "}"), s')).
Proof.
  intros Hhash.
  destruct (registered_or_not tool_name) as [[t ->] | Hne].
  - left. exists t. split; [reflexivity|].
    split; [apply key_in_dict_registered|].
    split; [apply get_tool_instance_registered|].
    intros kwargs. apply call_tool_registered.
  - right. split; [exact Hne|].
    split; [by apply key_in_dict_unregistered|].
    split; [by apply get_tool_instance_unregistered|].
    intros kwargs s'. by rewrite (call_tool_unregistered R _ _ Hne).
Qed.

Lemma shown_schema_unregistered (tool_name : pyval) :
  (forall t, tool_name <> PStr (name t)) -> shown_schema tool_name = _default_schema.
Proof.
  intros Hne. destruct tool_name as [| | | |text| |]; try reflexivity.
  pose proof (unregistered_tests text Hne) as Hfalse.
  unfold shown_schema, registered_tools. cbn [List.find]. by rewrite !Hfalse.
Qed.

(** X12: what [get_tool_schema] returns, for any name that can be looked up
    and any info object.  The entry carries the name as given, the info's own
    description, and the schema declared by the tool of that name; a name
    that is no tool's (a number, null, an unknown string) gets the default
    schema and no error.  An info object without a description raises
    [KeyError].  The state is never touched. *)
Theorem get_tool_schema_entry (tool_name : pyval) (info : list (pystr * pyval)) (s : state) :
  hashable tool_name = true ->
  get_tool_schema tool_name (PDict info) s =
    match dict_get "description" info with
    | Some descr =>
        (Returned (PDict [("name", tool_name); ("description", descr);
                          ("inputSchema", shown_schema tool_name)]), s)
    | None => (Raised (KeyError "description"), s)
    end.
Proof.
  intros Hhash. unfold get_tool_schema, bind.
  destruct (registered_or_not tool_name) as [[t ->] | Hne].
  - rewrite get_tool_instance_registered.
    destruct t; simpl; destruct (dict_get "description" info); reflexivity.
  - rewrite (get_tool_instance_unregistered _ _ Hhash Hne), (shown_schema_unregistered _ Hne).
    simpl. destruct (dict_get "description" info); reflexivity.
Qed.

End Tools.

(** ** The heartbeat stream *)

Section Stream.
Variable R : runtime.
Variable connection_id : pystr.

Lemma stream_step (s : state) (xs : list stimulus) (x : stimulus) :
  create_heartbeat_stream R connection_id s (xs ++ [x]) =
  heartbeat_step R connection_id (create_heartbeat_stream R connection_id s xs) x.
Proof. unfold create_heartbeat_stream. by rewrite fold_left_app. Qed.

(** X13: a stream touches no record but its own.  Whatever resumes it, the
    record of every other connection id, and the driver client, are after the
    step what they were before. *)
Theorem heartbeat_touches_only_its_record (st : stream) (x : stimulus) (other : pystr) :
  (forall f, x <> Interleave f) ->
  other <> connection_id ->
  connections (handler (heartbeat_step R connection_id st x)) !! other =
    connections (handler st) !! other /\
  client (handler (heartbeat_step R connection_id st x)) = client (handler st).
Proof.
  intros Hx Hother. unfold heartbeat_step.
  destruct x as [is_disconnected now | e | | f]; [| | |by destruct (Hx f)];
    destruct (at_ st); try destruct is_disconnected;
    unfold loop_head, connections_get; simpl;
    try destruct (default false (connections (handler st) !! connection_id)); simpl;
    rewrite ?lookup_delete_ne, ?lookup_insert_ne by done; done.
Qed.

Lemma undisturbed_app (xs ys : list stimulus) :
  undisturbed (xs ++ ys) = undisturbed xs && undisturbed ys.
Proof. unfold undisturbed. apply forallb_app. Qed.

Lemma stream_records (s : state) (xs : list stimulus) :
  undisturbed xs = true ->
  connections s !! connection_id = None ->
  connections (handler (create_heartbeat_stream R connection_id s xs)) =
    if running (at_ (create_heartbeat_stream R connection_id s xs))
    then <[connection_id := true]> (connections s)
    else connections s.
Proof.
  intros Hxs Hfresh. induction xs as [|x xs IH] using rev_ind; [reflexivity|].
  rewrite undisturbed_app in Hxs. apply andb_prop in Hxs as [Hxs Hx].
  specialize (IH Hxs). rewrite stream_step.
  destruct (create_heartbeat_stream R connection_id s xs) as [l h sent0].
  simpl in IH. unfold heartbeat_step. simpl.
  destruct x as [is_disconnected now | e | | f]; [| | |discriminate];
    destruct l; try destruct is_disconnected; simpl in *;
    unfold loop_head, connections_get; simpl;
    rewrite ?IH, ?lookup_insert_eq; simpl;
    rewrite ?IH, ?delete_insert_id by done; done.
Qed.

(** X14: the record lives exactly as long as the stream runs.  For a stream
    opened under a fresh id and left alone by other tasks: while it is inside
    its [try] block the connection records are the ones it found plus its own,
    marked alive, and the count of active connections is one higher; before it
    starts and once it has ended they are the ones it found, and the count is
    back.  Nothing of a stream outlasts it. *)
Theorem stream_record_lives_with_the_stream (s : state) (xs : list stimulus) :
  undisturbed xs = true ->
  connections s !! connection_id = None ->
  connections (handler (create_heartbeat_stream R connection_id s xs)) =
    (if running (at_ (create_heartbeat_stream R connection_id s xs))
     then <[connection_id := true]> (connections s)
     else connections s) /\
  fst (get_active_connections_count (handler (create_heartbeat_stream R connection_id s xs))) =
    Returned (if running (at_ (create_heartbeat_stream R connection_id s xs))
              then S (size (connections s))
              else size (connections s)).
Proof.
  intros Hxs Hfresh. pose proof (stream_records s xs Hxs Hfresh) as Hrec.
  split; [exact Hrec|].
  unfold get_active_connections_count. simpl. rewrite Hrec.
  destruct (running _); [|reflexivity].
  f_equal. by apply map_size_insert_None.
Qed.

Lemma stream_sent_shape (s : state) (xs : list stimulus) :
  (sent (create_heartbeat_stream R connection_id s xs) = [] /\
   running (at_ (create_heartbeat_stream R connection_id s xs)) = false) \/
  (at_ (create_heartbeat_stream R connection_id s xs) <> Created /\
   exists nows : list pystr,
     sent (create_heartbeat_stream R connection_id s xs) =
       connection_event connection_id :: List.map heartbeat_event nows).
Proof.
  induction xs as [|x xs IH] using rev_ind; [by left|].
  rewrite stream_step.
  destruct (create_heartbeat_stream R connection_id s xs) as [l h sent0].
  simpl in IH. unfold heartbeat_step. simpl.
  destruct IH as [[-> Hl] | [Hl [nows ->]]].
  - destruct x as [is_disconnected now | e | | f], l; simpl in *; try discriminate;
      try (left; by split);
      right; (split; [discriminate|]); by exists [].
  - destruct x as [is_disconnected now | e | | f], l; try destruct is_disconnected;
      simpl in *; try congruence;
      unfold loop_head, connections_get; simpl;
      try destruct (default false (connections h !! connection_id)); simpl;
      right; (split; [discriminate|]);
      first [ by exists nows
            | exists (nows ++ [now]); by rewrite List.map_app ].
Qed.

Lemma clock_readings_app (xs ys : list stimulus) :
  clock_readings (xs ++ ys) = clock_readings xs ++ clock_readings ys.
Proof. unfold clock_readings. by rewrite List.map_app, List.concat_app. Qed.

Lemma stream_sent_step (s : state) (xs : list stimulus) (x : stimulus) :
  sent (create_heartbeat_stream R connection_id s (xs ++ [x])) =
  sent (create_heartbeat_stream R connection_id s xs) ++
    match x with
    | Resume is_disconnected now =>
        match at_ (create_heartbeat_stream R connection_id s xs) with
        | Created => [connection_event connection_id]
        | l =>
            if reaches_loop_test l is_disconnected
               && default false
                    (connections (handler (create_heartbeat_stream R connection_id s xs))
                       !! connection_id)
            then [heartbeat_event now]
            else []
        end
    | _ => []
    end.
Proof.
  rewrite stream_step.
  destruct (create_heartbeat_stream R connection_id s xs) as [l h sent0].
  unfold heartbeat_step. simpl.
  destruct x as [is_disconnected now | e | | f], l; try destruct is_disconnected; simpl;
    unfold loop_head, connections_get; simpl;
    try destruct (default false (connections h !! connection_id)); simpl;
    by rewrite ?List.app_nil_r.
Qed.

Lemma stream_sent_readings (s : state) (xs : list stimulus) :
  (sent (create_heartbeat_stream R connection_id s xs) = [] /\
   running (at_ (create_heartbeat_stream R connection_id s xs)) = false) \/
  (at_ (create_heartbeat_stream R connection_id s xs) <> Created /\
   exists nows : list pystr,
     sent (create_heartbeat_stream R connection_id s xs) =
       connection_event connection_id :: List.map heartbeat_event nows /\
     sublist nows (clock_readings xs)).
Proof.
  induction xs as [|x xs IH] using rev_ind; [by left|].
  rewrite stream_sent_step, clock_readings_app. rewrite stream_step.
  destruct (create_heartbeat_stream R connection_id s xs) as [l h sent0].
  simpl in IH. unfold heartbeat_step. simpl.
  destruct IH as [[-> Hl] | [Hl [nows [-> Hsub]]]].
  - destruct x as [is_disconnected now | e | | f], l; simpl in *; try discriminate;
      try (left; by split);
      right; (split; [discriminate|]); exists []; (split; [reflexivity|apply sublist_nil_l]).
  - destruct x as [is_disconnected now | e | | f], l; try destruct is_disconnected;
      simpl in *; try congruence;
      unfold loop_head, connections_get; simpl;
      try destruct (default false (connections h !! connection_id)); simpl;
      right; (split; [discriminate|]);
      first [ exists nows; split;
              [by rewrite ?List.app_nil_r | by apply sublist_inserts_r]
            | exists (nows ++ [now]); split;
              [by rewrite List.map_app | by apply sublist_app] ].
Qed.

Lemma connected_turns (n : nat) :
  forall (nows : list pystr) (st : stream),
    (List.length nows <= n)%nat ->
    at_ st = AtConnectionYield \/ at_ st = AwaitingDisconnect ->
    connections (handler st) !! connection_id = Some true ->
    sent (List.fold_left (heartbeat_step R connection_id) (List.map (Resume false) nows) st) =
      sent st ++ List.map heartbeat_event (loop_turns nows).
Proof.
  induction n as [|n IH]; intros nows st Hlen Hat Halive.
  - destruct nows; [simpl; by rewrite List.app_nil_r | simpl in Hlen; lia].
  - destruct nows as [|now [|now1 [|now2 rest]]]; [simpl; by rewrite List.app_nil_r | | |].
    all: destruct st as [l h sent0]; simpl in Hat, Halive;
      cbn [List.map List.fold_left loop_turns];
      assert (Hhead : heartbeat_step R connection_id
                        {| at_ := l; handler := h; sent := sent0 |} (Resume false now) =
                      {| at_ := AtHeartbeatYield; handler := h;
                         sent := sent0 ++ [heartbeat_event now] |})
        by (destruct Hat as [-> | ->]; unfold heartbeat_step, loop_head, connections_get;
            simpl; by rewrite Halive);
      rewrite Hhead; try reflexivity.
    cbn [heartbeat_step at_ handler sent].
    rewrite IH; [simpl; by rewrite <- List.app_assoc | simpl in Hlen; lia | by right | exact Halive].
Qed.

(** X15: what a stream sends, and when.  Whatever resumes it and whatever
    other tasks do to the records: nothing before it starts; then the
    connection event with its id, once and first; after it only heartbeat
    events, whose clock texts are, in order, among those the resumes carried.
    Step by step: a resume of the unstarted stream sends the connection event;
    a resume that brings the stream to the test of the loop and finds the
    record alive sends one heartbeat, stamped with the clock as read then; no
    other step sends anything.  So a client that stays connected, with no
    fault and no other task at the records, gets the connection event and
    then exactly one heartbeat for each turn of the loop. *)
Theorem stream_sends_connection_then_heartbeats (s : state) :
  (forall xs : list stimulus,
     (sent (create_heartbeat_stream R connection_id s xs) = [] /\
      running (at_ (create_heartbeat_stream R connection_id s xs)) = false) \/
     (at_ (create_heartbeat_stream R connection_id s xs) <> Created /\
      exists nows : list pystr,
        sent (create_heartbeat_stream R connection_id s xs) =
          connection_event connection_id :: List.map heartbeat_event nows /\
        sublist nows (clock_readings xs))) /\
  (forall (xs : list stimulus) (x : stimulus),
     sent (create_heartbeat_stream R connection_id s (xs ++ [x])) =
     sent (create_heartbeat_stream R connection_id s xs) ++
       match x with
       | Resume is_disconnected now =>
           match at_ (create_heartbeat_stream R connection_id s xs) with
           | Created => [connection_event connection_id]
           | l =>
               if reaches_loop_test l is_disconnected
                  && default false
                       (connections (handler (create_heartbeat_stream R connection_id s xs))
                          !! connection_id)
               then [heartbeat_event now]
               else []
           end
       | _ => []
       end) /\
  (forall (now : pystr) (nows : list pystr),
     sent (create_heartbeat_stream R connection_id s
             (Resume false now :: List.map (Resume false) nows)) =
       connection_event connection_id :: List.map heartbeat_event (loop_turns nows)).
Proof.
  split; [|split].
  - apply stream_sent_readings.
  - apply stream_sent_step.
  - intros now nows. unfold create_heartbeat_stream. cbn [List.fold_left].
    rewrite (connected_turns (List.length nows)); [reflexivity | lia | by left |].
    unfold heartbeat_step, connections_set. simpl. apply lookup_insert_eq.
Qed.

Lemma hex_digit_printable (d : N) : d < 16 -> printable (hex_digit d) = true.
Proof.
  intros Hd. unfold printable, hex_digit.
  destruct (N.ltb_spec d 10); apply andb_true_intro; split; apply N.leb_le; lia.
Qed.

Lemma hex4_printable (n : N) : List.forallb printable (hex4 n) = true.
Proof.
  unfold hex4. simpl.
  rewrite !hex_digit_printable by (apply N.mod_upper_bound; lia). reflexivity.
Qed.

Lemma json_escape_char_printable (c : N) : List.forallb printable (json_escape_char c) = true.
Proof.
  unfold json_escape_char.
  repeat match goal with
         | |- context [if ?b then _ else _] => destruct b eqn:?
         end;
    rewrite ?forallb_app, ?hex4_printable; try reflexivity.
  simpl. rewrite andb_true_r. assumption.
Qed.

Lemma json_string_printable (text : pystr) :
  List.forallb printable (code_points (json_string text)) = true.
Proof.
  unfold json_string. simpl. rewrite forallb_app. simpl. rewrite andb_true_r.
  induction (code_points text) as [|c cps IH]; [reflexivity|].
  simpl. by rewrite forallb_app, json_escape_char_printable, IH.
Qed.

Lemma printable_add (a b : pystr) :
  List.forallb printable (code_points (a +++ b)) =
  List.forallb printable (code_points a) && List.forallb printable (code_points b).
Proof. unfold str_add. simpl. apply forallb_app. Qed.

Lemma event_payload_printable (kind key value : pystr) :
  List.forallb printable
    (code_points (json_dumps (PDict [("type", PStr kind); (key, PStr value)]))) = true.
Proof.
  cbn [json_dumps List.map str_join fst snd].
  by rewrite !printable_add, !json_string_printable.
Qed.

(** X16: every chunk a stream sends is one well-formed server-sent event: the
    text "data: ", a payload of printable ASCII only, and two newlines.
    [json.dumps] escapes every control and non-ASCII character, so no
    connection id and no clock text, whatever it holds, can break the
    framing. *)
Theorem stream_chunks_are_framed (s : state) (xs : list stimulus) (chunk : pystr) :
  In chunk (sent (create_heartbeat_stream R connection_id s xs)) ->
  exists payload : pystr,
    chunk = "data: " +++ payload +++ newlines /\
    List.forallb printable (code_points payload) = true.
Proof.
  intros Hin.
  destruct (stream_sent_shape s xs) as [[Hnil _] | [_ [nows Hsent]]].
  - rewrite Hnil in Hin. destruct Hin.
  - rewrite Hsent in Hin. destruct Hin as [<- | Hin].
    + eexists. split; [reflexivity|]. apply event_payload_printable.
    + apply in_map_iff in Hin as (now & <- & _).
      eexists. split; [reflexivity|]. apply event_payload_printable.
Qed.

End Stream.

(** ** The routes *)

Section RouteProperties.
Variable R : runtime.
Variable route_exc_text : request_error -> pystr.

Lemma find_unknown_keyword_none (items : list (pystr * pyval)) :
  List.find (fun kv => negb (List.existsb (str_eqb (fst kv)) init_parameters)) items = None <->
  (forall k v, In (k, v) items -> In k init_parameters).
Proof.
  split.
  - intros Hnone k v Hin.
    pose proof (List.find_none _ _ Hnone (k, v) Hin) as Hk. cbn [fst] in Hk.
    apply negb_false_iff, existsb_exists in Hk as (p & Hp & Heq).
    apply str_eqb_eq in Heq. by subst.
  - intros Hall. induction items as [|[k v] rest IH]; [reflexivity|].
    cbn [List.find fst].
    assert (Hk : List.existsb (str_eqb k) init_parameters = true).
    { apply existsb_exists. exists k. split; [apply (Hall k v); by left | by apply str_eqb_eq]. }
    rewrite Hk. cbn [negb]. apply IH. intros k' v' Hin. apply (Hall k' v'). by right.
Qed.

Lemma request_built_iff_well_formed_aux (body : pyval) (request : MCPRequest.t) :
  MCPRequest_init body = inr request <->
  exists items : list (pystr * pyval),
    body = PDict items /\
    (forall k v, In (k, v) items -> In k init_parameters) /\
    dict_get "jsonrpc" items = Some (MCPRequest.jsonrpc request) /\
    dict_get "method" items = Some (MCPRequest.method request) /\
    MCPRequest.id request = match dict_get "id" items with Some v => v | None => PNone end /\
    MCPRequest.params request = match dict_get "params" items with Some v => v | None => PNone end.
Proof.
  split.
  - unfold MCPRequest_init.
    destruct body as [| | | | | |items]; try discriminate.
    destruct (List.find _ items) as [[k v]|] eqn:Hfind; [discriminate|].
    pose proof (proj1 (find_unknown_keyword_none items) Hfind) as Hkeys.
    destruct (dict_get "jsonrpc" items) as [j|] eqn:Hj;
      destruct (dict_get "method" items) as [m|] eqn:Hm; try discriminate.
    intros [= <-]. exists items. simpl.
    split; [reflexivity|]. split; [exact Hkeys|]. by repeat split.
  - intros (items & -> & Hall & Hj & Hm & Hid & Hparams).
    unfold MCPRequest_init.
    rewrite (proj2 (find_unknown_keyword_none items) Hall), Hj, Hm.
    destruct request as [j m i p]. simpl in *. by subst.
Qed.

(** X17: when a body makes a request.  [MCPRequest] is built from a body
    exactly when the body is an object, every key of it is one of [jsonrpc],
    [method], [id] and [params], and [jsonrpc] and [method] are among them;
    the fields are then the body's values, with [id] and [params] null when
    absent.  Any further top-level key, or a missing [method], stops the
    request before the dispatcher sees it. *)
Theorem request_built_iff_well_formed (body : pyval) (request : MCPRequest.t) :
  MCPRequest_init body = inr request <->
  exists items : list (pystr * pyval),
    body = PDict items /\
    (forall k v, In (k, v) items -> In k init_parameters) /\
    dict_get "jsonrpc" items = Some (MCPRequest.jsonrpc request) /\
    dict_get "method" items = Some (MCPRequest.method request) /\
    MCPRequest.id request = match dict_get "id" items with Some v => v | None => PNone end /\
    MCPRequest.params request = match dict_get "params" items with Some v => v | None => PNone end.
Proof. apply request_built_iff_well_formed_aux. Qed.

Lemma request_id_of_body (items : list (pystr * pyval)) (request : MCPRequest.t) :
  MCPRequest_init (PDict items) = inr request ->
  MCPRequest.id request = match dict_get "id" items with Some v => v | None => PNone end.
Proof.
  intros Hinit. apply request_built_iff_well_formed_aux in Hinit.
  destruct Hinit as (items' & [= <-] & _ & _ & _ & Hid & _). exact Hid.
Qed.

(** The [except] clause on an object body. *)
Lemma message_except_object (items : list (pystr * pyval)) (e : request_error) (s : state) :
  bridge_message_except R route_exc_text (Some (PDict items)) e s =
    (Replied (error_envelope
                (match dict_get "id" items with Some v => v | None => PStr "unknown" end)
                (-32603) ("Internal error: " +++ error_text R route_exc_text e)),
     with_events s (client s)
       [LogRecord ERROR ("Bridge message error: " +++ error_text R route_exc_text e)]).
Proof. destruct s. reflexivity. Qed.

(** X18: a body the route cannot turn into a request is answered, and the
    dispatcher is not run.  When the body cannot be read at all, the answer is
    the internal-error envelope, code -32603, with the id "unknown"; when it
    is an object that [MCPRequest] refuses, the envelope carries the body's
    own [id], or "unknown" when it has none.  Either way the only trace left
    is one log record. *)
Theorem message_route_answers_malformed (s : state) :
  (forall e : request_error,
     bridge_message_handler R route_exc_text (Unreadable e) s =
       (Replied
          (PDict [("jsonrpc", PStr "2.0");
                  ("id", PStr "unknown");
                  ("error",
                   PDict [("code", PInt (-32603));
                          ("message",
                           PStr ("Internal error: " +++ error_text R route_exc_text e))])]),
        with_events s (client s)
          [LogRecord ERROR ("Bridge message error: " +++ error_text R route_exc_text e)])) /\
  (forall (items : list (pystr * pyval)) (e : request_error),
     MCPRequest_init (PDict items) = inl e ->
     bridge_message_handler R route_exc_text (Parsed (PDict items)) s =
       (Replied
          (PDict [("jsonrpc", PStr "2.0");
                  ("id", match dict_get "id" items with Some v => v | None => PStr "unknown" end);
                  ("error",
                   PDict [("code", PInt (-32603));
                          ("message",
                           PStr ("Internal error: " +++ error_text R route_exc_text e))])]),
        with_events s (client s)
          [LogRecord ERROR ("Bridge message error: " +++ error_text R route_exc_text e)])).
Proof.
  split.
  - intros e. destruct s. reflexivity.
  - intros items e Hinit. unfold bridge_message_handler. rewrite Hinit.
    apply message_except_object.
Qed.

(** X19: a body that is valid JSON but no object escapes the route.  The
    construction of the request fails on it, and the [except] clause, reading
    the body's id with [body.get], fails in turn: after one log record the
    route raises [AttributeError] instead of answering. *)
Theorem message_route_raises_on_non_object (body : pyval) (s : state) :
  (forall items, body <> PDict items) ->
  bridge_message_handler R route_exc_text (Parsed body) s =
    (Failed (Python (AttributeError (type_name body) "get")),
     with_events s (client s)
       [LogRecord ERROR ("Bridge message error: "
                         +++ route_exc_text (TypeError_init_not_a_mapping (type_name body)))]).
Proof.
  intros Hnot. destruct s.
  destruct body as [| | | | | |items]; try reflexivity.
  by destruct (Hnot items).
Qed.

(** X20: the route echoes the id of every object it is sent.  A body that is
    an object with an [id] other than null is always answered, never with an
    exception, by an object that has the same [id] and exactly one of
    [result] and [error]: whether the request reached the dispatcher or was
    refused before. *)
Theorem message_route_echoes_id (items : list (pystr * pyval)) (id : pyval) (s : state) :
  dict_get "id" items = Some id ->
  id <> PNone ->
  exists (fields : list (pystr * pyval)) (s' : state),
    bridge_message_handler R route_exc_text (Parsed (PDict items)) s = (Replied (PDict fields), s') /\
    dict_get "id" fields = Some id /\
    xorb (dict_has "result" fields) (dict_has "error" fields) = true.
Proof.
  intros Hget Hid. unfold bridge_message_handler.
  destruct (MCPRequest_init (PDict items)) as [e|request] eqn:Hinit.
  - rewrite message_except_object, Hget. eexists _, _. repeat split; reflexivity.
  - pose proof (request_id_of_body _ _ Hinit) as Hrid. rewrite Hget in Hrid.
    assert (Hid' : MCPRequest.id request <> PNone) by congruence.
    pose proof (dispatch_yields_envelope R request Hid' s) as Hshape.
    unfold process_bridge_request, try_except.
    destruct (dispatch R request s) as [[response|e] s1].
    + destruct (envelope_fields _ _ Hshape) as (fields & -> & Hf & Hxor).
      exists fields, s1. rewrite <- Hrid. by repeat split.
    + eexists _, _. rewrite <- Hrid. repeat split; reflexivity.
Qed.

End RouteProperties.

(** ** The health route and the choice of the transport *)

Section Health.
Variable R : runtime.
Variable probe_query : list event -> option exn.
Variable CLICKHOUSE_SECURE : bool.

Lemma test_connection_run (s : state) :
  exists evs : list event,
    test_connection R probe_query s =
      (Returned (database_answers R probe_query (client s) (trace s)),
       with_events s (client s || match driver_connect R (trace s) with
                                  | None => true
                                  | Some _ => false
                                  end) evs) /\
    List.Forall (fun sql => sql = "SELECT 1") (queries evs) /\
    (database_answers R probe_query (client s) (trace s) = true -> queries evs = ["SELECT 1"]).
Proof.
  destruct s as [c m tr].
  unfold test_connection, database_answers, try_except, bind, get_client, bind, get_client_field,
    try_except, bind, get_trace, emit, log, emit, set_client_field, raise, ret, with_events,
    connected_events.
  simpl. destruct c; simpl.
  - destruct (probe_query tr) as [e|]; simpl;
      eexists; (split; [rewrite <- ?app_assoc; reflexivity|]);
      unfold queries; simpl; split; auto; discriminate.
  - destruct (driver_connect R tr) as [e|]; simpl.
    + eexists; (split; [rewrite <- ?app_assoc; reflexivity|]).
      unfold queries; simpl; split; auto; discriminate.
    + rewrite <- !app_assoc. simpl.
      destruct (probe_query _) as [e|]; simpl;
        eexists; (split; [rewrite <- ?app_assoc; simpl; reflexivity|]);
        unfold queries; simpl; split; auto; discriminate.
Qed.

(** X21: the health route reports what the probe found and disturbs nothing.
    It never raises.  Its status is "healthy", and [database_connection]
    true, exactly when the server's own tool handler has or gets a client and
    the probe query returns; otherwise "unhealthy" and false.  It counts the
    records of the bridge handler without changing them, leaves the bridge
    handler's own client alone, and the only query it ever sends is
    "SELECT 1". *)
Theorem health_reports_the_probe (now : pystr) (sv : server) :
  exists (sv' : server) (evs : list event),
    health_check R probe_query CLICKHOUSE_SECURE now sv =
      (Returned
         (PDict [("status",
                  PStr (if database_answers R probe_query (tool_handler_client sv)
                             (trace (bridge_handler sv))
                        then "healthy" else "unhealthy"));
                 ("timestamp", PStr now);
                 ("database_connection",
                  PBool (database_answers R probe_query (tool_handler_client sv)
                           (trace (bridge_handler sv))));
                 ("activeBridgeConnections",
                  PInt (Z.of_nat (size (connections (bridge_handler sv)))));
                 ("tools", PList (List.map (fun t => PStr (name t)) registered_tools));
                 ("database",
                  PDict [("host", PStr (clickhouse_host R)); ("port", PInt (clickhouse_port R));
                         ("secure", PBool CLICKHOUSE_SECURE)])]),
       sv') /\
    bridge_handler sv' =
      with_events (bridge_handler sv) (client (bridge_handler sv)) evs /\
    (tool_handler_client sv = true -> tool_handler_client sv' = true) /\
    List.Forall (fun sql => sql = "SELECT 1") (queries evs) /\
    (database_answers R probe_query (tool_handler_client sv) (trace (bridge_handler sv)) = true ->
     tool_handler_client sv' = true /\ queries evs = ["SELECT 1"]).
Proof.
  unfold health_check, on_tool_handler.
  destruct (test_connection_run
              {| client := tool_handler_client sv; connections := connections (bridge_handler sv);
                 trace := trace (bridge_handler sv) |}) as (evs & Hrun & Hall & Hone).
  simpl in Hrun, Hone. rewrite Hrun. simpl.
  eexists _, evs. split; [reflexivity|]. simpl.
  split; [reflexivity|]. split; [by intros ->|]. split; [exact Hall|].
  intros Hok. split; [|by apply Hone].
  unfold database_answers in Hok.
  destruct (tool_handler_client sv); [reflexivity|].
  by destruct (driver_connect R (trace (bridge_handler sv))).
Qed.

Lemma cps_startswith_app (sub rest : list N) : cps_startswith (sub ++ rest) sub = true.
Proof.
  induction sub as [|c sub IH]; [by destruct rest|].
  simpl. by rewrite N.eqb_refl, IH.
Qed.

Lemma cps_startswith_split (s sub : list N) :
  cps_startswith s sub = true -> exists rest, s = sub ++ rest.
Proof.
  revert s. induction sub as [|c sub IH]; intros s; [by exists s|].
  destruct s as [|d s]; simpl; [discriminate|].
  intros H. apply andb_prop in H as [Hc Hrest]. apply N.eqb_eq in Hc. subst d.
  destruct (IH s Hrest) as [rest ->]. by exists rest.
Qed.

Lemma cps_contains_iff (s sub : list N) :
  cps_contains s sub = true <-> exists before after, s = before ++ sub ++ after.
Proof.
  split.
  - induction s as [|c s IH]; cbn [cps_contains].
    + rewrite orb_false_r. intros H.
      destruct (cps_startswith_split _ _ H) as [rest Hrest]. by exists [], rest.
    + intros H. apply orb_prop in H as [H|H].
      * destruct (cps_startswith_split _ _ H) as [rest Hrest]. by exists [], rest.
      * destruct (IH H) as (before & after & ->). by exists (c :: before), after.
  - intros (before & after & ->).
    induction before as [|c before IH].
    + cbn [app]. destruct (sub ++ after) eqn:E; cbn [cps_contains];
        rewrite <- E, cps_startswith_app; reflexivity.
    + cbn [app cps_contains]. by rewrite IH, orb_true_r.
Qed.

Lemma lower_ascii (text : pystr) :
  List.forallb is_ascii (code_points text) = true ->
  lower R text = Str (List.map ascii_lower (code_points text)).
Proof. intros H. unfold lower. by rewrite H. Qed.

Lemma map_eq_app_inv {A B} (f : A -> B) (l : list A) (l1 l2 : list B) :
  List.map f l = l1 ++ l2 -> exists k1 k2, l = k1 ++ k2 /\ List.map f k1 = l1 /\ List.map f k2 = l2.
Proof.
  revert l. induction l1 as [|b l1 IH]; intros l H; [by exists [], l|].
  destruct l as [|a l]; [discriminate|]. simpl in H. injection H as Hb Hrest.
  destruct (IH l Hrest) as (k1 & k2 & -> & H1 & H2).
  exists (a :: k1), k2. simpl. by rewrite Hb, H1.
Qed.

(** X22: how GET /sse chooses.  With no Accept header the route serves the
    bridge heartbeat.  With an Accept header of ASCII text it serves the full
    protocol exactly when the header holds, anywhere and in any mix of upper
    and lower case, the token "text/event-stream". *)
Theorem sse_route_choice :
  sse_endpoint R None = BridgeHeartbeat /\
  (forall accept : pystr,
     List.forallb is_ascii (code_points accept) = true ->
     (sse_endpoint R (Some accept) = FullProtocol <->
      exists before token after : pystr,
        accept = before +++ token +++ after /\
        List.map ascii_lower (code_points token) = code_points "text/event-stream")).
Proof.
  split; [reflexivity|].
  intros accept Hascii. unfold sse_endpoint. rewrite (lower_ascii _ Hascii).
  unfold str_contains.
  change (code_points (Str (List.map ascii_lower (code_points accept))))
    with (List.map ascii_lower (code_points accept)).
  destruct (cps_contains _ _) eqn:Hc.
  - split; [intros _|reflexivity].
    apply cps_contains_iff in Hc as (before & after & Hsplit).
    apply map_eq_app_inv in Hsplit as (k1 & k23 & Haccept & H1 & H23).
    apply map_eq_app_inv in H23 as (k2 & k3 & -> & H2 & H3).
    exists (Str k1), (Str k2), (Str k3). split; [|exact H2].
    destruct accept as [cps]. simpl in Haccept. by subst.
  - split; [discriminate|]. intros (before & token & after & -> & Htoken).
    exfalso. assert (Hc' : cps_contains
                             (List.map ascii_lower (code_points (before +++ token +++ after)))
                             (code_points "text/event-stream") = true).
    { apply cps_contains_iff.
      exists (List.map ascii_lower (code_points before)),
             (List.map ascii_lower (code_points after)).
      unfold str_add. cbn [code_points]. by rewrite !List.map_app, Htoken. }
    congruence.
Qed.

End Health.

(** ** The read-only guard *)

Section Guard.
Variable R : runtime.

Lemma lstrip_split (s : list N) :
  exists space, s = space ++ lstrip_cps s /\ List.forallb is_space space = true.
Proof.
  induction s as [|c s IH]; [by exists []|].
  simpl. destruct (is_space c) eqn:Hc; [|by exists []].
  destruct IH as (space & Hs & Hspace). exists (c :: space). simpl.
  rewrite Hc, Hspace. by rewrite <- Hs.
Qed.

Lemma lstrip_app (x y : list N) :
  lstrip_cps (x ++ y) =
    if List.forallb is_space x then lstrip_cps y else lstrip_cps x ++ y.
Proof.
  induction x as [|c x IH]; [reflexivity|].
  simpl. by destruct (is_space c).
Qed.

Lemma forallb_rev {A} (f : A -> bool) (l : list A) :
  List.forallb f (rev l) = List.forallb f l.
Proof.
  induction l as [|a l IH]; [reflexivity|].
  simpl. rewrite List.forallb_app, IH. simpl. rewrite andb_true_r. apply andb_comm.
Qed.

Lemma rstrip_split (s : list N) :
  exists space, s = rstrip_cps s ++ space /\ List.forallb is_space space = true.
Proof.
  unfold rstrip_cps. destruct (lstrip_split (rev s)) as (space & Hs & Hspace).
  exists (rev space). split; [|by rewrite forallb_rev].
  rewrite <- List.rev_app_distr, <- Hs. by rewrite List.rev_involutive.
Qed.

Lemma lstrip_all_space (s : list N) :
  List.forallb is_space s = true -> lstrip_cps s = [].
Proof.
  induction s as [|c s IH]; [reflexivity|].
  simpl. intros H. apply andb_prop in H as [Hc Hs]. rewrite Hc. by apply IH.
Qed.

Lemma rstrip_keeps (a b : list N) (c : N) :
  is_space c = false -> rstrip_cps ((a ++ [c]) ++ b) = (a ++ [c]) ++ rstrip_cps b.
Proof.
  intros Hc. unfold rstrip_cps.
  rewrite List.rev_app_distr, lstrip_app.
  destruct (List.forallb is_space (rev b)) eqn:Hb.
  - rewrite (lstrip_all_space _ Hb), List.rev_app_distr. simpl. rewrite Hc. simpl.
    by rewrite List.rev_involutive, List.app_nil_r.
  - rewrite List.rev_app_distr, List.rev_involutive. reflexivity.
Qed.

Lemma forallb_map_compose {A B} (f : B -> bool) (g : A -> B) (l : list A) :
  List.forallb f (List.map g l) = List.forallb (fun a => f (g a)) l.
Proof. induction l as [|a l IH]; [reflexivity|]. simpl. by rewrite IH. Qed.

Lemma letter_is_no_space (c : N) :
  (97 <=? ascii_lower c) && (ascii_lower c <=? 122) = true -> is_space c = false.
Proof.
  unfold ascii_lower, is_space. intros H.
  apply andb_prop in H as [Hlo Hhi].
  destruct ((65 <=? c) && (c <=? 90)) eqn:Hup.
  - apply andb_prop in Hup as [H1 H2].
    apply N.leb_le in H1, H2.
    repeat (apply orb_false_intro);
      try (apply andb_false_iff; (left; apply N.leb_gt; lia) || (right; apply N.leb_gt; lia));
      try (apply N.eqb_neq; lia).
  - apply N.leb_le in Hlo, Hhi.
    repeat (apply orb_false_intro);
      try (apply andb_false_iff; (left; apply N.leb_gt; lia) || (right; apply N.leb_gt; lia));
      try (apply N.eqb_neq; lia).
Qed.

Lemma keyword_ends (word : list N) (keyword : pystr) :
  In keyword ["select"; "show"; "describe"] ->
  List.map ascii_lower word = code_points keyword ->
  exists first rest body last,
    word = first :: rest /\ is_space first = false /\
    word = body ++ [last] /\ is_space last = false.
Proof.
  intros Hin Hmap.
  assert (Hletters : List.forallb (fun c => (97 <=? ascii_lower c) && (ascii_lower c <=? 122)) word
                     = true).
  { rewrite <- (forallb_map_compose (fun c => (97 <=? c) && (c <=? 122)) ascii_lower), Hmap.
    simpl in Hin. destruct Hin as [<-|[<-|[<-|[]]]]; reflexivity. }
  assert (Hsome : word <> []).
  { intros ->. simpl in Hin, Hmap. destruct Hin as [<-|[<-|[<-|[]]]]; discriminate. }
  destruct word as [|first rest]; [done|].
  destruct (List.exists_last Hsome) as (body & last & Hlast).
  exists first, rest, body, last. split; [reflexivity|].
  split; [apply letter_is_no_space; simpl in Hletters; by apply andb_prop in Hletters as [? _]|].
  split; [exact Hlast|].
  apply letter_is_no_space. rewrite Hlast, List.forallb_app in Hletters.
  apply andb_prop in Hletters as [_ Hl]. simpl in Hl. by apply andb_prop in Hl as [? _].
Qed.

Lemma guard_tests_keywords (sql : pystr) :
  guard_passes R sql = true <->
  exists keyword, In keyword ["select"; "show"; "describe"] /\
                  startswith (lower R (strip sql)) keyword = true.
Proof.
  unfold guard_passes. cbv zeta. split.
  - intros H. apply orb_prop in H as [H|H]; [apply orb_prop in H as [H|H]|].
    + exists "select". split; [by left|exact H].
    + exists "show". split; [right; by left|exact H].
    + exists "describe". split; [right; right; by left|exact H].
  - intros (keyword & Hin & H). simpl in Hin.
    destruct Hin as [<-|[<-|[<-|[]]]]; rewrite H; by rewrite ?orb_true_r.
Qed.

(** X23: the read-only guard is a test of the first word, and of nothing
    else.  A query of ASCII text passes exactly when, after any leading white
    space, it begins with [select], [show] or [describe] in any mix of upper
    and lower case; whatever follows the word, further statements included,
    plays no part. *)
Theorem guard_reads_only_the_first_word (sql : pystr) :
  List.forallb is_ascii (code_points sql) = true ->
  (guard_passes R sql = true <->
   exists space word rest : pystr,
     sql = space +++ word +++ rest /\
     List.forallb is_space (code_points space) = true /\
     In (Str (List.map ascii_lower (code_points word))) ["select"; "show"; "describe"]).
Proof.
  intros Hascii. rewrite guard_tests_keywords. destruct sql as [cps]. simpl in Hascii.
  destruct (lstrip_split cps) as (space & Hcps & Hspace).
  destruct (rstrip_split (lstrip_cps cps)) as (trail & Hl & Htrail).
  assert (Hstripped : List.forallb is_ascii (rstrip_cps (lstrip_cps cps)) = true).
  { rewrite Hcps, List.forallb_app in Hascii. apply andb_prop in Hascii as [_ Hascii].
    rewrite Hl, List.forallb_app in Hascii. by apply andb_prop in Hascii as [? _]. }
  split.
  - intros (keyword & Hin & Hstarts).
    unfold startswith, strip in Hstarts. cbn [code_points] in Hstarts.
    rewrite (lower_ascii R (Str _) Hstripped) in Hstarts. cbn [code_points] in Hstarts.
    apply cps_startswith_split in Hstarts as [tail Htail].
    apply map_eq_app_inv in Htail as (word & rest & Hsplit & Hword & _).
    exists (Str space), (Str word), (Str (rest ++ trail)).
    split; [|split; [exact Hspace|]].
    + unfold str_add. cbn [code_points]. f_equal.
      rewrite Hcps at 1. f_equal. rewrite Hl at 1. rewrite Hsplit.
      by rewrite <- List.app_assoc.
    + cbn [code_points]. rewrite Hword. by destruct keyword.
  - intros (space' & word & rest & Hsql & Hspace' & Hin).
    destruct space' as [sp], word as [w], rest as [r]. unfold str_add in Hsql.
    cbn [code_points] in Hsql, Hspace', Hin. injection Hsql as ->.
    exists (Str (List.map ascii_lower w)). split; [exact Hin|].
    destruct (keyword_ends w (Str (List.map ascii_lower w)) Hin eq_refl)
      as (first & rest & body & last & Hfirst & Hnf & Hlast & Hnl).
    assert (Hstrip : strip (Str (sp ++ w ++ r)) = Str (w ++ rstrip_cps r)).
    { unfold strip. cbn [code_points]. f_equal.
      rewrite lstrip_app, Hspace'.
      assert (Hkept : lstrip_cps (w ++ r) = w ++ r).
      { rewrite Hfirst. simpl. by rewrite Hnf. }
      rewrite Hkept, Hlast. by apply rstrip_keeps. }
    rewrite Hstrip.
    assert (Hasc : List.forallb is_ascii (w ++ rstrip_cps r) = true).
    { rewrite !List.forallb_app in Hascii. apply andb_prop in Hascii as [_ Hascii].
      apply andb_prop in Hascii as [Hw Hr]. rewrite List.forallb_app, Hw. simpl.
      destruct (rstrip_split r) as (t & Hr' & _). rewrite Hr', List.forallb_app in Hr.
      by apply andb_prop in Hr as [? _]. }
    rewrite (lower_ascii R (Str _) Hasc). unfold startswith. cbn [code_points].
    rewrite List.map_app. apply cps_startswith_app.
Qed.

End Guard.

(** ** The further properties at concrete inputs *)

Ltac each_required :=
  let p := fresh "p" in
  let Hin := fresh "Hin" in
  intros p Hin; simpl in Hin;
  repeat (destruct Hin as [<-|Hin]; [reflexivity|]); destruct Hin.

(** A request of a method the dispatcher does not know. *)
Lemma only_tools_call_touches_handler_witness :
  exists response : pyval,
    process_bridge_request example_runtime (request "resources/list" (PInt 3) PNone) fresh_state =
      (Returned response, fresh_state).
Proof.
  apply (only_tools_call_touches_handler example_runtime
           (request "resources/list" (PInt 3) PNone) fresh_state).
  simpl. discriminate.
Defined.

(** [describe_table] called with all it requires. *)
Lemma tools_call_runs_tool_witness :
  exists (text : pystr) (s' : state),
    call_tool example_runtime (PStr "describe_table")
      [("database", PStr "db1"); ("table", PStr "t1")] fresh_state = (Returned text, s') /\
    process_bridge_request example_runtime
      (request "tools/call" (PInt 5)
         (PDict [("name", PStr "describe_table");
                 ("arguments", PDict [("database", PStr "db1"); ("table", PStr "t1")])]))
      fresh_state =
      (Returned
         (result_envelope (PInt 5)
            (PDict [("content", PList [PDict [("type", PStr "text"); ("text", PStr text)]])])),
       s').
Proof.
  apply (tools_call_runs_tool example_runtime
           (request "tools/call" (PInt 5)
              (PDict [("name", PStr "describe_table");
                      ("arguments", PDict [("database", PStr "db1"); ("table", PStr "t1")])]))
           fresh_state
           [("name", PStr "describe_table");
            ("arguments", PDict [("database", PStr "db1"); ("table", PStr "t1")])]
           [("database", PStr "db1"); ("table", PStr "t1")] DescribeTable).
  - simpl. discriminate.
  - reflexivity.
  - reflexivity.
  - reflexivity.
  - reflexivity.
  - each_required.
  - reflexivity.
  - reflexivity.
Defined.

(** [list_tables] called with an argument [name]. *)
Lemma reserved_argument_name_faults_witness :
  exists k : pystr,
    (k = "self" \/ k = "name") /\
    dict_has k [("database", PStr "db1"); ("name", PStr "t1")] = true /\
    process_bridge_request example_runtime
      (request "tools/call" (PInt 9)
         (PDict [("name", PStr "list_tables");
                 ("arguments", PDict [("database", PStr "db1"); ("name", PStr "t1")])]))
      fresh_state =
      (Returned
         (error_envelope (PInt 9) (-32603)
            ("Internal error: " +++ example_exc_text (TypeError_multiple_values k))),
       fault_logged example_runtime (TypeError_multiple_values k) fresh_state).
Proof.
  apply (reserved_argument_name_faults example_runtime
           (request "tools/call" (PInt 9)
              (PDict [("name", PStr "list_tables");
                      ("arguments", PDict [("database", PStr "db1"); ("name", PStr "t1")])]))
           fresh_state
           [("name", PStr "list_tables");
            ("arguments", PDict [("database", PStr "db1"); ("name", PStr "t1")])]
           [("database", PStr "db1"); ("name", PStr "t1")] ListTables).
  - simpl. discriminate.
  - reflexivity.
  - reflexivity.
  - reflexivity.
  - reflexivity.
  - each_required.
  - right. reflexivity.
Defined.

(** [list_databases] called with an array for its arguments. *)
Lemma non_object_arguments_fault_witness :
  process_bridge_request example_runtime
    (request "tools/call" (PInt 2)
       (PDict [("name", PStr "list_databases"); ("arguments", PList [PInt 1])]))
    fresh_state =
  (Returned
     (error_envelope (PInt 2) (-32603)
        ("Internal error: " +++ example_exc_text (TypeError_not_a_mapping "list"))),
   fault_logged example_runtime (TypeError_not_a_mapping "list") fresh_state).
Proof.
  apply (non_object_arguments_fault example_runtime
           (request "tools/call" (PInt 2)
              (PDict [("name", PStr "list_databases"); ("arguments", PList [PInt 1])]))
           fresh_state
           [("name", PStr "list_databases"); ("arguments", PList [PInt 1])] ListDatabases).
  - simpl. discriminate.
  - reflexivity.
  - reflexivity.
  - reflexivity.
  - intros kwargs. vm_compute. discriminate.
  - each_required.
Defined.

(** Two argument objects for [describe_table] that both hold [database] and
    lack [table]. *)
Lemma validation_reads_only_required_names_witness :
  validate_tool_params example_runtime (PStr "describe_table")
    (PDict [("database", PStr "db1")]) fresh_state =
  validate_tool_params example_runtime (PStr "describe_table")
    (PDict [("limit", PInt 5); ("database", PNone)]) fresh_state.
Proof.
  apply (validation_reads_only_required_names example_runtime DescribeTable
           [("database", PStr "db1")] [("limit", PInt 5); ("database", PNone)] fresh_state).
  each_required.
Defined.

(** [list_tables] called with and without a key [verbose]. *)
Lemma undeclared_arguments_ignored_witness :
  process_bridge_request example_runtime
    (request "tools/call" (PInt 6)
       (PDict [("name", PStr "list_tables");
               ("arguments", PDict [("database", PStr "db1"); ("verbose", PBool true)])]))
    fresh_state =
  process_bridge_request example_runtime
    (request "tools/call" (PInt 6)
       (PDict [("name", PStr "list_tables"); ("arguments", PDict [("database", PStr "db1")])]))
    fresh_state.
Proof.
  apply (undeclared_arguments_ignored example_runtime
           (request "tools/call" (PInt 6)
              (PDict [("name", PStr "list_tables");
                      ("arguments", PDict [("database", PStr "db1")])]))
           (request "tools/call" (PInt 6)
              (PDict [("name", PStr "list_tables");
                      ("arguments", PDict [("database", PStr "db1"); ("verbose", PBool true)])]))
           fresh_state
           [("name", PStr "list_tables"); ("arguments", PDict [("database", PStr "db1")])]
           [("name", PStr "list_tables");
            ("arguments", PDict [("database", PStr "db1"); ("verbose", PBool true)])]
           [("database", PStr "db1")] [("verbose", PBool true)] ListTables).
  - simpl. discriminate.
  - reflexivity.
  - reflexivity.
  - reflexivity.
  - reflexivity.
  - reflexivity.
  - reflexivity.
  - reflexivity.
  - reflexivity.
  - reflexivity.
  - reflexivity.
  - reflexivity.
  - each_required.
Defined.

(** A [SELECT] sent while the database cannot be reached. *)
Lemma unreachable_database_is_a_payload_witness :
  process_bridge_request unreachable_runtime
    (request "tools/call" (PInt 8)
       (PDict [("name", PStr "run_select_query");
               ("arguments", PDict [("sql", PStr "SELECT 1")])]))
    fresh_state =
  (Returned
     (result_envelope (PInt 8)
        (PDict [("content",
                 PList [PDict [("type", PStr "text");
                               ("text",
                                PStr (failure_text unreachable_runtime RunSelectQuery
                                        [("sql", PStr "SELECT 1")]
                                        (ExternalError "Connection refused")))]])])),
   with_events fresh_state false
     (refused_events unreachable_runtime (ExternalError "Connection refused")
      ++ [LogRecord ERROR (failure_prefix RunSelectQuery +++ "Connection refused")])).
Proof.
  apply (unreachable_database_is_a_payload unreachable_runtime
           (request "tools/call" (PInt 8)
              (PDict [("name", PStr "run_select_query");
                      ("arguments", PDict [("sql", PStr "SELECT 1")])]))
           fresh_state
           [("name", PStr "run_select_query"); ("arguments", PDict [("sql", PStr "SELECT 1")])]
           [("sql", PStr "SELECT 1")] RunSelectQuery (ExternalError "Connection refused")).
  - simpl. discriminate.
  - reflexivity.
  - reflexivity.
  - reflexivity.
  - reflexivity.
  - each_required.
  - reflexivity.
  - reflexivity.
  - intros _. exists "SELECT 1". split; reflexivity.
  - reflexivity.
  - reflexivity.
Defined.

(** The name [list_tables] in the three tables. *)
Lemma tool_tables_agree_witness :
  (exists t : tool,
     PStr "list_tables" = PStr (name t) /\
     key_in_dict (PStr "list_tables") get_available_tools fresh_state =
       (Returned true, fresh_state) /\
     _get_tool_instance (PStr "list_tables") fresh_state = (Returned (Some t), fresh_state) /\
     forall kwargs,
       call_tool example_runtime (PStr "list_tables") kwargs = execute example_runtime t kwargs) \/
  ((forall t : tool, PStr "list_tables" <> PStr (name t)) /\
   key_in_dict (PStr "list_tables") get_available_tools fresh_state =
     (Returned false, fresh_state) /\
   _get_tool_instance (PStr "list_tables") fresh_state = (Returned None, fresh_state) /\
   forall kwargs s',
     call_tool example_runtime (PStr "list_tables") kwargs s' =
       (Returned ("{" +++ dq +++ "error" +++ dq +++ ": "
                  +++ json_string ("Unknown tool: " +++ fstr example_runtime (PStr "list_tables"))
                  +++ "}"), s')).
Proof.
  apply (tool_tables_agree example_runtime (PStr "list_tables") fresh_state).
  reflexivity.
Defined.

(** The schema entry of a name that is a number. *)
Lemma get_tool_schema_entry_witness :
  get_tool_schema (PInt 5) (PDict [("description", PStr "five")]) fresh_state =
    (Returned (PDict [("name", PInt 5); ("description", PStr "five");
                      ("inputSchema", _default_schema)]), fresh_state).
Proof.
  apply (get_tool_schema_entry (PInt 5) [("description", PStr "five")] fresh_state).
  reflexivity.
Defined.

(** The stream of [c-1] is closed while [c-2] is connected. *)
Lemma heartbeat_touches_only_its_record_witness :
  connections
    (handler (heartbeat_step example_runtime "c-1"
                (create_heartbeat_stream example_runtime "c-1"
                   (snd (connections_set "c-2" fresh_state)) [Resume false "t0"])
                Close))
    !! ("c-2" : pystr) =
  connections
    (handler (create_heartbeat_stream example_runtime "c-1"
                (snd (connections_set "c-2" fresh_state)) [Resume false "t0"]))
    !! ("c-2" : pystr) /\
  client
    (handler (heartbeat_step example_runtime "c-1"
                (create_heartbeat_stream example_runtime "c-1"
                   (snd (connections_set "c-2" fresh_state)) [Resume false "t0"])
                Close)) =
  client
    (handler (create_heartbeat_stream example_runtime "c-1"
                (snd (connections_set "c-2" fresh_state)) [Resume false "t0"])).
Proof.
  apply (heartbeat_touches_only_its_record example_runtime "c-1"
           (create_heartbeat_stream example_runtime "c-1"
              (snd (connections_set "c-2" fresh_state)) [Resume false "t0"])
           Close "c-2").
  - intros f. discriminate.
  - discriminate.
Defined.

(** A stream that has sent its first heartbeat. *)
Lemma stream_record_lives_with_the_stream_witness :
  connections
    (handler (create_heartbeat_stream example_runtime "c-1" fresh_state
                [Resume false "t0"; Resume false "t1"])) =
    (if running (at_ (create_heartbeat_stream example_runtime "c-1" fresh_state
                        [Resume false "t0"; Resume false "t1"]))
     then <[("c-1" : pystr) := true]> (connections fresh_state)
     else connections fresh_state) /\
  fst (get_active_connections_count
         (handler (create_heartbeat_stream example_runtime "c-1" fresh_state
                     [Resume false "t0"; Resume false "t1"]))) =
    Returned (if running (at_ (create_heartbeat_stream example_runtime "c-1" fresh_state
                                 [Resume false "t0"; Resume false "t1"]))
              then S (size (connections fresh_state))
              else size (connections fresh_state)).
Proof.
  apply (stream_record_lives_with_the_stream example_runtime "c-1" fresh_state
           [Resume false "t0"; Resume false "t1"]).
  - reflexivity.
  - vm_compute. reflexivity.
Defined.

(** The connection event of a stream whose id holds a quote and a newline. *)
Lemma stream_chunks_are_framed_witness :
  exists payload : pystr,
    connection_event (Str [99; 34; 10]) = "data: " +++ payload +++ newlines /\
    List.forallb printable (code_points payload) = true.
Proof.
  apply (stream_chunks_are_framed example_runtime (Str [99; 34; 10]) fresh_state
           [Resume false "t0"] (connection_event (Str [99; 34; 10]))).
  vm_compute. left. reflexivity.
Defined.

(** A client that stays connected through two turns of the loop and into the
    third: three heartbeats, stamped as the clock read at each turn. *)
Lemma stream_sends_connection_then_heartbeats_witness :
  sent (create_heartbeat_stream example_runtime "c-1" fresh_state
          (Resume false "t0"
           :: List.map (Resume false) ["t1"; "t2"; "t3"; "t4"; "t5"; "t6"; "t7"; "t8"])) =
    [connection_event "c-1"; heartbeat_event "t1"; heartbeat_event "t4"; heartbeat_event "t7"].
Proof.
  apply (proj2 (proj2 (stream_sends_connection_then_heartbeats example_runtime "c-1"
                         fresh_state))
           "t0" ["t1"; "t2"; "t3"; "t4"; "t5"; "t6"; "t7"; "t8"]).
Defined.

(** A body that holds all a request needs. *)
Lemma request_built_iff_well_formed_witness :
  MCPRequest_init (PDict [("jsonrpc", PStr "2.0"); ("method", PStr "ping")]) =
    inr (request "ping" PNone PNone).
Proof.
  apply (proj2 (request_built_iff_well_formed
                  (PDict [("jsonrpc", PStr "2.0"); ("method", PStr "ping")])
                  (request "ping" PNone PNone))).
  exists [("jsonrpc", PStr "2.0"); ("method", PStr "ping")].
  split; [reflexivity|]. split; [|repeat split].
  intros k v Hin. simpl in Hin.
  destruct Hin as [Hin|[Hin|[]]]; inversion Hin; simpl; auto.
Defined.

(** A body with a key that [MCPRequest] does not know. *)
Lemma message_route_answers_malformed_witness :
  bridge_message_handler example_runtime example_route_exc_text
    (Parsed (PDict [("jsonrpc", PStr "2.0"); ("id", PInt 4); ("method", PStr "ping");
                    ("meta", PDict [])]))
    fresh_state =
  (Replied
     (error_envelope (PInt 4) (-32603)
        "Internal error: MCPRequest.__init__() got an unexpected keyword argument 'meta'"),
   with_events fresh_state false
     [LogRecord ERROR
        "Bridge message error: MCPRequest.__init__() got an unexpected keyword argument 'meta'"]).
Proof.
  apply (proj2 (message_route_answers_malformed example_runtime example_route_exc_text
                  fresh_state)
           [("jsonrpc", PStr "2.0"); ("id", PInt 4); ("method", PStr "ping"); ("meta", PDict [])]
           (TypeError_unexpected_keyword "meta")).
  reflexivity.
Defined.

(** A body that is an array. *)
Lemma message_route_raises_on_non_object_witness :
  bridge_message_handler example_runtime example_route_exc_text (Parsed (PList [PInt 1]))
    fresh_state =
  (Failed (Python (AttributeError "list" "get")),
   with_events fresh_state false
     [LogRecord ERROR
        "Bridge message error: __main__.MCPRequest() argument after ** must be a mapping, not list"]).
Proof.
  apply (message_route_raises_on_non_object example_runtime example_route_exc_text
           (PList [PInt 1]) fresh_state).
  intros items. discriminate.
Defined.

(** A body without [method], with an id. *)
Lemma message_route_echoes_id_witness :
  exists (fields : list (pystr * pyval)) (s' : state),
    bridge_message_handler example_runtime example_route_exc_text
      (Parsed (PDict [("jsonrpc", PStr "2.0"); ("id", PStr "a-1")])) fresh_state =
      (Replied (PDict fields), s') /\
    dict_get "id" fields = Some (PStr "a-1") /\
    xorb (dict_has "result" fields) (dict_has "error" fields) = true.
Proof.
  apply (message_route_echoes_id example_runtime example_route_exc_text
           [("jsonrpc", PStr "2.0"); ("id", PStr "a-1")] (PStr "a-1") fresh_state).
  - reflexivity.
  - discriminate.
Defined.

(** The health route of a server that has not yet talked to a database that
    answers. *)
Lemma health_reports_the_probe_witness :
  exists (sv' : server) (evs : list event),
    health_check example_runtime example_probe_query false "2025-01-01T00:00:00" fresh_server =
      (Returned
         (PDict [("status", PStr "healthy");
                 ("timestamp", PStr "2025-01-01T00:00:00");
                 ("database_connection", PBool true);
                 ("activeBridgeConnections", PInt 0);
                 ("tools", PList [PStr "run_select_query"; PStr "list_databases";
                                  PStr "list_tables"; PStr "describe_table"]);
                 ("database",
                  PDict [("host", PStr "172.16.3.6"); ("port", PInt 8123);
                         ("secure", PBool false)])]),
       sv') /\
    bridge_handler sv' = with_events fresh_state false evs /\
    tool_handler_client sv' = true /\
    queries evs = ["SELECT 1"].
Proof.
  destruct (health_reports_the_probe example_runtime example_probe_query false
              "2025-01-01T00:00:00" fresh_server) as (sv' & evs & Hreply & Hbridge & _ & _ & Hok).
  exists sv', evs. split; [exact Hreply|]. split; [exact Hbridge|].
  apply Hok. reflexivity.
Defined.

(** An Accept header in mixed case. *)
Lemma sse_route_choice_witness :
  sse_endpoint example_runtime (Some "application/json, Text/Event-Stream;q=0.9") = FullProtocol.
Proof.
  apply (proj2 (sse_route_choice example_runtime)
           "application/json, Text/Event-Stream;q=0.9").
  - reflexivity.
  - exists "application/json, ", "Text/Event-Stream", ";q=0.9". split; reflexivity.
Defined.

(** A [SELECT] with leading space, in mixed case, followed by a second
    statement. *)
Lemma guard_reads_only_the_first_word_witness :
  guard_passes example_runtime "  Select 1; DROP TABLE t" = true.
Proof.
  apply (proj2 (guard_reads_only_the_first_word example_runtime "  Select 1; DROP TABLE t"
                  eq_refl)).
  exists "  ", "Select", " 1; DROP TABLE t".
  split; [reflexivity|]. split; [reflexivity|]. left. reflexivity.
Defined.
